(** * The Fluxer gateway monitor of openclaw-fluxer (src/gateway.ts)

    A shallow embedding of [monitorFluxerProvider]: the session setup
    that builds the DM allowlist, and the [MessageCreate] handler with
    its filters, policy gates, media download, typing indicator and
    staged reply dispatch.

    JavaScript values are modelled as follows.
    - A string is a [string]; one character stands for one code unit
      (code units below 256).
    - The result of [Date.prototype.getTime] is a [Js.number]: an
      integer number of milliseconds or [NaN].
    - A statement completes normally, by [return], or by [throw]
      ([Completion]).
    - Every call that leaves the handler (host collaborators of [core],
      [sendMessage] and [triggerTyping] of rest.ts, the logger and the
      timer) is recorded as an [Event]; the host's state is an abstract
      world [W] threaded through the calls.

    Outside the model: the logger is taken not to throw; [new RegExp]
    is taken to accept the patterns built from the adapter's id; the
    firing of the repeating typing timer between start and stop is not
    represented; [selfUserId] does not change while one message is
    handled; [mediaMaxMb] is an integer. *)

From Stdlib Require Import ZArith List String Ascii Bool Lia.
Import ListNotations.

Local Open Scope Z_scope.
Local Open Scope string_scope.

(* ------------------------------------------------------------------ *)
(** ** JavaScript primitives used by the handler *)

Module Js.

(** The numbers the handler compares: millisecond counts and [NaN]. *)
Inductive number : Type :=
| Num (z : Z)
| NaN.

(** [a < b]: false as soon as one side is [NaN]. *)
Definition ltb (a b : number) : bool :=
  match a, b with
  | Num x, Num y => (x <? y)%Z
  | _, _ => false
  end.

(** Truthiness of a string: every string but the empty one. *)
Definition truthy (s : string) : bool :=
  match s with
  | EmptyString => false
  | String _ _ => true
  end.

(** Truthiness of a possibly undefined string. *)
Definition truthy_opt (o : option string) : bool :=
  match o with
  | Some s => truthy s
  | None => false
  end.

(** [a ?? b] *)
Definition nullish {A : Type} (o : option A) (d : A) : A :=
  match o with
  | Some a => a
  | None => d
  end.

(** [a ?? b] where [b] may be undefined too. *)
Definition nullish_opt {A : Type} (o d : option A) : option A :=
  match o with
  | Some a => Some a
  | None => d
  end.

(** White space code units below 256 (TAB, LF, VT, FF, CR, SP, NBSP). *)
Definition isWhiteSpace (c : ascii) : bool :=
  let n := nat_of_ascii c in
  ((9 <=? n) && (n <=? 13) || (n =? 32) || (n =? 160))%nat.

Fixpoint trimStart (s : string) : string :=
  match s with
  | EmptyString => EmptyString
  | String c r => if isWhiteSpace c then trimStart r else s
  end.

Fixpoint trimEnd (s : string) : string :=
  match s with
  | EmptyString => EmptyString
  | String c r =>
      match trimEnd r with
      | EmptyString => if isWhiteSpace c then EmptyString else String c EmptyString
      | r' => String c r'
      end
  end.

(** [s.trim()] *)
Definition trim (s : string) : string := trimEnd (trimStart s).

(** [s.slice(0, n)] for a non-negative [n]. *)
Definition slice0 (n : nat) (s : string) : string := substring 0 n s.

(** [lines.join("\n")] *)
Definition nl : string := String (ascii_of_nat 10) EmptyString.

Definition join_lines (lines : list string) : string := concat nl lines.

End Js.

(** The JavaScript built-ins whose semantics is not re-implemented here:
    date parsing and the regular-expression engine.  A pattern is given
    by its source text, as passed to [new RegExp]. *)
Record JsBuiltins : Type := {
  (** [new Date(s).getTime()] *)
  Date_getTime : string -> Js.number;
  (** [new RegExp(src).test(text)] *)
  RegExp_test : string -> string -> bool;
  (** [text.replace(new RegExp(src, "g"), "")] *)
  RegExp_removeAll : string -> string -> string
}.

(* ------------------------------------------------------------------ *)
(** ** Thrown values and completions *)

Inductive Exn : Type :=
| Thrown (shown : string)          (* a value thrown by a collaborator; [shown] is [String(err)] *)
| TypeError (shown : string)
| ReferenceError (ident : string). (* an identifier that resolves to no binding *)

(** [String(err)] *)
Definition String_of (e : Exn) : string :=
  match e with
  | Thrown s => s
  | TypeError s => "TypeError: " ++ s
  | ReferenceError x => "ReferenceError: " ++ x ++ " is not defined"
  end.

(** What a called function gives back to its caller. *)
Inductive Outcome (A : Type) : Type :=
| Returns (a : A)
| Throws (e : Exn).
Arguments Returns {A} a.
Arguments Throws {A} e.

(** How a statement of the handler completes. *)
Inductive Completion (A : Type) : Type :=
| Normal (a : A)
| Return
| Throw (e : Exn).
Arguments Normal {A} a.
Arguments Return {A}.
Arguments Throw {A} e.

(* ------------------------------------------------------------------ *)
(** ** Data model *)

(** [msg.author] *)
Record Author : Type := {
  author_id : string;
  username : string;
  bot : option bool;
  discriminator : option string
}.

Record Attachment : Type := {
  url : string;
  content_type : option string;
  filename : option string
}.

(** The decoded [MessageCreate] payload. *)
Record Message : Type := {
  id : string;
  channel_id : string;
  content : string;
  author : Author;
  guild_id : option string;
  timestamp : option string;
  referenced_message : option string;   (* [referenced_message?.id] *)
  attachments : option (list Attachment)
}.

(** [cfg.channels.fluxer.dm] *)
Record DmConfig : Type := {
  policy : option string;
  allowFrom : option (list string)
}.

(** [cfg.channels.fluxer] *)
Record FluxerConfig : Type := {
  dm : option DmConfig;
  groupPolicy : option string;
  replyToMode : option string;
  mediaMaxMb : option Z
}.

(** [cfg]: only [cfg.channels.fluxer] is read by the monitor. *)
Record Config : Type := {
  channels_fluxer : option FluxerConfig
}.

Definition emptyFluxerConfig : FluxerConfig :=
  {| dm := None; groupPolicy := None; replyToMode := None; mediaMaxMb := None |}.

(** The result of [resolveAgentRoute]. *)
Record AgentRoute : Type := {
  route_sessionKey : string;
  route_accountId : option string
}.

(** The argument of [resolveAgentRoute]. *)
Record RouteRequest : Type := {
  rr_cfg : Config;
  rr_channel : string;
  rr_accountId : string;
  rr_peer_kind : string;
  rr_peer_id : string
}.

(** The argument of [formatAgentEnvelope]. *)
Record EnvelopeRequest : Type := {
  er_channel : string;
  er_from : string;
  er_timestamp : Js.number;
  er_envelope : list (string * string);
  er_body : string
}.

(** The inbound context handed to the reply dispatchers. *)
Record CtxPayload : Type := {
  Body : string;
  BodyForAgent : string;
  RawBody : string;
  CommandBody : string;
  From : string;
  To : string;
  SessionKey : string;
  AccountId : string;
  ChatType : string;
  ConversationLabel : string;
  SenderName : string;
  SenderId : string;
  SenderUsername : string;
  GroupSubject : option string;
  Provider : string;
  Surface : string;
  WasMentioned : option bool;
  MessageSid : string;
  ReplyToId : option string;
  Timestamp : Js.number;
  MediaPath : option string;
  MediaUrl : option string;
  OriginatingChannel : string;
  OriginatingTo : string
}.

(** What a dispatcher hands to the [deliver] callback. *)
Record ReplyPayload : Type := {
  text : option string;
  mediaUrl : option string
}.

(** The options of [sendMessage]. *)
Record SendOpts : Type := {
  replyTo : option string;
  send_mediaUrl : option string
}.

(** The argument of [upsertPairingRequest]. *)
Record PairingRequest : Type := {
  pr_channel : string;
  pr_id : string;
  pr_meta_name : string
}.

(** The argument list of [saveMediaBuffer]. *)
Record SaveRequest : Type := {
  sv_buffer : string;
  sv_contentType : option string;
  sv_direction : string;
  sv_maxBytes : Z
}.

(** Every call that leaves the handler. *)
Inductive Event : Type :=
| EvReadAllowFromStore (channel : string)
| EvUpsertPairingRequest (req : PairingRequest)
| EvSendMessage (target body : string) (opts : SendOpts)
| EvBuildMentionRegexes
| EvMatchesMentionPatterns (body : string) (regexes : list string)
| EvFetchRemoteMedia (url : string)
| EvSaveMediaBuffer (req : SaveRequest)
| EvResolveAgentRoute (req : RouteRequest)
| EvTriggerTyping (channelId : string)
| EvSetInterval (ms : Z)
| EvStopTyping
| EvResolveEnvelopeFormatOptions
| EvFormatAgentEnvelope (req : EnvelopeRequest)
| EvDispatchBlock (ctx : CtxPayload)
| EvDispatchMessage (ctx : CtxPayload)
| EvEnqueueSystemEvent (body sessionKey : string)
| EvLogInfo (line : string)
| EvLogWarn (line : string)
| EvRuntimeError (line : string).

Definition Trace : Type := list Event.

(* ------------------------------------------------------------------ *)
(** ** The handler monad: host state, trace and completion *)

Section Monitor.

(** The state of everything outside the monitor: pairing store, media
    store, remote platform. *)
Variable W : Type.

Variable js : JsBuiltins.

Record Out (A : Type) : Type := mkOut {
  completion : Completion A;
  world : W;
  trace : Trace
}.
Arguments mkOut {A} _ _ _.
Arguments completion {A} _.
Arguments world {A} _.
Arguments trace {A} _.

Definition M (A : Type) : Type := W -> Out A.

Definition ret {A : Type} (a : A) : M A :=
  fun w => mkOut (Normal a) w [].

(** [return;] *)
Definition js_return {A : Type} : M A :=
  fun w => mkOut Return w [].

Definition throw {A : Type} (e : Exn) : M A :=
  fun w => mkOut (Throw e) w [].

Definition bind {A B : Type} (m : M A) (k : A -> M B) : M B :=
  fun w =>
    let o := m w in
    match completion o with
    | Normal a =>
        let o' := k a (world o) in
        mkOut (completion o') (world o') (trace o ++ trace o')%list
    | Return => mkOut Return (world o) (trace o)
    | Throw e => mkOut (Throw e) (world o) (trace o)
    end.

(** [try { body } catch (err) { handler }]: only a throw is caught. *)
Definition try_catch {A : Type} (body : M A) (handler : Exn -> M A) : M A :=
  fun w =>
    let o := body w in
    match completion o with
    | Throw e =>
        let o' := handler e (world o) in
        mkOut (completion o') (world o') (trace o ++ trace o')%list
    | _ => o
    end.

(** [try { body } finally { fin }]: [fin] runs however [body] completes
    and overrides the completion only when it completes abruptly. *)
Definition try_finally {A : Type} (body : M A) (fin : M unit) : M A :=
  fun w =>
    let o := body w in
    let f := fin (world o) in
    mkOut
      match completion f with
      | Normal _ => completion o
      | Return => Return
      | Throw e => Throw e
      end
      (world f) (trace o ++ trace f)%list.

(** The boundary of the (async) handler function: [return] ends the
    call, a throw rejects the promise. *)
Definition function_body (m : M unit) : M unit :=
  fun w =>
    let o := m w in
    mkOut
      match completion o with
      | Return => Normal tt
      | c => c
      end
      (world o) (trace o).

Definition emit (e : Event) : M unit :=
  fun w => mkOut (Normal tt) w [e].

(** A call of a collaborator: the call is recorded, the collaborator
    moves the world and returns or throws. *)
Definition call {B : Type} (e : Event) (op : W -> Outcome B * W) : M B :=
  fun w =>
    let '(r, w') := op w in
    mkOut
      match r with
      | Returns b => Normal b
      | Throws x => Throw x
      end
      w' [e].

(** What the caller of a callback sees: returned or thrown. *)
Definition outcome_of (c : Completion unit) : Outcome unit :=
  match c with
  | Throw e => Throws e
  | _ => Returns tt
  end.

Declare Scope js_scope.
Delimit Scope js_scope with js.
Notation "x <- m ;; k" := (bind m (fun x => k))
  (at level 61, m at next level, right associativity) : js_scope.
Notation "' p <- m ;; k" := (bind m (fun p => k))
  (at level 61, p pattern, m at next level, right associativity) : js_scope.
Notation "m ;; k" := (bind m (fun _ => k))
  (at level 61, right associativity) : js_scope.
Local Open Scope js_scope.

(* ------------------------------------------------------------------ *)
(** ** Collaborators *)

(** What [fetchRemoteMedia] resolves to. *)
Record Fetched : Type := {
  buffer : string;
  contentType : option string
}.

(** A reply dispatcher as the monitor sees it: it calls [deliver] and
    [onError] some number of times, reacting to what [deliver] gave
    back, and finally returns or throws. *)
Inductive DispatchRun : Type :=
| DDone (r : Outcome unit) (w : W)
| DDeliver (payload : ReplyPayload) (k : Outcome unit -> W -> DispatchRun)
| DOnError (err : Exn) (kind : string) (k : DispatchRun).

Definition Dispatcher : Type := CtxPayload -> Config -> W -> DispatchRun.

(** The host runtime [core].  A field is [None] when the optional chain
    that reaches the function yields [undefined]. *)
Record Core : Type := {
  readAllowFromStore : option (string -> W -> Outcome (list string) * W);
  upsertPairingRequest : option (PairingRequest -> W -> Outcome (string * bool) * W);
  buildMentionRegexes : option (Config -> W -> Outcome (list string) * W);
  matchesMentionPatterns : option (string -> list string -> W -> Outcome bool * W);
  fetchRemoteMedia : option (string -> W -> Outcome Fetched * W);
  saveMediaBuffer : option (SaveRequest -> W -> Outcome string * W);
  resolveAgentRoute : option (RouteRequest -> W -> Outcome AgentRoute * W);
  resolveEnvelopeFormatOptions :
    option (Config -> W -> Outcome (option (list (string * string))) * W);
  formatAgentEnvelope : option (EnvelopeRequest -> W -> Outcome (option string) * W);
  dispatchReplyWithBufferedBlockDispatcher : option Dispatcher;
  dispatchInboundMessageWithBufferedDispatcher : option Dispatcher;
  enqueueSystemEvent : option (string -> string -> W -> Outcome unit * W)
}.

(** The REST client behind rest.ts. *)
Record Rest : Type := {
  rest_sendMessage : string -> string -> SendOpts -> W -> Outcome unit * W;
  rest_triggerTyping : string -> W -> Outcome unit * W
}.

Variable rest : Rest.

(** [sendMessage(target, text, opts)] of rest.ts *)
Definition sendMessage (target body : string) (opts : SendOpts) : M unit :=
  call (EvSendMessage target body opts) (rest_sendMessage rest target body opts).

(** [sendMessage(target, text)] *)
Definition noSendOpts : SendOpts := {| replyTo := None; send_mediaUrl := None |}.

(** [log?.info(line)], [log?.warn(line)], [runtime?.error?.(line)] *)
Definition log_info (line : string) : M unit := emit (EvLogInfo line).
Definition log_warn (line : string) : M unit := emit (EvLogWarn line).
Definition runtime_error (line : string) : M unit := emit (EvRuntimeError line).

(** A call through an identifier that no enclosing scope binds. *)
Definition unbound_call (ident : string) : M unit :=
  throw (ReferenceError ident).

(* ------------------------------------------------------------------ *)
(** ** Session setup: [monitorFluxerProvider] before [gateway.connect] *)

Definition startupGraceMs : Z := 10000.

(** [cfg?.channels?.fluxer ?? {}] *)
Definition fluxerConfig (cfg : Config) : FluxerConfig :=
  Js.nullish (channels_fluxer cfg) emptyFluxerConfig.

(** [fluxerConfig.dm?.policy ?? "pairing"] *)
Definition dmPolicy (cfg : Config) : string :=
  Js.nullish
    match dm (fluxerConfig cfg) with
    | Some d => policy d
    | None => None
    end
    "pairing".

(** [(fluxerConfig.dm?.allowFrom ?? []).map(String)], the entries being
    strings already. *)
Definition configAllowFrom (cfg : Config) : list string :=
  Js.nullish
    match dm (fluxerConfig cfg) with
    | Some d => allowFrom d
    | None => None
    end
    [].

(** What the closures of [monitorFluxerProvider] capture. *)
Record Session : Type := {
  selfUserId : option string;
  startupMs : Z;
  accountId : string;
  cfg : Config;
  core : Core;
  effectiveAllowFrom : list string
}.

(** The options of [monitorFluxerProvider] that the handler depends on. *)
Record FluxerMonitorOpts : Type := {
  opt_accountId : option string;
  opt_config : Config;
  opt_core : Core
}.

(** Lines 46-54: the store allowlist, read when the host can. *)
Definition storeAllowFrom (c : Core) : M (list string) :=
  try_catch
    match readAllowFromStore c with
    | Some read => call (EvReadAllowFromStore "fluxer") (read "fluxer")
    | None => ret []
    end
    (fun _ => ret []).

(** Lines 20-55: [now] is what [Date.now()] gives at line 38. *)
Definition monitorFluxerProvider (opts : FluxerMonitorOpts) (now : Z) : M Session :=
  store <- storeAllowFrom (opt_core opts) ;;
  ret {| selfUserId := None;
         startupMs := now;
         accountId := Js.nullish (opt_accountId opts) "default";
         cfg := opt_config opts;
         core := opt_core opts;
         effectiveAllowFrom := (configAllowFrom (opt_config opts) ++ store)%list |}.

(** The [Ready] listener: [selfUserId = data.user.id]. *)
Definition onReady (s : Session) (userId : string) : Session :=
  {| selfUserId := Some userId;
     startupMs := startupMs s;
     accountId := accountId s;
     cfg := cfg s;
     core := core s;
     effectiveAllowFrom := effectiveAllowFrom s |}.

(** Lines 57-61. *)
Definition isAllowed (allow : list string) (senderId : string) : bool :=
  existsb (fun entry => (entry =? senderId) || (entry =? "*")) allow.

(* ------------------------------------------------------------------ *)
(** ** The [MessageCreate] handler, lines 82-357 *)

(** Line 100: [now] is what [Date.now()] gives there. *)
Definition eventTs (now : Z) (msg : Message) : Js.number :=
  match timestamp msg with
  | Some ts => if Js.truthy ts then Date_getTime js ts else Js.Num now
  | None => Js.Num now
  end.

(** The condition of line 101. *)
Definition beforeStartup (s : Session) (ts : Js.number) : bool :=
  Js.ltb ts (Js.Num (startupMs s - startupGraceMs)).

(** Lines 103-107. *)
Definition isDm (msg : Message) : bool := negb (Js.truthy_opt (guild_id msg)).
Definition channelId (msg : Message) : string := channel_id msg.
Definition senderId (msg : Message) : string := author_id (author msg).
Definition senderName (msg : Message) : string := username (author msg).
Definition bodyText (msg : Message) : string := Js.trim (content msg).

(** The condition of line 109. *)
Definition nothingToProcess (msg : Message) : bool :=
  negb (Js.truthy (bodyText msg)) &&
  match attachments msg with
  | Some (_ :: _) => false
  | _ => true
  end.

(** Lines 125-132. *)
Definition pairingReply (code : string) : string :=
  Js.join_lines
    [ "🦐 OpenClaw: access not configured.";
      "";
      "Pairing code: `" ++ code ++ "`";
      "";
      "Ask the bot owner to approve:";
      "`openclaw pairing approve fluxer <code>`" ].

(** Lines 117-137: the pairing challenge. *)
Definition pairingChallenge (s : Session) (msg : Message) : M unit :=
  try_catch
    match upsertPairingRequest (core s) with
    | Some upsert =>
        let req := {| pr_channel := "fluxer";
                      pr_id := senderId msg;
                      pr_meta_name := senderName msg |} in
        '(code, created) <- call (EvUpsertPairingRequest req) (upsert req) ;;
        if created : bool
        then sendMessage (channelId msg) (pairingReply code) noSendOpts
        else ret tt
    | None => ret tt
    end
    (fun err => log_warn ("fluxer: pairing reply failed: " ++ String_of err)).

(** Lines 113-140: DM policy enforcement. *)
Definition dmPolicyEnforcement (s : Session) (msg : Message) : M unit :=
  if dmPolicy (cfg s) =? "disabled" then js_return
  else if negb (dmPolicy (cfg s) =? "open")
          && negb (isAllowed (effectiveAllowFrom s) (senderId msg))
  then
    (if dmPolicy (cfg s) =? "pairing" then pairingChallenge s msg else ret tt) ;;
    js_return
  else ret tt.

(** Lines 149-150. *)
Definition selfMentionPattern (s : Session) : option string :=
  match selfUserId s with
  | Some uid => if Js.truthy uid then Some ("<@!?" ++ uid ++ ">") else None
  | None => None
  end.

Definition hasSelfMention (s : Session) (body : string) : bool :=
  match selfMentionPattern s with
  | Some pat => RegExp_test js pat body
  | None => false
  end.

(** Lines 153-159. *)
Definition hasConfigMention (s : Session) (body : string) : M bool :=
  try_catch
    match buildMentionRegexes (core s) with
    | Some build =>
        regexes <- call EvBuildMentionRegexes (build (cfg s)) ;;
        match matchesMentionPatterns (core s) with
        | Some matches =>
            call (EvMatchesMentionPatterns body regexes) (matches body regexes)
        | None =>
            throw (TypeError "core.channel.mentions.matchesMentionPatterns is not a function")
        end
    | None => ret false
    end
    (fun _ => ret false).

(** Lines 145-163: group policy and mention requirement. *)
Definition groupMentionCheck (s : Session) (msg : Message) : M unit :=
  if Js.nullish (groupPolicy (fluxerConfig (cfg s))) "open" =? "disabled" then js_return
  else
    configMention <- hasConfigMention s (bodyText msg) ;;
    if negb (hasSelfMention s (bodyText msg)) && negb configMention
    then js_return
    else ret tt.

(** The byte ceiling of line 177. *)
Definition mediaMaxBytes (s : Session) : Z :=
  Js.nullish (mediaMaxMb (fluxerConfig (cfg s))) 25 * 1024 * 1024.

(** Lines 167-184: the value of [mediaPath] after the download. *)
Definition downloadFirstAttachment (s : Session) (msg : Message) : M (option string) :=
  match attachments msg with
  | Some (att :: _) =>
      try_catch
        match fetchRemoteMedia (core s), saveMediaBuffer (core s) with
        | Some fetch, Some save =>
            fetched <- call (EvFetchRemoteMedia (url att)) (fetch (url att)) ;;
            let req := {| sv_buffer := buffer fetched;
                          sv_contentType :=
                            Js.nullish_opt (contentType fetched) (content_type att);
                          sv_direction := "inbound";
                          sv_maxBytes := mediaMaxBytes s |} in
            path <- call (EvSaveMediaBuffer req) (save req) ;;
            ret (Some path)
        | _, _ => ret None
        end
        (fun err =>
           log_warn ("fluxer: media download failed: " ++ String_of err) ;;
           ret None)
  | _ => ret None
  end.

(** The fallback session key of lines 204-206 and 209. *)
Definition fallbackSessionKey (msg : Message) : string :=
  if isDm msg then "agent:main:main"
  else "agent:main:fluxer:channel:" ++ channelId msg.

(** Lines 187-210: the values of [sessionKey] and [agentRoute]. *)
Definition resolveSessionRouting (s : Session) (msg : Message)
  : M (string * option AgentRoute) :=
  try_catch
    match resolveAgentRoute (core s) with
    | Some resolve =>
        let req := {| rr_cfg := cfg s;
                      rr_channel := "fluxer";
                      rr_accountId := accountId s;
                      rr_peer_kind := if isDm msg then "direct" else "channel";
                      rr_peer_id := if isDm msg then senderId msg else channelId msg |} in
        route <- call (EvResolveAgentRoute req) (resolve req) ;;
        ret (route_sessionKey route, Some route)
    | None => ret (fallbackSessionKey msg, None)
    end
    (fun _ => ret (fallbackSessionKey msg, None)).

(** Lines 213-216. *)
Definition cleanBody (s : Session) (msg : Message) : string :=
  match selfUserId s with
  | Some uid =>
      if Js.truthy uid
      then Js.trim (RegExp_removeAll js ("<@!?" ++ uid ++ ">\s*") (bodyText msg))
      else bodyText msg
  | None => bodyText msg
  end.

(** Line 219. *)
Definition fromLabel (msg : Message) : string :=
  if isDm msg then senderName msg else "#" ++ channelId msg.

(** Lines 224-226: [triggerTyping(channelId).catch(() => {})]. *)
Definition sendTyping (msg : Message) : M unit :=
  fun w =>
    mkOut (Normal tt) (snd (rest_triggerTyping rest (channelId msg) w))
          [EvTriggerTyping (channelId msg)].

(** Lines 223-230: the indicator is switched on and the repeating
    timer installed. *)
Definition startTyping (msg : Message) : M unit :=
  sendTyping msg ;;
  emit (EvSetInterval 5000).

(** Lines 231-234: [typingActive = false; clearInterval(typingInterval)]. *)
Definition stopTyping : M unit := emit EvStopTyping.

(** Line 237. *)
Definition envelopeOptions (s : Session) : M (list (string * string)) :=
  match resolveEnvelopeFormatOptions (core s) with
  | Some resolve =>
      r <- call EvResolveEnvelopeFormatOptions (resolve (cfg s)) ;;
      ret (Js.nullish r [])
  | None => ret []
  end.

(** Lines 238-244. *)
Definition formattedBody (s : Session) (ts : Js.number) (msg : Message)
  (envelope : list (string * string)) : M string :=
  let fallback :=
    "[Fluxer message from " ++ fromLabel msg ++ "]" ++ Js.nl ++ cleanBody s msg in
  match formatAgentEnvelope (core s) with
  | Some format =>
      let req := {| er_channel := "Fluxer";
                    er_from := fromLabel msg;
                    er_timestamp := ts;
                    er_envelope := envelope;
                    er_body := cleanBody s msg |} in
      r <- call (EvFormatAgentEnvelope req) (format req) ;;
      ret (Js.nullish r fallback)
  | None => ret fallback
  end.

(** Lines 246-271. *)
Definition ctxPayload (s : Session) (ts : Js.number) (msg : Message)
  (mediaPath : option string) (sessionKey : string)
  (agentRoute : option AgentRoute) (body : string) : CtxPayload :=
  {| Body := body;
     BodyForAgent := cleanBody s msg;
     RawBody := bodyText msg;
     CommandBody := cleanBody s msg;
     From := if isDm msg then "fluxer:" ++ senderId msg
             else "fluxer:channel:" ++ channelId msg;
     To := channelId msg;
     SessionKey := sessionKey;
     AccountId :=
       Js.nullish
         match agentRoute with
         | Some route => route_accountId route
         | None => None
         end
         (accountId s);
     ChatType := if isDm msg then "direct" else "channel";
     ConversationLabel := fromLabel msg;
     SenderName := senderName msg;
     SenderId := senderId msg;
     SenderUsername := username (author msg);
     GroupSubject := if isDm msg then None else Some (channelId msg);
     Provider := "fluxer";
     Surface := "fluxer";
     WasMentioned := if negb (isDm msg) then Some true else None;
     MessageSid := id msg;
     ReplyToId := referenced_message msg;
     Timestamp := ts;
     MediaPath := mediaPath;
     MediaUrl := mediaPath;
     OriginatingChannel := "fluxer";
     OriginatingTo := channelId msg |}.

(** Line 274. *)
Definition replyToModeOf (s : Session) : string :=
  Js.nullish (replyToMode (fluxerConfig (cfg s))) "off".

(** Lines 281-287 and 316-322: the [deliver] callback. *)
Definition deliver (s : Session) (msg : Message) (payload : ReplyPayload) : M unit :=
  let replyToId :=
    if negb (replyToModeOf s =? "off") then Some (id msg) else None in
  sendMessage (channelId msg) (Js.nullish (text payload) "")
    {| replyTo := replyToId; send_mediaUrl := mediaUrl payload |}.

(** Lines 288-290 and 323-325: the [onError] callback. *)
Definition onError (err : Exn) (kind : string) : M unit :=
  log_warn ("fluxer: " ++ kind ++ " reply failed: " ++ String_of err).

(** The callbacks as a dispatcher drives them. *)
Fixpoint runDispatch (dlv : ReplyPayload -> M unit) (onErr : Exn -> string -> M unit)
  (run : DispatchRun) : M unit :=
  match run with
  | DDone r w' =>
      fun _ =>
        mkOut
          match r with
          | Returns _ => Normal tt
          | Throws e => Throw e
          end
          w' []
  | DDeliver payload k =>
      fun w =>
        let o := dlv payload w in
        let o' := runDispatch dlv onErr (k (outcome_of (completion o)) (world o)) (world o) in
        mkOut (completion o') (world o') (trace o ++ trace o')%list
  | DOnError err kind k =>
      fun w =>
        let o := onErr err kind w in
        let o' := runDispatch dlv onErr k (world o) in
        mkOut (completion o') (world o') (trace o ++ trace o')%list
  end.

(** [await dispatcher({ ctx, cfg, dispatcherOptions: { deliver, onError } })] *)
Definition dispatch (e : Event) (d : Dispatcher) (s : Session) (msg : Message)
  (ctx : CtxPayload) : M unit :=
  fun w =>
    let o := runDispatch (deliver s msg) onError (d ctx (cfg s) w) w in
    mkOut (completion o) (world o) (e :: trace o).

(** The text of a system event, its body cut to [n] code units. *)
Definition systemEventText (s : Session) (msg : Message) (n : nat) : string :=
  "Fluxer message from " ++ senderName msg ++ ": " ++ Js.slice0 n (cleanBody s msg).

(** Lines 277-303: the block dispatcher is there and is called. *)
Definition blockAttempt (d : Dispatcher) (s : Session) (msg : Message)
  (ctx : CtxPayload) (sessionKey : string) : M unit :=
  dispatch (EvDispatchBlock ctx) d s msg ctx ;;
  stopTyping ;;
  log_info ("fluxer: dispatched reply to " ++ channelId msg) ;;
  (if negb (isDm msg)
   then
     match enqueueSystemEvent (core s) with
     | Some enqueue =>
         call (EvEnqueueSystemEvent (systemEventText s msg 160) sessionKey)
              (enqueue (systemEventText s msg 160) sessionKey)
     | None => ret tt
     end
   else ret tt) ;;
  js_return.

(** Lines 275-307: the buffered block dispatcher. *)
Definition blockDispatch (s : Session) (msg : Message) (ctx : CtxPayload)
  (sessionKey : string) : M unit :=
  try_catch
    match dispatchReplyWithBufferedBlockDispatcher (core s) with
    | Some d => blockAttempt d s msg ctx sessionKey
    | None => ret tt
    end
    (fun err => log_warn ("fluxer: buffered dispatch failed: " ++ String_of err)).

(** Lines 312-330: the message dispatcher is there and is called. *)
Definition messageAttempt (d : Dispatcher) (s : Session) (msg : Message)
  (ctx : CtxPayload) : M unit :=
  dispatch (EvDispatchMessage ctx) d s msg ctx ;;
  stopTyping ;;
  log_info ("fluxer: dispatched reply (fallback) to " ++ channelId msg) ;;
  js_return.

(** Lines 310-334: the buffered message dispatcher. *)
Definition messageDispatch (s : Session) (msg : Message) (ctx : CtxPayload) : M unit :=
  try_catch
    match dispatchInboundMessageWithBufferedDispatcher (core s) with
    | Some d => messageAttempt d s msg ctx
    | None => ret tt
    end
    (fun err => log_warn ("fluxer: fallback dispatch failed: " ++ String_of err)).

(** Lines 337-351: system event injection. *)
Definition systemEventInjection (s : Session) (msg : Message) (sessionKey : string)
  : M unit :=
  try_finally
    (try_catch
       match enqueueSystemEvent (core s) with
       | Some enqueue =>
           call (EvEnqueueSystemEvent (systemEventText s msg 500) sessionKey)
                (enqueue (systemEventText s msg 500) sessionKey) ;;
           log_info ("fluxer: injected system event for " ++ channelId msg)
       | None =>
           log_warn ("fluxer: no dispatch mechanism available for message from "
                     ++ senderName msg)
       end
       (fun err => log_warn ("fluxer: last resort dispatch failed: " ++ String_of err)))
    stopTyping.

(** Lines 273-351: the staged dispatch. *)
Definition stagedDispatch (s : Session) (msg : Message) (ctx : CtxPayload)
  (sessionKey : string) : M unit :=
  blockDispatch s msg ctx sessionKey ;;
  messageDispatch s msg ctx ;;
  systemEventInjection s msg sessionKey.

(** Lines 186-351: routing, typing indicator, envelope, dispatch. *)
Definition deliverReply (s : Session) (ts : Js.number) (msg : Message)
  (mediaPath : option string) : M unit :=
  ' (sessionKey, agentRoute) <- resolveSessionRouting s msg ;;
  startTyping msg ;;
  envelope <- envelopeOptions s ;;
  body <- formattedBody s ts msg envelope ;;
  stagedDispatch s msg (ctxPayload s ts msg mediaPath sessionKey agentRoute body)
    sessionKey.

(** [if (c) return;] *)
Definition return_if (c : bool) : M unit :=
  if c then js_return else ret tt.

(** Line 96: [msg.author.id === selfUserId]. *)
Definition fromSelf (s : Session) (msg : Message) : bool :=
  match selfUserId s with
  | Some uid => author_id (author msg) =? uid
  | None => false
  end.

(** Line 97: [msg.author.bot] as a condition. *)
Definition fromBot (msg : Message) : bool :=
  match bot (author msg) with
  | Some b => b
  | None => false
  end.

(** Lines 166-351: what follows the policy gates. *)
Definition afterGates (s : Session) (ts : Js.number) (msg : Message) : M unit :=
  mediaPath <- downloadFirstAttachment s msg ;;
  deliverReply s ts msg mediaPath.

(** Lines 103-351: what follows the staleness filter. *)
Definition processMessage (s : Session) (ts : Js.number) (msg : Message) : M unit :=
  return_if (nothingToProcess msg) ;;
  (if isDm msg then dmPolicyEnforcement s msg else ret tt) ;;
  (if negb (isDm msg) then groupMentionCheck s msg else ret tt) ;;
  afterGates s ts msg.

(** Lines 84-351: the body of the outer [try]. *)
Definition handleMessage (s : Session) (now : Z) (msg : Message) : M unit :=
  return_if (fromSelf s msg) ;;
  return_if (fromBot msg) ;;
  return_if (beforeStartup s (eventTs now msg)) ;;
  processMessage s (eventTs now msg) msg.

(** Lines 352-356: the outer [catch].  [stopTyping] is declared with
    [const] inside the [try] block, so the catch block, which is not
    inside that block, has no binding for the identifier. *)
Definition handlerCatch (err : Exn) : M unit :=
  unbound_call "stopTyping" ;;
  log_warn ("fluxer: handler error: " ++ String_of err) ;;
  runtime_error ("fluxer handler failed: " ++ String_of err).

(** Lines 82-357: the [MessageCreate] listener.  The session is the one
    in force when the event arrives; [now] is the clock reading of
    line 100. *)
Definition onMessageCreate (s : Session) (now : Z) (msg : Message) : M unit :=
  function_body (try_catch (handleMessage s now msg) handlerCatch).

End Monitor.

Arguments mkOut {W A}.
Arguments completion {W A}.
Arguments world {W A}.
Arguments trace {W A}.
Arguments ret {W A}.
Arguments js_return {W A}.
Arguments throw {W A}.
Arguments bind {W A B}.
Arguments try_catch {W A}.
Arguments try_finally {W A}.
Arguments function_body {W}.
Arguments emit {W}.
Arguments call {W B}.
Arguments readAllowFromStore {W}.
Arguments upsertPairingRequest {W}.
Arguments buildMentionRegexes {W}.
Arguments matchesMentionPatterns {W}.
Arguments fetchRemoteMedia {W}.
Arguments saveMediaBuffer {W}.
Arguments resolveAgentRoute {W}.
Arguments resolveEnvelopeFormatOptions {W}.
Arguments formatAgentEnvelope {W}.
Arguments dispatchReplyWithBufferedBlockDispatcher {W}.
Arguments dispatchInboundMessageWithBufferedDispatcher {W}.
Arguments enqueueSystemEvent {W}.
Arguments rest_sendMessage {W}.
Arguments rest_triggerTyping {W}.
Arguments selfUserId {W}.
Arguments startupMs {W}.
Arguments accountId {W}.
Arguments cfg {W}.
Arguments core {W}.
Arguments effectiveAllowFrom {W}.
Arguments opt_accountId {W}.
Arguments opt_config {W}.
Arguments opt_core {W}.
Arguments DDone {W}.
Arguments DDeliver {W}.
Arguments DOnError {W}.
Arguments sendMessage {W}.
Arguments log_info {W}.
Arguments log_warn {W}.
Arguments runtime_error {W}.
Arguments unbound_call {W}.
Arguments storeAllowFrom {W}.
Arguments monitorFluxerProvider {W}.
Arguments onReady {W}.
Arguments beforeStartup {W}.
Arguments pairingChallenge {W}.
Arguments dmPolicyEnforcement {W}.
Arguments selfMentionPattern {W}.
Arguments hasSelfMention {W}.
Arguments hasConfigMention {W}.
Arguments groupMentionCheck {W}.
Arguments mediaMaxBytes {W}.
Arguments downloadFirstAttachment {W}.
Arguments resolveSessionRouting {W}.
Arguments cleanBody {W}.
Arguments sendTyping {W}.
Arguments startTyping {W}.
Arguments stopTyping {W}.
Arguments envelopeOptions {W}.
Arguments formattedBody {W}.
Arguments ctxPayload {W}.
Arguments replyToModeOf {W}.
Arguments deliver {W}.
Arguments onError {W}.
Arguments runDispatch {W}.
Arguments dispatch {W}.
Arguments systemEventText {W}.
Arguments blockAttempt {W}.
Arguments blockDispatch {W}.
Arguments messageAttempt {W}.
Arguments messageDispatch {W}.
Arguments systemEventInjection {W}.
Arguments stagedDispatch {W}.
Arguments deliverReply {W}.
Arguments return_if {W}.
Arguments fromSelf {W}.
Arguments afterGates {W}.
Arguments processMessage {W}.
Arguments handleMessage {W}.
Arguments handlerCatch {W}.
Arguments onMessageCreate {W}.

(** The notations of the handler monad, outside the section. *)
Declare Scope js_scope.
Delimit Scope js_scope with js.
Notation "x <- m ;; k" := (bind m (fun x => k))
  (at level 61, m at next level, right associativity) : js_scope.
Notation "' p <- m ;; k" := (bind m (fun p => k))
  (at level 61, p pattern, m at next level, right associativity) : js_scope.
Notation "m ;; k" := (bind m (fun _ => k))
  (at level 61, right associativity) : js_scope.

(* ------------------------------------------------------------------ *)
(** ** Observations on traces *)

Definition is_stopTyping (e : Event) : bool :=
  match e with
  | EvStopTyping => true
  | _ => false
  end.

Definition is_storeRead (e : Event) : bool :=
  match e with
  | EvReadAllowFromStore _ => true
  | _ => false
  end.

Definition is_upsert (e : Event) : bool :=
  match e with
  | EvUpsertPairingRequest _ => true
  | _ => false
  end.

Definition is_sendMessage (e : Event) : bool :=
  match e with
  | EvSendMessage _ _ _ => true
  | _ => false
  end.

(** A dispatch attempt: a call of one of the two dispatchers or of the
    system event sink. *)
Definition is_dispatchAttempt (e : Event) : bool :=
  match e with
  | EvDispatchBlock _ | EvDispatchMessage _ | EvEnqueueSystemEvent _ _ => true
  | _ => false
  end.

Definition is_typingStart (e : Event) : bool :=
  match e with
  | EvSetInterval _ => true
  | _ => false
  end.

Definition is_blockCall (e : Event) : bool :=
  match e with
  | EvDispatchBlock _ => true
  | _ => false
  end.



(** The envelopes handed to the dispatchers, in order. *)
Fixpoint envelopes (t : Trace) : list CtxPayload :=
  match t with
  | [] => []
  | EvDispatchBlock ctx :: r => ctx :: envelopes r
  | EvDispatchMessage ctx :: r => ctx :: envelopes r
  | _ :: r => envelopes r
  end.

Definition count (p : Event -> bool) (t : Trace) : nat :=
  List.length (filter p t).

(** Every event of [m], from whatever world, satisfies [P]. *)
Definition emits {W A : Type} (P : Event -> Prop) (m : M W A) : Prop :=
  forall w, Forall P (trace (m w)).

(** No event of [m] is selected by [p]. *)
Definition avoids {W A : Type} (p : Event -> bool) (m : M W A) : Prop :=
  emits (fun e => p e = false) m.


(** What a read of the store allowlist yields in world [w]: the entries
    returned, nothing when the host cannot read or the read throws. *)
Definition storeEntriesAt {W : Type} (c : Core W) (w : W) : list string :=
  match readAllowFromStore c with
  | Some read =>
      match fst (read "fluxer" w) with
      | Returns entries => entries
      | Throws _ => []
      end
  | None => []
  end.


(* ------------------------------------------------------------------ *)
(** ** A concrete host, used to run the handler on examples *)

Module Scenario.

(** The pairing store of the host: approved sender ids and pending
    requests with their codes. *)
Record Host : Type := {
  approved : list string;
  pending : list (string * string)
}.

Definition emptyHost : Host := {| approved := []; pending := [] |}.

(** The owner approves a sender outside the monitor. *)
Definition approve (sender : string) (h : Host) : Host :=
  {| approved := (approved h ++ [sender])%list;
     pending := filter (fun p => negb (fst p =? sender)) (pending h) |}.

Definition readStore (_ : string) (h : Host) : Outcome (list string) * Host :=
  (Returns (approved h), h).

(** A request is created once per sender; asking again gives the same
    code with [created = false]. *)
Definition upsert (req : PairingRequest) (h : Host) : Outcome (string * bool) * Host :=
  match find (fun p => fst p =? pr_id req) (pending h) with
  | Some p => (Returns (snd p, false), h)
  | None =>
      (Returns ("PAIR-" ++ pr_id req, true),
       {| approved := approved h;
          pending := (pr_id req, "PAIR-" ++ pr_id req) :: pending h |})
  end.

Definition okRest : Rest Host :=
  {| rest_sendMessage := fun _ _ _ h => (Returns tt, h);
     rest_triggerTyping := fun _ h => (Returns tt, h) |}.

(** A dispatcher that delivers one reply and returns. *)
Definition replyOnce : Dispatcher Host :=
  fun ctx _ h =>
    DDeliver {| text := Some ("re: " ++ BodyForAgent ctx); mediaUrl := None |}
             (fun _ h' => DDone (Returns tt) h').

(** A dispatcher that throws at once. *)
Definition broken : Dispatcher Host :=
  fun _ _ h => DDone (Throws (Thrown "Error: dispatcher down")) h.

(** A host that offers nothing. *)
Definition bareCore : Core Host :=
  {| readAllowFromStore := None;
     upsertPairingRequest := None;
     buildMentionRegexes := None;
     matchesMentionPatterns := None;
     fetchRemoteMedia := None;
     saveMediaBuffer := None;
     resolveAgentRoute := None;
     resolveEnvelopeFormatOptions := None;
     formatAgentEnvelope := None;
     dispatchReplyWithBufferedBlockDispatcher := None;
     dispatchInboundMessageWithBufferedDispatcher := None;
     enqueueSystemEvent := None |}.

(** A host with the pairing store only. *)
Definition storeCore : Core Host :=
  {| readAllowFromStore := Some readStore;
     upsertPairingRequest := Some upsert;
     buildMentionRegexes := None;
     matchesMentionPatterns := None;
     fetchRemoteMedia := None;
     saveMediaBuffer := None;
     resolveAgentRoute := None;
     resolveEnvelopeFormatOptions := None;
     formatAgentEnvelope := None;
     dispatchReplyWithBufferedBlockDispatcher := None;
     dispatchInboundMessageWithBufferedDispatcher := None;
     enqueueSystemEvent := None |}.

(** A host with dispatchers, system events and media, given piecewise. *)
Definition replyCore (blockD messageD : option (Dispatcher Host))
  (sink : option (string -> string -> Host -> Outcome unit * Host))
  (format : option (EnvelopeRequest -> Host -> Outcome (option string) * Host))
  (fetch : option (string -> Host -> Outcome Fetched * Host))
  (save : option (SaveRequest -> Host -> Outcome string * Host)) : Core Host :=
  {| readAllowFromStore := Some readStore;
     upsertPairingRequest := Some upsert;
     buildMentionRegexes := None;
     matchesMentionPatterns := None;
     fetchRemoteMedia := fetch;
     saveMediaBuffer := save;
     resolveAgentRoute := None;
     resolveEnvelopeFormatOptions := None;
     formatAgentEnvelope := format;
     dispatchReplyWithBufferedBlockDispatcher := blockD;
     dispatchInboundMessageWithBufferedDispatcher := messageD;
     enqueueSystemEvent := sink |}.

Definition okSink (_ _ : string) (h : Host) : Outcome unit * Host := (Returns tt, h).
Definition brokenSink (_ _ : string) (h : Host) : Outcome unit * Host :=
  (Throws (Thrown "Error: queue closed"), h).
Definition brokenFormat (_ : EnvelopeRequest) (h : Host) : Outcome (option string) * Host :=
  (Throws (Thrown "Error: bad envelope"), h).

Definition config (dmPol grpPol replyMode : option string) (allow : list string) : Config :=
  {| channels_fluxer :=
       Some {| dm := Some {| policy := dmPol; allowFrom := Some allow |};
               groupPolicy := grpPol;
               replyToMode := replyMode;
               mediaMaxMb := None |} |}.

Definition session (c : Core Host) (conf : Config) (self : option string)
  (allow : list string) : Session Host :=
  {| selfUserId := self;
     startupMs := 1767225600000;
     accountId := "default";
     cfg := conf;
     core := c;
     effectiveAllowFrom := allow |}.

Definition user (uid name : string) : Author :=
  {| author_id := uid; username := name; bot := None; discriminator := None |}.

(** A direct message without timestamp. *)
Definition directMessage (sender : Author) (body : string) : Message :=
  {| id := "m1";
     channel_id := "c1";
     content := body;
     author := sender;
     guild_id := None;
     timestamp := None;
     referenced_message := None;
     attachments := None |}.

(** A message in a guild channel. *)
Definition groupMessage (sender : Author) (body : string) : Message :=
  {| id := "m2";
     channel_id := "c2";
     content := body;
     author := sender;
     guild_id := Some "g1";
     timestamp := None;
     referenced_message := None;
     attachments := None |}.

(** ** Built-ins for the examples

    Dates: the three instants the examples use.  Patterns: the two
    shapes the handler builds, [<@!?ID>] and [<@!?ID>\s*], for an id
    without characters that are special in a pattern. *)

Definition sampleDate (s : string) : Js.number :=
  if s =? "2026-01-01T00:00:00.000Z" then Js.Num 1767225600000
  else if s =? "2026-01-01T00:01:00.000Z" then Js.Num 1767225660000
  else if s =? "2025-12-31T23:00:00.000Z" then Js.Num 1767222000000
  else Js.NaN.

Fixpoint contains (needle hay : string) : bool :=
  prefix needle hay ||
  match hay with
  | EmptyString => false
  | String _ r => contains needle r
  end.

(** The id of a pattern [<@!?ID>...]. *)
Definition mentionId (pat : string) : option string :=
  if prefix "<@!?" pat
  then
    let tail := substring 4 (String.length pat - 4) pat in
    match index 0 ">" tail with
    | Some n => Some (substring 0 n tail)
    | None => None
    end
  else None.

Definition sampleTest (pat body : string) : bool :=
  match mentionId pat with
  | Some uid => contains ("<@" ++ uid ++ ">") body || contains ("<@!" ++ uid ++ ">") body
  | None => false
  end.

(** Removes every mention token together with the white space after it.
    [skip] counts the code units of a token still to drop, [ws] tells
    that white space is being dropped. *)
Fixpoint strip (tok1 tok2 : string) (skip : nat) (ws : bool) (s : string) : string :=
  match s with
  | EmptyString => EmptyString
  | String c r =>
      match skip with
      | S n => strip tok1 tok2 n true r
      | O =>
          if ws && Js.isWhiteSpace c then strip tok1 tok2 O true r
          else if prefix tok1 s then strip tok1 tok2 (String.length tok1 - 1) true r
          else if prefix tok2 s then strip tok1 tok2 (String.length tok2 - 1) true r
          else String c (strip tok1 tok2 O false r)
      end
  end.

Definition sampleRemoveAll (pat body : string) : string :=
  match mentionId pat with
  | Some uid => strip ("<@" ++ uid ++ ">") ("<@!" ++ uid ++ ">") O false body
  | None => body
  end.

Definition sampleJs : JsBuiltins :=
  {| Date_getTime := sampleDate;
     RegExp_test := sampleTest;
     RegExp_removeAll := sampleRemoveAll |}.

(** ** Sessions and messages of the examples *)

(** The clock at session start and 100 seconds later. *)
Definition startup : Z := 1767225600000.
Definition later : Z := 1767225700000.

Definition alice : Author := user "u1" "alice".
Definition bob : Author := user "u9" "bob".

(** Setup under the allowlist policy with one configured entry. *)
Definition allowlistOpts (allow : list string) : FluxerMonitorOpts Host :=
  {| opt_accountId := None;
     opt_config := config (Some "allowlist") None None allow;
     opt_core := storeCore |}.

(** A session under the open DM policy, the adapter being user 12345. *)
Definition openSession (c : Core Host) : Session Host :=
  session c (config (Some "open") None None []) (Some "12345") [].

(** A session under the default DM policy, which is [pairing]. *)
Definition pairingSession (c : Core Host) : Session Host :=
  session c (config None None None []) (Some "12345") [].

(** [formatAgentEnvelope] throws. *)
Definition formatThrows : Session Host :=
  openSession (replyCore (Some replyOnce) None (Some okSink) (Some brokenFormat) None None).

(** Both dispatchers work, the system event sink throws. *)
Definition sinkThrows : Session Host :=
  openSession (replyCore (Some replyOnce) (Some replyOnce) (Some brokenSink) None None None).

(** The block dispatcher works; [replyToMode] is not configured. *)
Definition replying : Session Host :=
  openSession (replyCore (Some replyOnce) None (Some okSink) None None None).

(** Both dispatchers throw. *)
Definition dispatchersDown : Session Host :=
  openSession (replyCore (Some broken) (Some broken) (Some okSink) None None None).

(** A reply to message m0. *)
Definition replyMessage : Message :=
  {| id := "m1";
     channel_id := "c1";
     content := "hi";
     author := alice;
     guild_id := None;
     timestamp := None;
     referenced_message := Some "m0";
     attachments := None |}.

(** A message sent an hour before session start. *)
Definition staleMessage : Message :=
  {| id := "m1";
     channel_id := "c1";
     content := "hi";
     author := alice;
     guild_id := None;
     timestamp := Some "2025-12-31T23:00:00.000Z";
     referenced_message := None;
     attachments := None |}.







(** Configured mention patterns: the word [claw]. *)
Definition buildPatterns (_ : Config) (h : Host) : Outcome (list string) * Host :=
  (Returns ["claw"], h).

Definition matchPatterns (body : string) (regexes : list string) (h : Host)
  : Outcome bool * Host :=
  (Returns (existsb (fun r => contains r body) regexes), h).

(** A host with configured mention patterns and a block dispatcher. *)
Definition mentionCore : Core Host :=
  {| readAllowFromStore := Some readStore;
     upsertPairingRequest := Some upsert;
     buildMentionRegexes := Some buildPatterns;
     matchesMentionPatterns := Some matchPatterns;
     fetchRemoteMedia := None;
     saveMediaBuffer := None;
     resolveAgentRoute := None;
     resolveEnvelopeFormatOptions := None;
     formatAgentEnvelope := None;
     dispatchReplyWithBufferedBlockDispatcher := Some replyOnce;
     dispatchInboundMessageWithBufferedDispatcher := None;
     enqueueSystemEvent := Some okSink |}.

(** A session with those patterns, before [Ready]: the adapter's own id
    is not known. *)
Definition mentionSession : Session Host :=
  session mentionCore (config None None None []) None [].

End Scenario.

(** [m] never completes by a throw. *)
Definition nothrow {W A : Type} (m : M W A) : Prop :=
  forall w e, completion (m w) <> Throw e.

(** A throw of [m] comes with neither a start nor a stop of the typing
    indicator in the trace of [m]. *)
Definition throws_clean {W A : Type} (m : M W A) : Prop :=
  forall w e,
    completion (m w) = Throw e ->
    count is_typingStart (trace (m w)) = 0%nat /\
    count is_stopTyping (trace (m w)) = 0%nat.

(** A step that neither throws nor touches the typing indicator. *)
Definition quiet {W A : Type} (m : M W A) : Prop :=
  nothrow m /\ avoids is_typingStart m /\ avoids is_stopTyping m.

(** The session key and account id that an event hands on. *)
Definition keyed (key acct : string) (e : Event) : Prop :=
  match e with
  | EvDispatchBlock ctx | EvDispatchMessage ctx =>
      SessionKey ctx = key /\ AccountId ctx = acct
  | EvEnqueueSystemEvent _ k => k = key
  | _ => True
  end.

(** No route can be had: the routing collaborator is missing or throws
    whatever it is asked. *)
Definition routeUnavailable {W : Type} (s : Session W) : Prop :=
  match resolveAgentRoute (core s) with
  | Some resolve => forall req w, exists e, fst (resolve req w) = Throws e
  | None => True
  end.

(** The reply target of an event that the handler for [msg] makes while
    it delivers: an envelope refers to the message that [msg] refers
    to; a message sent goes to the channel of [msg] and replies to
    [msg] itself unless [replyToMode] is off. *)
Definition deliveryTargeted {W : Type} (s : Session W) (msg : Message) (e : Event) : Prop :=
  match e with
  | EvDispatchBlock ctx | EvDispatchMessage ctx =>
      ReplyToId ctx = referenced_message msg
  | EvSendMessage target _ opts =>
      target = channel_id msg /\
      replyTo opts = if replyToModeOf s =? "off" then None else Some (id msg)
  | _ => True
  end.

(** The instructional reply of the pairing challenge, sent without
    options. *)
Definition isPairingReply (e : Event) : Prop :=
  match e with
  | EvSendMessage _ body opts => (exists code, body = pairingReply code) /\ opts = noSendOpts
  | _ => False
  end.

(** The two calls of the configured mention check, for [body] and the
    patterns that were built. *)
Definition mentionCalls (body : string) (regexes : list string) : Trace :=
  [EvBuildMentionRegexes; EvMatchesMentionPatterns body regexes].

(* ------------------------------------------------------------------ *)
(** ** The REST helpers of rest.ts *)

Module RestApi.

(** The JSON body of a POST. *)
Record MessageBody : Type := {
  body_content : option string;
  body_message_reference : option string   (* [message_reference.message_id] *)
}.

Inductive Json : Type :=
| JRecipient (recipient_id : string)   (* [{ recipient_id }] *)
| JMessage (body : MessageBody)
| JEmpty.                              (* [{}] *)

(** An entry of [files]. *)
Record FileUpload : Type := {
  file_name : string;
  file_data : string;
  file_contentType : string
}.

(** What the platform answers to a POST, as far as it is read. *)
Record Created : Type := {
  created_id : option string;
  created_channel_id : option string
}.

(** What [fetch] resolves to, as far as it is read. *)
Record Response : Type := {
  resp_body : string;
  resp_contentType : option string   (* [headers.get("content-type")] *)
}.

Record User : Type := {
  user_id : string;
  user_username : string
}.

Record ChannelInfo : Type := {
  ch_id : string;
  ch_name : option string;
  ch_type : Z;
  ch_guild_id : option string
}.

(** The result of [sendMessage]. *)
Record Sent : Type := {
  messageId : option string;
  sent_channelId : option string
}.

(** The result of [probeBot]. *)
Record Probe : Type := {
  ok : bool;
  error : option string;
  probe_bot : option User
}.

(** Every call that leaves rest.ts.  A REST call carries the token of
    the client it goes through. *)
Inductive Request : Type :=
| Post (token route : string) (body : Json) (files : list FileUpload)
| Get (token route : string)
| Fetch (url : string)
| ReadFile (path : string)
| SetTimeout (ms : Z)
| ClearTimeout.

Definition is_post (r : Request) : bool :=
  match r with
  | Post _ _ _ _ => true
  | _ => false
  end.

Definition is_rest (r : Request) : bool :=
  match r with
  | Post _ _ _ _ | Get _ _ => true
  | _ => false
  end.

(** A value that a REST call rejected with, as [probeBot] reads it. *)
Record Failure : Type := {
  failure_shown : string;            (* [String(err)] *)
  failure_message : option string    (* [err.message] when [err instanceof Error] *)
}.

(** [err instanceof Error ? err.message : String(err)] *)
Definition messageOf (err : Failure) : string :=
  Js.nullish (failure_message err) (failure_shown err).

(** The template literal [`${x}`] of a possibly undefined string. *)
Definition shown (o : option string) : string := Js.nullish o "undefined".

Section Client.

Variable W : Type.

(** The network, the file system and the Node helpers. *)
Record Net : Type := {
  rest_post : string -> string -> Json -> list FileUpload -> W -> Outcome (option Created) * W;
  (** the GET of [probeBot]: the user, or what the call rejected with *)
  rest_get_user : string -> string -> W -> (User + Failure) * W;
  rest_get_channel : string -> string -> W -> Outcome ChannelInfo * W;
  global_fetch : string -> W -> Outcome Response * W;
  readFileSync : string -> W -> Outcome string * W;
  (** [path.basename] *)
  basename : string -> string;
  (** [new URL(u).pathname], for a url that [fetch] accepted *)
  pathname : string -> string
}.

Variable net : Net.

(** A function of rest.ts: from a world to what it returns or throws,
    the world it leaves, and the calls it made. *)
Definition R (A : Type) : Type := W -> Outcome A * W * list Request.

Definition pure {A : Type} (a : A) : R A := fun w => (Returns a, w, []).

Definition fail {A : Type} (e : Exn) : R A := fun w => (Throws e, w, []).

Definition andThen {A B : Type} (m : R A) (k : A -> R B) : R B :=
  fun w =>
    match m w with
    | (Returns a, w1, t1) =>
        match k a w1 with
        | (r, w2, t2) => (r, w2, (t1 ++ t2)%list)
        end
    | (Throws e, w1, t1) => (Throws e, w1, t1)
    end.

(** [try { body } catch (err) { handler }] *)
Definition orElse {A : Type} (body : R A) (handler : Exn -> R A) : R A :=
  fun w =>
    match body w with
    | (Throws e, w1, t1) =>
        match handler e w1 with
        | (r, w2, t2) => (r, w2, (t1 ++ t2)%list)
        end
    | done => done
    end.

Definition request {A : Type} (q : Request) (op : W -> Outcome A * W) : R A :=
  fun w =>
    match op w with
    | (r, w1) => (r, w1, [q])
    end.

Definition note (q : Request) : R unit := fun w => (Returns tt, w, [q]).

(** A call awaited inside a [try] whose [catch] reads the thrown value:
    the rejection is kept as a value. *)
Definition settled {A E : Type} (q : Request) (op : W -> (A + E) * W) : R (A + E) :=
  fun w =>
    match op w with
    | (r, w1) => (Returns r, w1, [q])
    end.

(** The module variable [restClient]: the token of the client, once
    there is one. *)
Definition Client : Type := option string.

(** [initRest(token)]: the new value of [restClient]. *)
Definition initRest (token : string) : Client := Some token.

(** [getRest()] *)
Definition getRest (restClient : Client) : R string :=
  match restClient with
  | Some token => pure token
  | None => fail (Thrown "Error: Fluxer REST client not initialized")
  end.

(** [openDmChannel(userId)]: [result.id]. *)
Definition openDmChannel (restClient : Client) (userId : string) : R (option string) :=
  andThen (getRest restClient) (fun token =>
  andThen (request (Post token "/users/@me/channels" (JRecipient userId) [])
                   (rest_post net token "/users/@me/channels" (JRecipient userId) []))
          (fun result =>
  match result with
  | Some created => pure (created_id created)
  | None => fail (TypeError "Cannot read properties of undefined (reading 'id')")
  end)).

(** The JSON body that [sendMessage] builds. *)
Definition messageBody (body : string) (opts : option SendOpts) : MessageBody :=
  {| body_content := if Js.truthy body then Some body else None;
     body_message_reference :=
       match opts with
       | Some o => if Js.truthy_opt (replyTo o) then replyTo o else None
       | None => None
       end |}.

Definition messagesRoute (channel : option string) : string :=
  "/channels/" ++ shown channel ++ "/messages".

Definition sentOf (result : option Created) : Sent :=
  {| messageId :=
       match result with
       | Some c => created_id c
       | None => None
       end;
     sent_channelId :=
       match result with
       | Some c => created_channel_id c
       | None => None
       end |}.

Definition isRemote (mediaUrl : string) : bool :=
  prefix "http://" mediaUrl || prefix "https://" mediaUrl.

(** The file that [sendMessage] attaches for [mediaUrl]. *)
Definition loadMedia (mediaUrl : string) : R FileUpload :=
  if isRemote mediaUrl
  then
    andThen (request (Fetch mediaUrl) (global_fetch net mediaUrl)) (fun response =>
    let name := basename net (pathname net mediaUrl) in
    pure {| file_name := if Js.truthy name then name else "file";
            file_data := resp_body response;
            file_contentType :=
              Js.nullish (resp_contentType response) "application/octet-stream" |})
  else
    andThen (request (ReadFile mediaUrl) (readFileSync net mediaUrl)) (fun data =>
    pure {| file_name := basename net mediaUrl;
            file_data := data;
            file_contentType := "application/octet-stream" |}).

(** [sendMessage(target, text, opts)] *)
Definition sendMessage (restClient : Client) (target body : string)
  (opts : option SendOpts) : R Sent :=
  andThen (getRest restClient) (fun token =>
  andThen (if prefix "user:" target
           then openDmChannel restClient (substring 5 (String.length target - 5) target)
           else pure (Some target))
          (fun channel =>
  let json := JMessage (messageBody body opts) in
  let media :=
    match opts with
    | Some o => if Js.truthy_opt (send_mediaUrl o) then send_mediaUrl o else None
    | None => None
    end in
  match media with
  | Some mediaUrl =>
      andThen (loadMedia mediaUrl) (fun file =>
      andThen (request (Post token (messagesRoute channel) json [file])
                       (rest_post net token (messagesRoute channel) json [file]))
              (fun result => pure (sentOf result)))
  | None =>
      andThen (request (Post token (messagesRoute channel) json [])
                       (rest_post net token (messagesRoute channel) json []))
              (fun result => pure (sentOf result))
  end)).

(** [triggerTyping(channelId)] *)
Definition triggerTyping (restClient : Client) (channel : string) : R unit :=
  andThen (getRest restClient) (fun token =>
  andThen (request (Post token ("/channels/" ++ channel ++ "/typing") JEmpty [])
                   (rest_post net token ("/channels/" ++ channel ++ "/typing") JEmpty []))
          (fun _ => pure tt)).

(** [probeBot(token, timeoutMs)]: a client of its own; the timer aborts
    the request, which then throws. *)
Definition probeBot (token : string) (timeoutMs : option Z) : R Probe :=
  andThen (note (SetTimeout (Js.nullish timeoutMs 5000))) (fun _ =>
  andThen (settled (Get token "/users/@me") (rest_get_user net token "/users/@me"))
          (fun got =>
  match got with
  | inl user =>
      andThen (note ClearTimeout) (fun _ =>
      pure {| ok := true; error := None; probe_bot := Some user |})
  | inr err =>
      pure {| ok := false; error := Some (messageOf err); probe_bot := None |}
  end)).

(** [fetchChannel(channelId)] *)
Definition fetchChannel (restClient : Client) (channel : string) : R (option ChannelInfo) :=
  orElse
    (andThen (getRest restClient) (fun token =>
     andThen (request (Get token ("/channels/" ++ channel))
                      (rest_get_channel net token ("/channels/" ++ channel)))
             (fun ch => pure (Some ch))))
    (fun _ => pure None).

End Client.

Arguments rest_post {W}.
Arguments rest_get_user {W}.
Arguments rest_get_channel {W}.
Arguments global_fetch {W}.
Arguments readFileSync {W}.
Arguments basename {W}.
Arguments pathname {W}.
Arguments pure {W A}.
Arguments fail {W A}.
Arguments andThen {W A B}.
Arguments orElse {W A}.
Arguments request {W A}.
Arguments note {W}.
Arguments settled {W A E}.
Arguments getRest {W}.
Arguments openDmChannel {W}.
Arguments loadMedia {W}.
Arguments sendMessage {W}.
Arguments triggerTyping {W}.
Arguments probeBot {W}.
Arguments fetchChannel {W}.

(** What a call gave back, the world it left, the calls it made. *)
Definition result {W A : Type} (o : Outcome A * W * list Request) : Outcome A :=
  fst (fst o).
Definition after {W A : Type} (o : Outcome A * W * list Request) : W :=
  snd (fst o).
Definition calls {W A : Type} (o : Outcome A * W * list Request) : list Request :=
  snd o.

End RestApi.


(* ------------------------------------------------------------------ *)
(** ** String helpers of channel.ts *)

Module JsText.

(** [toLowerCase] on one code unit below 256: the letters A-Z and the
    Latin-1 capitals move by 32. *)
Definition lowerUnit (c : ascii) : ascii :=
  let n := nat_of_ascii c in
  if ((65 <=? n) && (n <=? 90) || (192 <=? n) && (n <=? 214)
      || (216 <=? n) && (n <=? 222))%nat
  then ascii_of_nat (n + 32)
  else c.

(** [s.toLowerCase()] *)
Fixpoint toLowerCase (s : string) : string :=
  match s with
  | EmptyString => EmptyString
  | String c r => String (lowerUnit c) (toLowerCase r)
  end.

(** How a pattern with the [i] flag compares a code unit with an ASCII
    character: only the letters A-Z and a-z are folded. *)
Definition foldUnit (c : ascii) : ascii :=
  let n := nat_of_ascii c in
  if ((65 <=? n) && (n <=? 90))%nat then ascii_of_nat (n + 32) else c.

(** [s] starts with the lower-case ASCII text [p], case ignored. *)
Fixpoint startsWithCI (p s : string) : bool :=
  match p, s with
  | EmptyString, _ => true
  | String a p', String c s' => Ascii.eqb a (foldUnit c) && startsWithCI p' s'
  | String _ _, EmptyString => false
  end.

(** [s.slice(n)] *)
Definition sliceFrom (n : nat) (s : string) : string :=
  substring n (String.length s - n) s.

(** [s.replace(/^(a|b|...)/i, "")] for lower-case ASCII alternatives. *)
Fixpoint removePrefixCI (alts : list string) (s : string) : string :=
  match alts with
  | [] => s
  | p :: more =>
      if startsWithCI p s then sliceFrom (String.length p) s
      else removePrefixCI more s
  end.

Definition isDigit (c : ascii) : bool :=
  let n := nat_of_ascii c in ((48 <=? n) && (n <=? 57))%nat.

Fixpoint allDigits (s : string) : bool :=
  match s with
  | EmptyString => true
  | String c r => isDigit c && allDigits r
  end.

(** [/^\d{lo,hi}$/.test(s)] *)
Definition digitsBetween (lo hi : nat) (s : string) : bool :=
  ((lo <=? String.length s) && (String.length s <=? hi))%nat && allDigits s.

(** A string that does not start with white space. *)
Definition headOk (s : string) : Prop :=
  match s with
  | EmptyString => True
  | String c _ => Js.isWhiteSpace c = false
  end.

(** No code unit of the string is white space. *)
Fixpoint noWhiteSpace (s : string) : bool :=
  match s with
  | EmptyString => true
  | String c r => negb (Js.isWhiteSpace c) && noWhiteSpace r
  end.

End JsText.

(* ------------------------------------------------------------------ *)
(** ** The channel plugin of channel.ts, with runtime.ts *)

Module Plugin.

(** [cfg.channels.fluxer] as channel.ts reads it. *)
Record ChannelSection : Type := {
  cs_name : option string;
  cs_enabled : option bool;
  cs_token : option string;
  cs_dm : option DmConfig
}.

Definition emptySection : ChannelSection :=
  {| cs_name := None; cs_enabled := None; cs_token := None; cs_dm := None |}.

Record FluxerAccount : Type := {
  acc_accountId : string;
  acc_name : option string;
  acc_enabled : bool;
  acc_token : option string;
  acc_tokenSource : string;
  acc_config : ChannelSection
}.

(** [a || b] on possibly undefined strings. *)
Definition orString (a b : option string) : option string :=
  if Js.truthy_opt a then a else b.

(** [account.token?.trim()] *)
Definition trimmedToken (account : FluxerAccount) : option string :=
  option_map Js.trim (acc_token account).

(** [isConfigured]: [Boolean(account.token?.trim())]. *)
Definition isConfigured (account : FluxerAccount) : bool :=
  Js.truthy_opt (trimmedToken account).

(** [pairing.normalizeAllowEntry] and [security.normalizeEntry] *)
Definition normalizeAllowEntry (entry : string) : string :=
  JsText.removePrefixCI ["fluxer:"; "user:"] entry.

(** [config.resolveAllowFrom] *)
Definition resolveAllowFrom (section : option ChannelSection) : list string :=
  Js.nullish
    match section with
    | Some c =>
        match cs_dm c with
        | Some d => allowFrom d
        | None => None
        end
    | None => None
    end
    [].

(** [config.formatAllowFrom] *)
Definition formatAllowFrom (entries : list string) : list string :=
  filter Js.truthy (map (fun e => JsText.toLowerCase (Js.trim e)) entries).

(** [messaging.normalizeTarget]; [None] is [undefined]. *)
Definition normalizeTarget (raw : string) : option string :=
  let trimmed := Js.trim raw in
  let normalized :=
    if prefix "fluxer:" trimmed then Js.trim (JsText.sliceFrom 7 trimmed) else trimmed in
  let bare := Js.trim (JsText.removePrefixCI ["channel:"; "user:"] normalized) in
  if Js.truthy bare then Some bare else None.

(** [messaging.targetResolver.looksLikeId] *)
Definition looksLikeId (raw : string) : bool :=
  JsText.digitsBetween 17 20
    (Js.trim (JsText.removePrefixCI ["fluxer:"; "channel:"; "user:"] raw)).

(** [setup.validateInput]; [None] is [null]. *)
Definition validateInput (useEnv : bool) (token : option string) : option string :=
  if negb useEnv && negb (Js.truthy_opt token)
  then Some "Fluxer requires a token (or --use-env for FLUXER_BOT_TOKEN)."
  else None.

(** [setup.applyAccountConfig]: the new [cfg.channels.fluxer]. *)
Definition applyAccountConfig (section : option ChannelSection) (useEnv : bool)
  (token : option string) : ChannelSection :=
  let old := Js.nullish section emptySection in
  {| cs_name := cs_name old;
     cs_enabled := Some true;
     cs_token :=
       if useEnv then cs_token old
       else if Js.truthy_opt token then token
       else cs_token old;
     cs_dm := cs_dm old |}.

(** An account as the status code sees it; [st_lastError] is [None]
    when [lastError] is not a string. *)
Record AccountStatus : Type := {
  st_accountId : string;
  st_lastError : option string
}.

Record StatusIssue : Type := {
  issue_channel : string;
  issue_accountId : string;
  issue_kind : string;
  issue_message : string
}.

(** [status.collectStatusIssues] *)
Definition collectStatusIssues (accounts : list AccountStatus) : list StatusIssue :=
  flat_map
    (fun account =>
       let lastError :=
         match st_lastError account with
         | Some e => Js.trim e
         | None => ""
         end in
       if negb (Js.truthy lastError) then []
       else [ {| issue_channel := "fluxer";
                 issue_accountId := st_accountId account;
                 issue_kind := "runtime";
                 issue_message := "Channel error: " ++ lastError |} ])
    accounts.

(** What [startAccount] does besides REST calls. *)
Inductive Effect : Type :=
| Rest (r : RestApi.Request)
| SetStatus (accountId : string) (bot : RestApi.User)
| LogInfo (line : string).

Definition is_restEffect (e : Effect) : bool :=
  match e with
  | Rest _ => true
  | _ => false
  end.

Section Host.

Variable W : Type.
Variable net : RestApi.Net W.

(** Constants of the plugin SDK. *)
Variable DEFAULT_ACCOUNT_ID : string.
Variable PAIRING_APPROVED_MESSAGE : string.

(** [resolveFluxerAccount(cfg, accountId)]; [env] is
    [process.env.FLUXER_BOT_TOKEN]. *)
Definition resolveFluxerAccount (section : option ChannelSection)
  (accountId : option string) (env : option string) : FluxerAccount :=
  let fluxerConfig := Js.nullish section emptySection in
  {| acc_accountId := Js.nullish accountId DEFAULT_ACCOUNT_ID;
     acc_name := cs_name fluxerConfig;
     acc_enabled :=
       match cs_enabled fluxerConfig with
       | Some false => false
       | _ => true
       end;
     acc_token := orString (cs_token fluxerConfig) env;
     acc_tokenSource :=
       if Js.truthy_opt (cs_token fluxerConfig) then "config"
       else if Js.truthy_opt env then "env:FLUXER_BOT_TOKEN"
       else "none";
     acc_config := fluxerConfig |}.

(** [pairing.notifyApproval] *)
Definition notifyApproval (restClient : RestApi.Client) (userId : string)
  : RestApi.R W RestApi.Sent :=
  RestApi.sendMessage net restClient ("user:" ++ userId) PAIRING_APPROVED_MESSAGE None.

(** [outbound.sendText]; the result is spread after [channel: "fluxer"]. *)
Definition sendText (restClient : RestApi.Client) (to body : string)
  (replyToId : option string) : RestApi.R W RestApi.Sent :=
  RestApi.sendMessage net restClient to body
    (Some {| replyTo := replyToId; send_mediaUrl := None |}).

(** [outbound.sendMedia] *)
Definition sendMedia (restClient : RestApi.Client) (to body : string)
  (media replyToId : option string) : RestApi.R W RestApi.Sent :=
  RestApi.sendMessage net restClient to body
    (Some {| replyTo := replyToId; send_mediaUrl := media |}).

(** [status.probeAccount] *)
Definition probeAccount (account : FluxerAccount) (timeoutMs : option Z)
  : RestApi.R W RestApi.Probe :=
  match trimmedToken account with
  | Some token =>
      if Js.truthy token then RestApi.probeBot net token timeoutMs
      else RestApi.pure {| RestApi.ok := false;
                           RestApi.error := Some "no token";
                           RestApi.probe_bot := None |}
  | None => RestApi.pure {| RestApi.ok := false;
                            RestApi.error := Some "no token";
                            RestApi.probe_bot := None |}
  end.

(** The call of [monitorFluxerProvider] that [startAccount] ends with. *)
Record MonitorCall : Type := {
  mc_token : string;
  mc_opts : FluxerMonitorOpts W
}.

(** What [startAccount] has done when it reaches line 206, or throws
    before: [outcome] is the call of [monitorFluxerProvider] that it
    hands over to, or the throw; from the hand-over on [startAccount]
    settles as the monitor's promise does, which is not part of this
    record.  [restClient_after] is the module variable of rest.ts. *)
Record Started : Type := {
  outcome : Outcome MonitorCall;
  restClient_after : RestApi.Client;
  world_after : W;
  effects : list Effect
}.

(** [gateway.startAccount(ctx)]; [api] is the module variable of
    runtime.ts, holding [api.runtime]. *)
Definition startAccount (restClient : RestApi.Client) (api : option (Core W))
  (account : FluxerAccount) (conf : Config) (w : W) : Started :=
  match trimmedToken account with
  | Some (String c r as token) =>
      match RestApi.probeBot net token (Some 3000) w with
      | (probed, w1, requests) =>
          let found :=
            match probed with
            | Returns p => if RestApi.ok p then RestApi.probe_bot p else None
            | Throws _ => None
            end in
          let botLabel :=
            match found with
            | Some u => " (@" ++ RestApi.user_username u ++ ")"
            | None => ""
            end in
          let status :=
            match found with
            | Some u => [SetStatus (acc_accountId account) u]
            | None => []
            end in
          let done :=
            (map Rest requests ++ status
             ++ [LogInfo ("[" ++ acc_accountId account ++ "] starting Fluxer provider"
                          ++ botLabel)])%list in
          {| outcome :=
               match api with
               | Some runtime =>
                   Returns {| mc_token := token;
                              mc_opts := {| opt_accountId := Some (acc_accountId account);
                                            opt_config := conf;
                                            opt_core := runtime |} |}
               | None => Throws (Thrown "Error: Fluxer plugin API not initialized")
               end;
             restClient_after := RestApi.initRest token;
             world_after := w1;
             effects := done |}
      end
  | _ =>
      {| outcome := Throws (Thrown "Error: Fluxer bot token is required");
         restClient_after := restClient;
         world_after := w;
         effects := [] |}
  end.

End Host.

Arguments notifyApproval {W}.
Arguments sendText {W}.
Arguments sendMedia {W}.
Arguments probeAccount {W}.
Arguments startAccount {W}.
Arguments outcome {W}.
Arguments restClient_after {W}.
Arguments world_after {W}.
Arguments effects {W}.
Arguments mc_token {W}.
Arguments mc_opts {W}.

End Plugin.


(* ------------------------------------------------------------------ *)
(** ** A sample platform behind the REST helpers *)

Module Platform.

Import RestApi.

(** The platform counts the messages it has created.  A DM channel is
    named after its recipient. *)
Definition post (token route : string) (body : Json) (files : list FileUpload) (n : nat)
  : Outcome (option Created) * nat :=
  match body with
  | JRecipient uid =>
      (Returns (Some {| created_id := Some ("dm-" ++ uid); created_channel_id := None |}), n)
  | JMessage _ =>
      (Returns (Some {| created_id := Some "m100"; created_channel_id := None |}), S n)
  | JEmpty => (Returns None, n)
  end.

Fixpoint hasSlash (s : string) : bool :=
  match s with
  | EmptyString => false
  | String c r => (c =? "/")%char || hasSlash r
  end.

(** [path.basename] for a path that does not end with a slash. *)
Fixpoint lastSegment (s : string) : string :=
  match s with
  | EmptyString => EmptyString
  | String _ r => if hasSlash s then lastSegment r else s
  end.

Definition net : Net nat :=
  {| rest_post := post;
     rest_get_user := fun _ _ n =>
       (inl {| user_id := "12345"; user_username := "claw" |}, n);
     rest_get_channel := fun _ _ n => (Throws (Thrown "Error: Unknown Channel"), n);
     global_fetch := fun _ n =>
       (Returns {| resp_body := "bytes"; resp_contentType := Some "image/png" |}, n);
     readFileSync := fun _ n => (Throws (Thrown "Error: ENOENT: no such file"), n);
     basename := lastSegment;
     pathname := fun u =>
       if u =? "https://cdn.example/a/cat.png" then "/a/cat.png" else "/" |}.

(** A host runtime that offers nothing. *)
Definition core : Core nat :=
  {| readAllowFromStore := None;
     upsertPairingRequest := None;
     buildMentionRegexes := None;
     matchesMentionPatterns := None;
     fetchRemoteMedia := None;
     saveMediaBuffer := None;
     resolveAgentRoute := None;
     resolveEnvelopeFormatOptions := None;
     formatAgentEnvelope := None;
     dispatchReplyWithBufferedBlockDispatcher := None;
     dispatchInboundMessageWithBufferedDispatcher := None;
     enqueueSystemEvent := None |}.

End Platform.


(* ------------------------------------------------------------------ *)
(** * Properties *)

Section Properties.

Variable W : Type.
Variable js : JsBuiltins.
Variable rest : Rest W.

Local Open Scope js_scope.

(** ** The monad *)

Lemma out_eta {A : Type} (o : Out W A) :
  mkOut (completion o) (world o) (trace o) = o.
Proof. destruct o; reflexivity. Qed.

Lemma bind_Normal {A B : Type} (m : M W A) (k : A -> M W B) (w : W) (a : A) :
  completion (m w) = Normal a ->
  bind m k w =
  mkOut (completion (k a (world (m w)))) (world (k a (world (m w))))
        (trace (m w) ++ trace (k a (world (m w))))%list.
Proof. intros H. unfold bind. rewrite H. reflexivity. Qed.

Lemma bind_Return {A B : Type} (m : M W A) (k : A -> M W B) (w : W) :
  completion (m w) = Return ->
  bind m k w = mkOut Return (world (m w)) (trace (m w)).
Proof. intros H. unfold bind. rewrite H. reflexivity. Qed.

Lemma bind_Throw {A B : Type} (m : M W A) (k : A -> M W B) (w : W) (e : Exn) :
  completion (m w) = Throw e ->
  bind m k w = mkOut (Throw e) (world (m w)) (trace (m w)).
Proof. intros H. unfold bind. rewrite H. reflexivity. Qed.

Lemma bind_ret {A B : Type} (a : A) (k : A -> M W B) (w : W) :
  bind (ret a) k w = k a w.
Proof. unfold bind, ret. simpl. apply out_eta. Qed.

Lemma bind_return_if_false {B : Type} (k : unit -> M W B) (w : W) :
  bind (return_if false) k w = k tt w.
Proof. apply bind_ret. Qed.

Lemma bind_return_if_true {B : Type} (k : unit -> M W B) (w : W) :
  bind (return_if true) k w = mkOut Return w [].
Proof. reflexivity. Qed.

(** ** Events of a computation *)

Lemma emits_ret {A : Type} (P : Event -> Prop) (a : A) : emits P (ret (W:=W) a).
Proof. intros w. constructor. Qed.

Lemma emits_js_return {A : Type} (P : Event -> Prop) : emits P (js_return (W:=W) (A:=A)).
Proof. intros w. constructor. Qed.

Lemma emits_throw {A : Type} (P : Event -> Prop) (e : Exn) :
  emits P (throw (W:=W) (A:=A) e).
Proof. intros w. constructor. Qed.

Lemma emits_emit (P : Event -> Prop) (e : Event) : P e -> emits P (emit (W:=W) e).
Proof. intros H w. simpl. auto. Qed.

Lemma emits_call {B : Type} (P : Event -> Prop) (e : Event) (op : W -> Outcome B * W) :
  P e -> emits P (call e op).
Proof. intros H w. unfold call. destruct (op w). simpl. auto. Qed.

Lemma emits_bind {A B : Type} (P : Event -> Prop) (m : M W A) (k : A -> M W B) :
  emits P m -> (forall a, emits P (k a)) -> emits P (bind m k).
Proof.
  intros Hm Hk w. unfold bind.
  destruct (completion (m w)) eqn:E; simpl; auto.
  apply Forall_app. split; [apply Hm | apply Hk].
Qed.

Lemma emits_try_catch {A : Type} (P : Event -> Prop) (body : M W A) (h : Exn -> M W A) :
  emits P body -> (forall e, emits P (h e)) -> emits P (try_catch body h).
Proof.
  intros Hb Hh w. unfold try_catch.
  destruct (completion (body w)) eqn:E; simpl; auto.
  apply Forall_app. split; [apply Hb | apply Hh].
Qed.

Lemma emits_try_finally {A : Type} (P : Event -> Prop) (body : M W A) (fin : M W unit) :
  emits P body -> emits P fin -> emits P (try_finally body fin).
Proof.
  intros Hb Hf w. unfold try_finally. simpl.
  apply Forall_app. split; [apply Hb | apply Hf].
Qed.

Lemma emits_function_body (P : Event -> Prop) (m : M W unit) :
  emits P m -> emits P (function_body m).
Proof. intros H w. unfold function_body. simpl. apply H. Qed.

Lemma emits_runDispatch (P : Event -> Prop) (dlv : ReplyPayload -> M W unit)
  (onErr : Exn -> string -> M W unit) :
  (forall p, emits P (dlv p)) ->
  (forall e k, emits P (onErr e k)) ->
  forall run, emits P (runDispatch dlv onErr run).
Proof.
  intros Hd He run. induction run as [r w' | p k IH | e kind k IH]; intros w; simpl.
  - constructor.
  - apply Forall_app. split; [apply Hd | apply IH].
  - apply Forall_app. split; [apply He | apply IH].
Qed.

Lemma count_app (p : Event -> bool) (t u : Trace) :
  count p (t ++ u)%list = (count p t + count p u)%nat.
Proof. unfold count. rewrite filter_app, length_app. reflexivity. Qed.

Lemma avoids_count {A : Type} (p : Event -> bool) (m : M W A) (w : W) :
  avoids p m -> count p (trace (m w)) = 0%nat.
Proof.
  intros H. specialize (H w). unfold count.
  induction H as [| e t He _ IH]; simpl; [reflexivity |].
  rewrite He. exact IH.
Qed.

(** ** The staleness filter *)

Lemma handleMessage_past_filters (s : Session W) (now : Z) (msg : Message) (w : W) :
  fromSelf s msg = false ->
  fromBot msg = false ->
  beforeStartup s (eventTs js now msg) = false ->
  handleMessage js rest s now msg w = processMessage js rest s (eventTs js now msg) msg w.
Proof.
  intros Hs Hb Ht. unfold handleMessage.
  rewrite Hs, bind_return_if_false, Hb, bind_return_if_false, Ht, bind_return_if_false.
  reflexivity.
Qed.

Lemma onMessageCreate_Return (s : Session W) (now : Z) (msg : Message) (w : W) :
  completion (handleMessage js rest s now msg w) = Return ->
  onMessageCreate js rest s now msg w =
  mkOut (Normal tt) (world (handleMessage js rest s now msg w))
        (trace (handleMessage js rest s now msg w)).
Proof.
  intros H. unfold onMessageCreate, function_body, try_catch. rewrite H. simpl.
  rewrite H. reflexivity.
Qed.

(** C4. A message whose timestamp parses to an instant before
    [startupMs - 10000] makes the handler return at once: it completes
    normally, leaves the host untouched and makes no call at all, so no
    policy is evaluated and [upsertPairingRequest] is not called. *)
Theorem C4_stale_message_dropped_before_policy :
  forall (s : Session W) (now : Z) (msg : Message) (w : W) (ts : string) (t : Z),
    timestamp msg = Some ts ->
    Js.truthy ts = true ->
    Date_getTime js ts = Js.Num t ->
    t < startupMs s - 10000 ->
    let o := onMessageCreate js rest s now msg w in
    startupGraceMs = 10000 /\
    completion o = Normal tt /\
    world o = w /\
    trace o = [] /\
    count is_upsert (trace o) = 0%nat.
Proof.
  intros s now msg w ts t Hts Htruthy Hparse Hlt o.
  assert (Hev : eventTs js now msg = Js.Num t).
  { unfold eventTs. rewrite Hts, Htruthy. exact Hparse. }
  assert (Hstale : beforeStartup s (eventTs js now msg) = true).
  { rewrite Hev. unfold beforeStartup, startupGraceMs. simpl. apply Z.ltb_lt. exact Hlt. }
  assert (Hh : handleMessage js rest s now msg w = mkOut Return w []).
  { unfold handleMessage.
    destruct (fromSelf s msg); [reflexivity |]. rewrite bind_return_if_false.
    destruct (fromBot msg); [reflexivity |]. rewrite bind_return_if_false.
    rewrite Hstale. reflexivity. }
  assert (Ho : o = mkOut (Normal tt) w []).
  { unfold o. rewrite onMessageCreate_Return; rewrite Hh; reflexivity. }
  rewrite Ho. simpl. repeat split; reflexivity.
Qed.

(** C10. With the handler's clock not behind the clock at session
    start: a message without timestamp gets the handler's clock reading
    as its event time, and neither such a message nor one whose
    timestamp parses to [NaN] is stopped by the staleness filter; unless
    it comes from the adapter itself or from a bot, the handler goes on
    with the steps after the filter. *)
Theorem C10_missing_or_malformed_timestamp_not_stale :
  forall (s : Session W) (now : Z) (msg : Message),
    startupMs s <= now ->
    (timestamp msg = None -> eventTs js now msg = Js.Num now) /\
    (timestamp msg = None \/
     (exists ts, timestamp msg = Some ts /\ Date_getTime js ts = Js.NaN) ->
     beforeStartup s (eventTs js now msg) = false /\
     forall w,
       fromSelf s msg = false ->
       fromBot msg = false ->
       handleMessage js rest s now msg w =
       processMessage js rest s (eventTs js now msg) msg w).
Proof.
  intros s now msg Hclock. split.
  - intros Hts. unfold eventTs. rewrite Hts. reflexivity.
  - intros Hcase.
    assert (Hfresh : beforeStartup s (eventTs js now msg) = false).
    { assert (Hnow : beforeStartup s (Js.Num now) = false).
      { unfold beforeStartup, startupGraceMs. simpl. apply Z.ltb_ge. lia. }
      unfold eventTs. destruct Hcase as [Hts | [ts [Hts Hnan]]]; rewrite Hts.
      - exact Hnow.
      - destruct (Js.truthy ts); [rewrite Hnan; reflexivity | exact Hnow]. }
    split; [exact Hfresh |].
    intros w Hs Hb. apply handleMessage_past_filters; assumption.
Qed.

(** ** The allowlist *)

Lemma isAllowed_iff (allow : list string) (sender : string) :
  isAllowed allow sender = true <-> In sender allow \/ In "*" allow.
Proof.
  unfold isAllowed. rewrite existsb_exists. split.
  - intros [entry [Hin Hor]]. apply orb_true_iff in Hor.
    destruct Hor as [H | H]; apply String.eqb_eq in H; subst entry; auto.
  - intros [H | H].
    + exists sender. split; [exact H |]. rewrite String.eqb_refl. reflexivity.
    + exists "*". split; [exact H |]. apply orb_true_iff. right. reflexivity.
Qed.

(** C7. Under the [allowlist] DM policy a sender passes the policy gate
    exactly when the sender id, or the wildcard, is among the configured
    entries or the entries read from the store; a sender who does not
    pass makes the handler return without any call.  An entry matches a
    sender only by equality of the two strings (or by being the
    wildcard), and an entry of the store allows its sender whatever the
    configured entries are. *)
Theorem C7_allowlist_membership_is_union :
  forall (s : Session W) (msg : Message) (configured storeRead : list string) (w : W),
    dmPolicy (cfg s) = "allowlist" ->
    effectiveAllowFrom s = (configured ++ storeRead)%list ->
    let o := dmPolicyEnforcement rest s msg w in
    (completion o = Normal tt <->
     In (senderId msg) configured \/ In (senderId msg) storeRead \/
     In "*" configured \/ In "*" storeRead) /\
    (completion o <> Normal tt -> completion o = Return /\ trace o = []) /\
    (forall entry sender : string,
       isAllowed [entry] sender = true <-> entry = sender \/ entry = "*") /\
    (forall configured' : list string,
       In (senderId msg) storeRead ->
       isAllowed (configured' ++ storeRead) (senderId msg) = true).
Proof.
  intros s msg configured storeRead w Hpol Hallow o.
  assert (Hmem : isAllowed (effectiveAllowFrom s) (senderId msg) = true <->
                 In (senderId msg) configured \/ In (senderId msg) storeRead \/
                 In "*" configured \/ In "*" storeRead).
  { rewrite Hallow, isAllowed_iff, !in_app_iff. tauto. }
  assert (Ho : o = if isAllowed (effectiveAllowFrom s) (senderId msg)
                   then mkOut (Normal tt) w []
                   else mkOut Return w []).
  { unfold o, dmPolicyEnforcement. rewrite Hpol. simpl.
    destruct (isAllowed (effectiveAllowFrom s) (senderId msg)); reflexivity. }
  split; [| split; [| split]].
  - rewrite <- Hmem, Ho.
    destruct (isAllowed (effectiveAllowFrom s) (senderId msg)); simpl;
      split; intros H; try reflexivity; discriminate.
  - rewrite Ho.
    destruct (isAllowed (effectiveAllowFrom s) (senderId msg)); simpl; intros H;
      [contradiction | split; reflexivity].
  - intros entry sender. rewrite isAllowed_iff. simpl. split.
    + intros [[H | []] | [H | []]]; auto.
    + intros [H | H]; subst; auto.
  - intros configured' Hin. apply isAllowed_iff. left. apply in_app_iff. auto.
Qed.

(** ** Events of the handler's stages *)

Lemma emits_dispatch (P : Event -> Prop) (e : Event) (d : Dispatcher W)
  (s : Session W) (msg : Message) (ctx : CtxPayload) :
  P e ->
  (forall target body opts, P (EvSendMessage target body opts)) ->
  (forall line, P (EvLogWarn line)) ->
  emits P (dispatch rest e d s msg ctx).
Proof.
  intros He Hsend Hlog w. unfold dispatch. simpl. constructor; [exact He |].
  apply emits_runDispatch.
  - intros p. unfold deliver, sendMessage. apply emits_call. apply Hsend.
  - intros err kind. unfold onError, log_warn. apply emits_emit. apply Hlog.
Qed.

Lemma emits_sendTyping (P : Event -> Prop) (msg : Message) :
  P (EvTriggerTyping (channelId msg)) -> emits P (sendTyping rest msg).
Proof. intros H w. unfold sendTyping. simpl. auto. Qed.

Create HintDb handler.

#[local] Hint Unfold sendMessage log_info log_warn runtime_error unbound_call
  stopTyping startTyping return_if : handler.

Ltac emits_steps :=
  repeat
    (autounfold with handler;
     match goal with
     | |- avoids _ _ => unfold avoids
     | |- emits _ (ret _) => apply emits_ret
     | |- emits _ js_return => apply emits_js_return
     | |- emits _ (throw _) => apply emits_throw
     | |- emits _ (emit _) => apply emits_emit; reflexivity
     | |- emits _ (call _ _) => apply emits_call; reflexivity
     | |- emits _ (sendTyping _ _) => apply emits_sendTyping; reflexivity
     | |- emits _ (dispatch _ _ _ _ _ _) =>
         apply emits_dispatch; [reflexivity | intros; reflexivity | intros; reflexivity]
     | |- emits _ (bind _ _) => apply emits_bind; [| intros]
     | |- emits _ (try_catch _ _) => apply emits_try_catch; [| intros]
     | |- emits _ (try_finally _ _) => apply emits_try_finally
     | |- emits _ (function_body _) => apply emits_function_body
     | |- emits _ (match ?x with _ => _ end) => destruct x
     | |- emits _ (if ?x then _ else _) => destruct x
     end).

(** The two policy gates call neither a dispatcher nor the system event
    sink, and do not touch the typing indicator. *)
Lemma avoids_dmPolicyEnforcement (p : Event -> bool) (s : Session W) (msg : Message) :
  (forall req, p (EvUpsertPairingRequest req) = false) ->
  (forall target body opts, p (EvSendMessage target body opts) = false) ->
  (forall line, p (EvLogWarn line) = false) ->
  avoids p (dmPolicyEnforcement rest s msg).
Proof.
  intros Hu Hs Hl. unfold dmPolicyEnforcement, pairingChallenge, avoids.
  repeat
    (autounfold with handler;
     match goal with
     | |- emits _ (ret _) => apply emits_ret
     | |- emits _ js_return => apply emits_js_return
     | |- emits _ (emit _) => apply emits_emit; apply Hl
     | |- emits _ (call (EvUpsertPairingRequest _) _) => apply emits_call; apply Hu
     | |- emits _ (call (EvSendMessage _ _ _) _) => apply emits_call; apply Hs
     | |- emits _ (bind _ _) => apply emits_bind; [| intros]
     | |- emits _ (try_catch _ _) => apply emits_try_catch; [| intros]
     | |- emits _ (match ?x with _ => _ end) => destruct x
     | |- emits _ (if ?x then _ else _) => destruct x
     end).
Qed.

Lemma avoids_hasConfigMention (p : Event -> bool) (s : Session W) (body : string) :
  p EvBuildMentionRegexes = false ->
  (forall b r, p (EvMatchesMentionPatterns b r) = false) ->
  avoids p (hasConfigMention s body).
Proof.
  intros Hb Hm. unfold hasConfigMention, avoids.
  repeat
    match goal with
    | |- emits _ (ret _) => apply emits_ret
    | |- emits _ (throw _) => apply emits_throw
    | |- emits _ (call EvBuildMentionRegexes _) => apply emits_call; apply Hb
    | |- emits _ (call (EvMatchesMentionPatterns _ _) _) => apply emits_call; apply Hm
    | |- emits _ (bind _ _) => apply emits_bind; [| intros]
    | |- emits _ (try_catch _ _) => apply emits_try_catch; [| intros]
    | |- emits _ (match ?x with _ => _ end) => destruct x
    end.
Qed.

(** The handler never reads the store allowlist. *)
Lemma onMessageCreate_avoids_storeRead (s : Session W) (now : Z) (msg : Message) :
  avoids is_storeRead (onMessageCreate js rest s now msg).
Proof.
  unfold onMessageCreate, handlerCatch, handleMessage, processMessage, afterGates,
    deliverReply, stagedDispatch, systemEventInjection, messageDispatch, messageAttempt,
    blockDispatch, blockAttempt, formattedBody, envelopeOptions, resolveSessionRouting,
    downloadFirstAttachment, groupMentionCheck, hasConfigMention, dmPolicyEnforcement,
    pairingChallenge.
  emits_steps.
Qed.

(** ** Session setup and the allowlist snapshot *)

Lemma monitorFluxerProvider_spec (opts : FluxerMonitorOpts W) (t0 : Z) (w0 : W) :
  let o := monitorFluxerProvider opts t0 w0 in
  completion o =
    Normal {| selfUserId := None;
              startupMs := t0;
              accountId := Js.nullish (opt_accountId opts) "default";
              cfg := opt_config opts;
              core := opt_core opts;
              effectiveAllowFrom :=
                (configAllowFrom (opt_config opts)
                 ++ storeEntriesAt (opt_core opts) w0)%list |} /\
  trace o =
    match readAllowFromStore (opt_core opts) with
    | Some _ => [EvReadAllowFromStore "fluxer"]
    | None => []
    end.
Proof.
  unfold monitorFluxerProvider, storeAllowFrom, storeEntriesAt, bind, try_catch, call, ret.
  destruct (readAllowFromStore (opt_core opts)) as [read |]; simpl.
  - destruct (read "fluxer" w0) as [[entries | e] w1]; simpl; split; reflexivity.
  - split; reflexivity.
Qed.

Lemma bind_js_return_not_Normal {A B : Type} (m : M W A) (w : W) (b : B) :
  completion (bind m (fun _ => js_return) w) <> Normal b.
Proof. unfold bind. destruct (completion (m w)); simpl; discriminate. Qed.

(** The DM gate lets a message through according to the policy and the
    snapshot alone. *)
Lemma dmPolicyEnforcement_passes (s : Session W) (msg : Message) (w : W) :
  completion (dmPolicyEnforcement rest s msg w) = Normal tt <->
  (dmPolicy (cfg s) =? "disabled") = false /\
  ((dmPolicy (cfg s) =? "open") = true \/
   isAllowed (effectiveAllowFrom s) (senderId msg) = true).
Proof.
  unfold dmPolicyEnforcement.
  destruct (dmPolicy (cfg s) =? "disabled"); simpl.
  - split; [discriminate | intros [H _]; discriminate].
  - destruct (dmPolicy (cfg s) =? "open"); simpl.
    + split; auto.
    + destruct (isAllowed (effectiveAllowFrom s) (senderId msg)); simpl.
      * split; auto.
      * split.
        -- intros H. exfalso. revert H. apply bind_js_return_not_Normal.
        -- intros [_ [H | H]]; discriminate.
Qed.

(** C1, as the code has it.  The store allowlist is read at session
    setup, once when the host offers [readAllowFromStore] and never
    otherwise, and appended to the configured entries; the session keeps
    that list, also across [Ready].  The message handler never reads the
    store: whether a direct message passes the DM gate depends on the
    policy and on the list of the session, whatever the host's state at
    the time of the message. *)
Theorem C1_allowlist_read_once_at_session_setup :
  forall (opts : FluxerMonitorOpts W) (t0 : Z) (w0 : W),
    let o0 := monitorFluxerProvider opts t0 w0 in
    (exists s : Session W,
       completion o0 = Normal s /\
       effectiveAllowFrom s =
         (configAllowFrom (opt_config opts) ++ storeEntriesAt (opt_core opts) w0)%list) /\
    count is_storeRead (trace o0) =
      match readAllowFromStore (opt_core opts) with
      | Some _ => 1%nat
      | None => 0%nat
      end /\
    (forall (s : Session W) (uid : string),
       effectiveAllowFrom (onReady s uid) = effectiveAllowFrom s) /\
    (forall (s : Session W) (now : Z) (msg : Message) (w : W),
       count is_storeRead (trace (onMessageCreate js rest s now msg w)) = 0%nat) /\
    (forall (s : Session W) (msg : Message) (w w' : W),
       completion (dmPolicyEnforcement rest s msg w) = Normal tt <->
       completion (dmPolicyEnforcement rest s msg w') = Normal tt).
Proof.
  intros opts t0 w0 o0.
  destruct (monitorFluxerProvider_spec opts t0 w0) as [Hc Ht]. fold o0 in Hc, Ht.
  split; [| split; [| split; [| split]]].
  - eexists. split; [exact Hc | reflexivity].
  - rewrite Ht. destruct (readAllowFromStore (opt_core opts)); reflexivity.
  - intros s uid. reflexivity.
  - intros s now msg w. apply avoids_count. apply onMessageCreate_avoids_storeRead.
  - intros s msg w w'. rewrite !dmPolicyEnforcement_passes. tauto.
Qed.

(** ** The staged dispatch *)








(** ** Counting calls *)








(** ** The reply target *)

Lemma emits_weaken {A : Type} (P Q : Event -> Prop) (m : M W A) :
  (forall e, P e -> Q e) -> emits P m -> emits Q m.
Proof. intros H Hm w. eapply Forall_impl; [exact H | apply Hm]. Qed.

Lemma emits_dispatch_deliver (P : Event -> Prop) (e : Event) (d : Dispatcher W)
  (s : Session W) (msg : Message) (ctx : CtxPayload) :
  P e ->
  (forall payload,
     P (EvSendMessage (channelId msg) (Js.nullish (text payload) "")
          {| replyTo := if negb (replyToModeOf s =? "off") then Some (id msg) else None;
             send_mediaUrl := mediaUrl payload |})) ->
  (forall line, P (EvLogWarn line)) ->
  emits P (dispatch rest e d s msg ctx).
Proof.
  intros He Hsend Hlog w. unfold dispatch. simpl. constructor; [exact He |].
  apply emits_runDispatch.
  - intros p. unfold deliver, sendMessage. apply emits_call. apply Hsend.
  - intros err kind. unfold onError, log_warn. apply emits_emit. apply Hlog.
Qed.

Lemma deliveryTargeted_deliver (s : Session W) (msg : Message) (payload : ReplyPayload) :
  deliveryTargeted s msg
    (EvSendMessage (channelId msg) (Js.nullish (text payload) "")
       {| replyTo := if negb (replyToModeOf s =? "off") then Some (id msg) else None;
          send_mediaUrl := mediaUrl payload |}).
Proof.
  split; [reflexivity |]. cbn [replyTo].
  destruct (replyToModeOf s =? "off"); reflexivity.
Qed.

Ltac target_steps :=
  repeat
    match goal with
    | |- emits _ (ret _) => apply emits_ret
    | |- emits _ js_return => apply emits_js_return
    | |- emits _ (throw _) => apply emits_throw
    | |- emits _ (return_if _) => unfold return_if
    | |- emits _ (log_info _) => apply emits_emit; exact I
    | |- emits _ (log_warn _) => apply emits_emit; exact I
    | |- emits _ (runtime_error _) => apply emits_emit; exact I
    | |- emits _ (stopTyping) => apply emits_emit; exact I
    | |- emits _ (unbound_call _) => apply emits_throw
    | |- emits _ (sendTyping _ _) => apply emits_sendTyping; exact I
    | |- emits _ (startTyping _ _) => unfold startTyping
    | |- emits _ (emit _) => apply emits_emit; exact I
    | |- emits _ (dispatch _ _ _ _ _ _) =>
        apply emits_dispatch_deliver;
        [ reflexivity | intros; apply deliveryTargeted_deliver | intros; exact I ]
    | |- emits _ (call _ _) => apply emits_call; exact I
    | |- emits _ (bind _ _) => apply emits_bind; [| intros]
    | |- emits _ (try_catch _ _) => apply emits_try_catch; [| intros]
    | |- emits _ (try_finally _ _) => apply emits_try_finally
    | |- emits _ (function_body _) => apply emits_function_body
    | |- emits _ (match ?x with _ => _ end) => destruct x
    | |- emits _ (if ?x then _ else _) => destruct x
    end.

Lemma emits_deliverReply_targets (s : Session W) (ts : Js.number) (msg : Message)
  (mediaPath : option string) :
  emits (deliveryTargeted s msg) (deliverReply js rest s ts msg mediaPath).
Proof.
  unfold deliverReply, resolveSessionRouting, envelopeOptions, formattedBody,
    stagedDispatch, blockDispatch, blockAttempt, messageDispatch, messageAttempt,
    systemEventInjection.
  target_steps.
Qed.

Lemma emits_gates_targets (s : Session W) (msg : Message) :
  emits (fun e => deliveryTargeted s msg e \/ isPairingReply e)
        (dmPolicyEnforcement rest s msg) /\
  emits (deliveryTargeted s msg) (groupMentionCheck js s msg) /\
  emits (deliveryTargeted s msg) (downloadFirstAttachment s msg).
Proof.
  split; [| split].
  - unfold dmPolicyEnforcement, pairingChallenge.
    repeat
      match goal with
      | |- emits _ (ret _) => apply emits_ret
      | |- emits _ js_return => apply emits_js_return
      | |- emits _ (log_warn _) => apply emits_emit; left; exact I
      | |- emits _ (sendMessage _ _ (pairingReply ?code) noSendOpts) =>
          apply emits_call; right; split; [exists code; reflexivity | reflexivity]
      | |- emits _ (call _ _) => apply emits_call; left; exact I
      | |- emits _ (bind _ _) => apply emits_bind; [| intros]
      | |- emits _ (try_catch _ _) => apply emits_try_catch; [| intros]
      | |- emits _ (match ?x with _ => _ end) => destruct x
      | |- emits _ (if ?x then _ else _) => destruct x
      end.
  - unfold groupMentionCheck, hasConfigMention. target_steps.
  - unfold downloadFirstAttachment. target_steps.
Qed.

Lemma envelopes_Forall (P : CtxPayload -> Prop) (Q : Event -> Prop) (t : Trace) :
  (forall ctx, Q (EvDispatchBlock ctx) -> P ctx) ->
  (forall ctx, Q (EvDispatchMessage ctx) -> P ctx) ->
  Forall Q t -> Forall P (envelopes t).
Proof.
  intros Hb Hm H. induction H as [| e t He _ IH]; [constructor |].
  destruct e; simpl; auto.
Qed.

Lemma emits_onMessageCreate_targets (s : Session W) (now : Z) (msg : Message) :
  emits (fun e => deliveryTargeted s msg e \/ isPairingReply e)
        (onMessageCreate js rest s now msg).
Proof.
  destruct (emits_gates_targets s msg) as [Hdm [Hgroup Hmedia]].
  assert (L : forall A (m : M W A),
            emits (deliveryTargeted s msg) m ->
            emits (fun e => deliveryTargeted s msg e \/ isPairingReply e) m).
  { intros A m. apply emits_weaken. auto. }
  unfold onMessageCreate, handlerCatch, handleMessage, processMessage, afterGates.
  apply emits_function_body. apply emits_try_catch.
  - repeat (apply emits_bind; [solve [apply L; target_steps] | intros]).
    apply emits_bind; [destruct (isDm msg); [exact Hdm | apply emits_ret] | intros].
    apply emits_bind;
      [destruct (negb (isDm msg)); [apply L, Hgroup | apply emits_ret] | intros].
    apply emits_bind; [apply L, Hmedia | intros].
    apply L, emits_deliverReply_targets.
  - intros e. apply L. target_steps.
Qed.

(** C5, as the code has it.  The envelope carries the id of the message
    that the inbound message refers to, whatever [replyToMode] is.
    [replyToMode], [off] unless configured, decides what the [deliver]
    callback passes to [sendMessage] as [replyTo]: nothing when the mode
    is [off], the id of the inbound message otherwise.  This holds of
    the handler as a whole: every envelope it hands to a dispatcher
    refers to the message that the inbound message refers to, and every
    message it sends is either the instructional reply of the pairing
    challenge or goes to the channel of the inbound message with the
    reply target that [replyToMode] decides; from routing on, where the
    replies are delivered, every message sent is of the second kind. *)
Theorem C5_reply_target_of_envelope_and_delivery :
  forall (s : Session W) (now : Z) (ts : Js.number) (msg : Message)
         (mediaPath : option string) (key : string) (route : option AgentRoute)
         (body : string) (payload : ReplyPayload) (w : W),
    ReplyToId (ctxPayload js s ts msg mediaPath key route body) = referenced_message msg /\
    (replyToMode (fluxerConfig (cfg s)) = None -> replyToModeOf s = "off") /\
    (exists opts : SendOpts,
      trace (deliver rest s msg payload w) =
        [EvSendMessage (channelId msg) (Js.nullish (text payload) "") opts] /\
      send_mediaUrl opts = mediaUrl payload /\
      (replyToModeOf s = "off" -> replyTo opts = None) /\
      (replyToModeOf s <> "off" -> replyTo opts = Some (id msg))) /\
    Forall (deliveryTargeted s msg) (trace (deliverReply js rest s ts msg mediaPath w)) /\
    Forall (fun e => deliveryTargeted s msg e \/ isPairingReply e)
           (trace (onMessageCreate js rest s now msg w)) /\
    Forall (fun ctx => ReplyToId ctx = referenced_message msg)
           (envelopes (trace (onMessageCreate js rest s now msg w))).
Proof.
  intros s now ts msg mediaPath key route body payload w.
  split; [reflexivity |]. split; [| split; [| split; [| split]]].
  - intros H. unfold replyToModeOf. rewrite H. reflexivity.
  - unfold deliver, sendMessage, call.
    destruct (rest_sendMessage rest _ _ _ w) as [r w1] eqn:E.
    eexists. split; [simpl; reflexivity |]. simpl. split; [reflexivity |]. split.
    + intros H. rewrite H. reflexivity.
    + intros H. apply String.eqb_neq in H. rewrite H. reflexivity.
  - apply emits_deliverReply_targets.
  - apply emits_onMessageCreate_targets.
  - apply (envelopes_Forall _ (fun e => deliveryTargeted s msg e \/ isPairingReply e)).
    + intros ctx [H | []]. exact H.
    + intros ctx [H | []]. exact H.
    + apply emits_onMessageCreate_targets.
Qed.

(** ** Mention gating *)

Lemma hasConfigMention_Normal (s : Session W) (body : string) (w : W) :
  exists b, completion (hasConfigMention s body w) = Normal b.
Proof.
  unfold hasConfigMention, try_catch, bind, call, throw, ret.
  destruct (buildMentionRegexes (core s)) as [build |]; simpl; [| eauto].
  destruct (build (cfg s) w) as [[regexes | e] w1]; simpl; [| eauto].
  destruct (matchesMentionPatterns (core s)) as [matches |]; simpl; [| eauto].
  destruct (matches body regexes w1) as [[b | e] w2]; simpl; eauto.
Qed.

Lemma groupMentionCheck_open (s : Session W) (msg : Message) (w : W) (b : bool) :
  Js.nullish (groupPolicy (fluxerConfig (cfg s))) "open" = "open" ->
  completion (hasConfigMention s (bodyText msg) w) = Normal b ->
  groupMentionCheck js s msg w =
  mkOut (if negb (hasSelfMention js s (bodyText msg)) && negb b then Return else Normal tt)
        (world (hasConfigMention s (bodyText msg) w))
        (trace (hasConfigMention s (bodyText msg) w)).
Proof.
  intros Hpol Hb. unfold groupMentionCheck. rewrite Hpol.
  change ("open" =? "disabled") with false. cbv iota.
  rewrite (bind_Normal _ _ w b) by exact Hb.
  destruct (negb (hasSelfMention js s (bodyText msg)) && negb b);
    cbn [completion world trace js_return ret]; rewrite app_nil_r; reflexivity.
Qed.

Lemma hasConfigMention_calls (s : Session W) (body : string) (w w1 : W)
  (build : Config -> W -> Outcome (list string) * W)
  (matches : string -> list string -> W -> Outcome bool * W) (regexes : list string) :
  buildMentionRegexes (core s) = Some build ->
  matchesMentionPatterns (core s) = Some matches ->
  build (cfg s) w = (Returns regexes, w1) ->
  hasConfigMention s body w =
  mkOut (Normal match fst (matches body regexes w1) with
                | Returns b => b
                | Throws _ => false
                end)
        (snd (matches body regexes w1)) (mentionCalls body regexes).
Proof.
  intros Hb Hm Hbuild. unfold hasConfigMention, try_catch, bind, call, throw, ret.
  rewrite Hb, Hbuild. cbn [completion world trace]. rewrite Hm.
  destruct (matches body regexes w1) as [[b | e] w2]; reflexivity.
Qed.

Lemma hasConfigMention_unavailable (s : Session W) (body : string) (w : W) :
  (buildMentionRegexes (core s) = None ->
   hasConfigMention s body w = mkOut (Normal false) w []) /\
  (forall build e w1,
     buildMentionRegexes (core s) = Some build ->
     build (cfg s) w = (Throws e, w1) ->
     hasConfigMention s body w = mkOut (Normal false) w1 [EvBuildMentionRegexes]) /\
  (forall build regexes w1,
     buildMentionRegexes (core s) = Some build ->
     build (cfg s) w = (Returns regexes, w1) ->
     matchesMentionPatterns (core s) = None ->
     hasConfigMention s body w = mkOut (Normal false) w1 [EvBuildMentionRegexes]).
Proof.
  unfold hasConfigMention, try_catch, bind, call, throw, ret.
  split; [| split].
  - intros ->. reflexivity.
  - intros build e w1 -> ->. reflexivity.
  - intros build regexes w1 -> -> ->. reflexivity.
Qed.

Lemma onMessageCreate_trace (s : Session W) (now : Z) (msg : Message) (w : W) :
  trace (onMessageCreate js rest s now msg w) = trace (handleMessage js rest s now msg w).
Proof.
  unfold onMessageCreate, function_body, try_catch. cbn [trace].
  destruct (completion (handleMessage js rest s now msg w)); cbn [trace];
    [reflexivity | reflexivity | apply app_nil_r].
Qed.

(** What the handler does with a group message that reached the mention
    gate, by the gate's outcome. *)
Lemma handleMessage_group_gate (s : Session W) (now : Z) (msg : Message) (w w2 : W)
  (c : Completion unit) (t : Trace) :
  fromSelf s msg = false ->
  fromBot msg = false ->
  beforeStartup s (eventTs js now msg) = false ->
  nothingToProcess msg = false ->
  isDm msg = false ->
  groupMentionCheck js s msg w = mkOut c w2 t ->
  match c with
  | Normal _ =>
      trace (handleMessage js rest s now msg w) =
      (t ++ trace (afterGates js rest s (eventTs js now msg) msg w2))%list
  | Return => handleMessage js rest s now msg w = mkOut Return w2 t
  | Throw e => handleMessage js rest s now msg w = mkOut (Throw e) w2 t
  end.
Proof.
  intros Hs Hb Ht Hn Hgroup Hg.
  rewrite (handleMessage_past_filters s now msg w Hs Hb Ht).
  unfold processMessage. rewrite Hn, bind_return_if_false, Hgroup. cbv iota.
  rewrite bind_ret. change (negb false) with true. cbv iota.
  destruct c as [[] | | e].
  - rewrite (bind_Normal _ _ w tt) by (rewrite Hg; reflexivity).
    rewrite Hg. reflexivity.
  - rewrite bind_Return by (rewrite Hg; reflexivity). rewrite Hg. reflexivity.
  - rewrite (bind_Throw _ _ w e) by (rewrite Hg; reflexivity). rewrite Hg. reflexivity.
Qed.

(** C6. A group message under the [open] group policy whose text has no
    match of the adapter's own mention pattern, and for which the check
    of the configured patterns gives false, makes the handler return
    without calling a dispatcher or the system event sink.  While the
    adapter's id is unknown the own-mention match is false, and the
    configured patterns are still consulted: they alone decide whether
    the message passes the gate.  In terms of the host: when the host
    offers [buildMentionRegexes] and [matchesMentionPatterns] and the
    patterns are built, the gate makes exactly these two calls, the
    second with the trimmed text and the patterns built, and the
    message passes exactly when the second call answers true; the
    handler then continues with the steps after the gates, and
    otherwise returns after the two calls.  When the host does not
    offer the check, or building the patterns throws, the message is
    dropped. *)
Theorem C6_unmentioned_group_message_not_dispatched :
  forall (s : Session W) (now : Z) (msg : Message) (w : W),
    isDm msg = false ->
    Js.nullish (groupPolicy (fluxerConfig (cfg s))) "open" = "open" ->
    let body := bodyText msg in
    let oc := hasConfigMention s body w in
    let og := groupMentionCheck js s msg w in
    (hasSelfMention js s body = false ->
     completion oc = Normal false ->
     let o := onMessageCreate js rest s now msg w in
     completion o = Normal tt /\ count is_dispatchAttempt (trace o) = 0%nat) /\
    (selfUserId s = None ->
     hasSelfMention js s body = false /\
     trace og = trace oc /\
     (completion oc = Normal true -> completion og = Normal tt) /\
     (completion oc = Normal false -> completion og = Return)) /\
    (selfUserId s = None ->
     forall build matches regexes w1,
       buildMentionRegexes (core s) = Some build ->
       matchesMentionPatterns (core s) = Some matches ->
       build (cfg s) w = (Returns regexes, w1) ->
       let answer := matches body regexes w1 in
       let passes :=
         match fst answer with
         | Returns b => b
         | Throws _ => false
         end in
       og = mkOut (if passes then Normal tt else Return) (snd answer)
                  (mentionCalls body regexes) /\
       (fromBot msg = false ->
        beforeStartup s (eventTs js now msg) = false ->
        nothingToProcess msg = false ->
        let o := onMessageCreate js rest s now msg w in
        if passes
        then trace o =
             (mentionCalls body regexes
              ++ trace (afterGates js rest s (eventTs js now msg) msg (snd answer)))%list
        else o = mkOut (Normal tt) (snd answer) (mentionCalls body regexes))) /\
    (selfUserId s = None ->
     (buildMentionRegexes (core s) = None -> og = mkOut Return w []) /\
     (forall build e w1,
        buildMentionRegexes (core s) = Some build ->
        build (cfg s) w = (Throws e, w1) ->
        og = mkOut Return w1 [EvBuildMentionRegexes]) /\
     (forall build regexes w1,
        buildMentionRegexes (core s) = Some build ->
        build (cfg s) w = (Returns regexes, w1) ->
        matchesMentionPatterns (core s) = None ->
        og = mkOut Return w1 [EvBuildMentionRegexes])).
Proof.
  intros s now msg w Hgroup Hpol body oc og.
  assert (Hunknown : selfUserId s = None ->
                     hasSelfMention js s body = false /\ fromSelf s msg = false).
  { intros Hnone. unfold hasSelfMention, selfMentionPattern, fromSelf. rewrite Hnone.
    split; reflexivity. }
  assert (Hgate : forall b w2 t,
            selfUserId s = None -> oc = mkOut (Normal b) w2 t ->
            og = mkOut (if b then Normal tt else Return) w2 t).
  { intros b w2 t Hnone Hoc. unfold og.
    rewrite (groupMentionCheck_open s msg w b Hpol) by (fold body; fold oc; rewrite Hoc; reflexivity).
    fold body. fold oc. rewrite (proj1 (Hunknown Hnone)), Hoc.
    destruct b; reflexivity. }
  split; [| split; [| split]].
  - intros Hself Hconf o.
    assert (Hg : groupMentionCheck js s msg w = mkOut Return (world oc) (trace oc)).
    { rewrite (groupMentionCheck_open s msg w false Hpol Hconf).
      fold body. rewrite Hself. reflexivity. }
    assert (Hh : completion (handleMessage js rest s now msg w) = Return /\
                 count is_dispatchAttempt (trace (handleMessage js rest s now msg w)) = 0%nat).
    { unfold handleMessage.
      destruct (fromSelf s msg); [split; reflexivity |]. rewrite bind_return_if_false.
      destruct (fromBot msg); [split; reflexivity |]. rewrite bind_return_if_false.
      destruct (beforeStartup s (eventTs js now msg)); [split; reflexivity |].
      rewrite bind_return_if_false. unfold processMessage.
      destruct (nothingToProcess msg); [split; reflexivity |].
      rewrite bind_return_if_false, Hgroup. cbv iota. rewrite bind_ret.
      change (negb false) with true. cbv iota.
      rewrite bind_Return by (rewrite Hg; reflexivity).
      rewrite Hg. cbn [completion world trace]. split; [reflexivity |].
      apply avoids_count. apply avoids_hasConfigMention; reflexivity. }
    destruct Hh as [Hr Hn]. unfold o. rewrite onMessageCreate_Return by exact Hr.
    cbn [completion world trace]. auto.
  - intros Hnone.
    assert (Hself : hasSelfMention js s body = false) by exact (proj1 (Hunknown Hnone)).
    destruct (hasConfigMention_Normal s body w) as [b Hb]. fold oc in Hb.
    unfold og. rewrite (groupMentionCheck_open s msg w b Hpol Hb).
    fold body. rewrite Hself. cbn [completion world trace].
    repeat split.
    + intros H. rewrite Hb in H. injection H as ->. reflexivity.
    + intros H. rewrite Hb in H. injection H as ->. reflexivity.
  - intros Hnone build matches regexes w1 Hb Hm Hbuild answer passes.
    assert (Hoc : oc = mkOut (Normal passes) (snd answer) (mentionCalls body regexes))
      by exact (hasConfigMention_calls s body w w1 build matches regexes Hb Hm Hbuild).
    assert (Hog := Hgate _ _ _ Hnone Hoc).
    split; [exact Hog |].
    intros Hbot Hts Hn o.
    pose proof (handleMessage_group_gate s now msg w (snd answer) _ _
                  (proj2 (Hunknown Hnone)) Hbot Hts Hn Hgroup Hog) as Hh.
    destruct passes.
    + unfold o. rewrite onMessageCreate_trace. exact Hh.
    + unfold o. rewrite onMessageCreate_Return by (rewrite Hh; reflexivity).
      rewrite Hh. reflexivity.
  - intros Hnone.
    destruct (hasConfigMention_unavailable s body w) as [H1 [H2 H3]].
    split; [| split].
    + intros Hb. exact (Hgate false w [] Hnone (H1 Hb)).
    + intros build e w1 Hb Hbuild. exact (Hgate false w1 _ Hnone (H2 build e w1 Hb Hbuild)).
    + intros build regexes w1 Hb Hbuild Hm.
      exact (Hgate false w1 _ Hnone (H3 build regexes w1 Hb Hbuild Hm)).
Qed.

(** ** The pairing challenge *)

Lemma append_assoc (a b c : string) : (a ++ b) ++ c = a ++ (b ++ c).
Proof. induction a as [| ch a IH]; simpl; [reflexivity | rewrite IH; reflexivity]. Qed.

Lemma pairingReply_shows_code :
  exists pre post, forall code, pairingReply code = pre ++ code ++ post.
Proof.
  exists ("🦐 OpenClaw: access not configured." ++ Js.nl ++ Js.nl ++ "Pairing code: `").
  exists ("`" ++ Js.nl ++ Js.nl ++ "Ask the bot owner to approve:" ++ Js.nl
          ++ "`openclaw pairing approve fluxer <code>`").
  intros code. unfold pairingReply, Js.join_lines. simpl.
  rewrite append_assoc. reflexivity.
Qed.

#[local] Arguments pairingReply : simpl never.

Lemma pairingChallenge_spec (s : Session W) (msg : Message) (w : W) :
  let req := {| pr_channel := "fluxer";
                pr_id := senderId msg;
                pr_meta_name := senderName msg |} in
  let o := pairingChallenge rest s msg w in
  completion o = Normal tt /\
  match upsertPairingRequest (core s) with
  | None => trace o = []
  | Some upsert =>
      match fst (upsert req w) with
      | Returns (code, true) =>
          exists tail,
            trace o =
              EvUpsertPairingRequest req
              :: EvSendMessage (channelId msg) (pairingReply code) noSendOpts :: tail /\
            (tail = [] \/ exists line, tail = [EvLogWarn line])
      | Returns (_, false) => trace o = [EvUpsertPairingRequest req]
      | Throws e =>
          trace o = [EvUpsertPairingRequest req;
                     EvLogWarn ("fluxer: pairing reply failed: " ++ String_of e)]
      end
  end.
Proof.
  intros req o. unfold o, pairingChallenge. fold req.
  destruct (upsertPairingRequest (core s)) as [upsert |]; [| split; reflexivity].
  unfold try_catch, bind, call, sendMessage, call, log_warn, emit, ret.
  destruct (upsert req w) as [[[code [|]] | e] w1]; cbn.
  - destruct (rest_sendMessage rest (channelId msg) (pairingReply code) noSendOpts w1)
      as [[[] | e] w2]; cbn.
    + split; [reflexivity |]. exists []. auto.
    + split; [reflexivity |]. eexists. split; [reflexivity |]. right. eexists. reflexivity.
  - split; reflexivity.
  - split; reflexivity.
Qed.

(** C8, as the code has it.  A direct message that reaches the DM gate
    under the [pairing] policy from a sender outside the session's
    allowlist is denied: the handler returns normally, nothing is
    dispatched and the typing indicator is not started.  When the host
    offers [upsertPairingRequest] it is called once, first of all, for
    this sender, and the instructional reply with the code is sent
    exactly when the call returns [created = true]; a call that returns
    [created = false], as for a sender challenged before, or that
    throws, sends nothing.  When the host does not offer it, nothing is
    called. *)
Theorem C8_pairing_challenge_gated_by_created :
  forall (s : Session W) (now : Z) (msg : Message) (w : W),
    fromSelf s msg = false ->
    fromBot msg = false ->
    beforeStartup s (eventTs js now msg) = false ->
    nothingToProcess msg = false ->
    isDm msg = true ->
    dmPolicy (cfg s) = "pairing" ->
    isAllowed (effectiveAllowFrom s) (senderId msg) = false ->
    let req := {| pr_channel := "fluxer";
                  pr_id := senderId msg;
                  pr_meta_name := senderName msg |} in
    let o := onMessageCreate js rest s now msg w in
    completion o = Normal tt /\
    count is_dispatchAttempt (trace o) = 0%nat /\
    count is_typingStart (trace o) = 0%nat /\
    (exists pre post, forall code, pairingReply code = pre ++ code ++ post) /\
    match upsertPairingRequest (core s) with
    | None => trace o = []
    | Some upsert =>
        count is_upsert (trace o) = 1%nat /\
        match fst (upsert req w) with
        | Returns (code, true) =>
            count is_sendMessage (trace o) = 1%nat /\
            exists tail,
              trace o =
                EvUpsertPairingRequest req
                :: EvSendMessage (channelId msg) (pairingReply code) noSendOpts :: tail
        | Returns (_, false) =>
            count is_sendMessage (trace o) = 0%nat /\
            trace o = [EvUpsertPairingRequest req]
        | Throws e =>
            count is_sendMessage (trace o) = 0%nat /\
            trace o = [EvUpsertPairingRequest req;
                       EvLogWarn ("fluxer: pairing reply failed: " ++ String_of e)]
        end
    end.
Proof.
  intros s now msg w Hself Hbot Hfresh Hsome Hdm Hpol Hnot req o.
  pose proof (pairingChallenge_spec s msg w) as Hp. cbv zeta in Hp. fold req in Hp.
  destruct Hp as [Hpc Hpt].
  assert (Hgate : dmPolicyEnforcement rest s msg w =
                  mkOut Return (world (pairingChallenge rest s msg w))
                        (trace (pairingChallenge rest s msg w))).
  { unfold dmPolicyEnforcement. rewrite Hpol, Hnot.
    change ("pairing" =? "disabled") with false.
    change ("pairing" =? "open") with false.
    change ("pairing" =? "pairing") with true. cbv iota. cbn [negb andb].
    rewrite (bind_Normal _ _ w tt) by exact Hpc.
    cbn [completion world trace js_return]. rewrite app_nil_r. reflexivity. }
  assert (Hh : handleMessage js rest s now msg w =
               mkOut Return (world (pairingChallenge rest s msg w))
                     (trace (pairingChallenge rest s msg w))).
  { rewrite handleMessage_past_filters by assumption.
    unfold processMessage. rewrite Hsome, bind_return_if_false, Hdm. cbv iota.
    rewrite bind_Return by (rewrite Hgate; reflexivity).
    rewrite Hgate. reflexivity. }
  assert (Ho : o = mkOut (Normal tt) (world (pairingChallenge rest s msg w))
                     (trace (pairingChallenge rest s msg w))).
  { unfold o. rewrite onMessageCreate_Return; rewrite Hh; reflexivity. }
  rewrite Ho. cbn [completion world trace].
  split; [reflexivity |].
  assert (Havoid : forall p,
             (forall r, p (EvUpsertPairingRequest r) = false) ->
             (forall target body opts, p (EvSendMessage target body opts) = false) ->
             (forall line, p (EvLogWarn line) = false) ->
             count p (trace (pairingChallenge rest s msg w)) = 0%nat).
  { intros p Hu Hs Hl.
    destruct (upsertPairingRequest (core s)) as [upsert |].
    - destruct (fst (upsert req w)) as [[code [|]] | e].
      + destruct Hpt as [tail [Ht [-> | [line ->]]]]; rewrite Ht; unfold count; simpl;
          rewrite ?Hu, ?Hs, ?Hl; reflexivity.
      + rewrite Hpt. unfold count. simpl. rewrite Hu. reflexivity.
      + rewrite Hpt. unfold count. simpl. rewrite Hu, Hl. reflexivity.
    - rewrite Hpt. reflexivity. }
  split; [apply Havoid; reflexivity |].
  split; [apply Havoid; reflexivity |].
  split; [exact pairingReply_shows_code |].
  destruct (upsertPairingRequest (core s)) as [upsert |]; [| exact Hpt].
  destruct (fst (upsert req w)) as [[code [|]] | e].
  - destruct Hpt as [tail [Ht Htail]]. rewrite Ht.
    repeat split.
    + destruct Htail as [-> | [line ->]]; reflexivity.
    + destruct Htail as [-> | [line ->]]; reflexivity.
    + exists tail. reflexivity.
  - rewrite Hpt. repeat split.
  - rewrite Hpt. repeat split.
Qed.

(** ** Media *)







(** ** The outer catch *)

(** The catch block stops at its first statement: neither the typing
    indicator is stopped nor anything logged or reported. *)
Lemma handlerCatch_throws (err : Exn) (w : W) :
  handlerCatch err w = mkOut (Throw (ReferenceError "stopTyping")) w [].
Proof. reflexivity. Qed.

Lemma onMessageCreate_Throw (s : Session W) (now : Z) (msg : Message) (w : W) (e : Exn) :
  completion (handleMessage js rest s now msg w) = Throw e ->
  onMessageCreate js rest s now msg w =
  mkOut (Throw (ReferenceError "stopTyping"))
        (world (handleMessage js rest s now msg w))
        (trace (handleMessage js rest s now msg w)).
Proof.
  intros H. unfold onMessageCreate, function_body, try_catch. rewrite H.
  rewrite handlerCatch_throws. cbn [completion world trace]. rewrite app_nil_r.
  reflexivity.
Qed.

End Properties.

(* ------------------------------------------------------------------ *)
(** * The handler on concrete sessions *)

Import Scenario.

(** C1, against the claim.  The session starts with an empty store;
    the owner then approves user u1.  The store now lists u1, yet the
    next direct message of u1 under the allowlist policy is handled
    without any read of the store and is dropped without a single call.
    A session set up after the approval lets the same message through. *)
Lemma C1_counterexample_store_entry_not_seen :
  exists s : Session Host,
    completion (monitorFluxerProvider (allowlistOpts []) startup emptyHost) = Normal s /\
    let w1 := approve "u1" emptyHost in
    storeEntriesAt (core s) w1 = ["u1"] /\
    dmPolicy (cfg s) = "allowlist" /\
    let o := onMessageCreate sampleJs okRest s later (directMessage alice "hi") w1 in
    count is_storeRead (trace o) = 0%nat /\
    trace o = [] /\
    exists s' : Session Host,
      completion (monitorFluxerProvider (allowlistOpts []) startup w1) = Normal s' /\
      count is_typingStart
        (trace (onMessageCreate sampleJs okRest s' later (directMessage alice "hi") w1))
      = 1%nat.
Proof.
  eexists. split; [vm_compute; reflexivity |].
  cbv zeta.
  split; [vm_compute; reflexivity |].
  split; [vm_compute; reflexivity |].
  split; [vm_compute; reflexivity |].
  split; [vm_compute; reflexivity |].
  eexists. split; [vm_compute; reflexivity | vm_compute; reflexivity].
Qed.

(** C2, on the code.  When [formatAgentEnvelope] throws, the typing
    indicator has been started, the outer catch fails on its first
    statement, the indicator is never stopped and the handler rejects.
    When the block dispatcher has delivered its reply to a group and the
    system event sink then throws, the message dispatcher runs as well
    and the indicator is stopped twice. *)
Lemma C2_stopTyping_not_exactly_once :
  (let o := onMessageCreate sampleJs okRest formatThrows later
              (directMessage alice "hi") emptyHost in
   count is_typingStart (trace o) = 1%nat /\
   count is_stopTyping (trace o) = 0%nat /\
   completion o = Throw (ReferenceError "stopTyping")) /\
  (let o := onMessageCreate sampleJs okRest sinkThrows later
              (groupMessage bob "hello <@12345>") emptyHost in
   count is_typingStart (trace o) = 1%nat /\
   count is_stopTyping (trace o) = 2%nat /\
   count is_sendMessage (trace o) = 2%nat /\
   completion o = Normal tt).
Proof. vm_compute. auto 10. Qed.

(** C5, against the claim.  With [replyToMode] off, the envelope of a
    message that replies to m0 carries m0 as its reply target. *)
Lemma C5_counterexample_envelope_keeps_reply_target :
  replyToModeOf replying = "off" /\
  map ReplyToId
    (envelopes (trace (onMessageCreate sampleJs okRest replying later replyMessage emptyHost)))
  = [Some "m0"].
Proof. vm_compute. auto. Qed.

(** C8, against the claim.  A host without [upsertPairingRequest]: the
    direct message of a sender outside the allowlist, under the pairing
    policy, leads to no upsert. *)
Lemma C8_counterexample_no_upsert_without_capability :
  let s := pairingSession bareCore in
  let msg := directMessage alice "hi" in
  let o := onMessageCreate sampleJs okRest s later msg emptyHost in
  isDm msg = true /\
  dmPolicy (cfg s) = "pairing" /\
  isAllowed (effectiveAllowFrom s) (senderId msg) = false /\
  upsertPairingRequest (core s) = None /\
  count is_upsert (trace o) = 0%nat /\
  completion o = Normal tt.
Proof. vm_compute. auto 10. Qed.

(** ** Instances of the theorems *)

(** C4 at a message sent an hour before session start. *)
Lemma C4_witness :
  timestamp staleMessage = Some "2025-12-31T23:00:00.000Z" /\
  1767222000000 < startupMs (pairingSession storeCore) - 10000 /\
  trace (onMessageCreate sampleJs okRest (pairingSession storeCore) later
           staleMessage emptyHost) = [].
Proof.
  assert (H1 : timestamp staleMessage = Some "2025-12-31T23:00:00.000Z")
    by reflexivity.
  assert (H2 : Js.truthy "2025-12-31T23:00:00.000Z" = true) by reflexivity.
  assert (H3 : Date_getTime sampleJs "2025-12-31T23:00:00.000Z" = Js.Num 1767222000000)
    by (vm_compute; reflexivity).
  assert (H4 : 1767222000000 < startupMs (pairingSession storeCore) - 10000)
    by (vm_compute; reflexivity).
  pose proof (C4_stale_message_dropped_before_policy Host sampleJs okRest
                (pairingSession storeCore) later staleMessage emptyHost
                "2025-12-31T23:00:00.000Z" 1767222000000 H1 H2 H3 H4) as H.
  cbv zeta in H. destruct H as [_ [_ [_ [Ht _]]]].
  split; [exact H1 |]. split; [exact H4 | exact Ht].
Defined.

(** C6 at two group messages in a session with the configured pattern
    [claw], the adapter's id being unknown: one without the word, which
    is dropped after the two calls of the check, and one with it, which
    passes the gate. *)
Lemma C6_witness :
  let quiet := groupMessage bob "hello world" in
  let loud := groupMessage bob "hey claw" in
  isDm quiet = false /\
  selfUserId mentionSession = None /\
  onMessageCreate sampleJs okRest mentionSession later quiet emptyHost
  = mkOut (Normal tt) emptyHost (mentionCalls "hello world" ["claw"]) /\
  count is_dispatchAttempt
    (trace (onMessageCreate sampleJs okRest mentionSession later quiet emptyHost)) = 0%nat /\
  trace (onMessageCreate sampleJs okRest mentionSession later loud emptyHost)
  = (mentionCalls "hey claw" ["claw"]
     ++ trace (afterGates sampleJs okRest mentionSession (Js.Num later) loud emptyHost))%list /\
  count is_blockCall
    (trace (afterGates sampleJs okRest mentionSession (Js.Num later) loud emptyHost)) = 1%nat.
Proof.
  intros quiet loud.
  assert (H1 : isDm quiet = false) by (vm_compute; reflexivity).
  assert (H1' : isDm loud = false) by (vm_compute; reflexivity).
  assert (H2 : Js.nullish (groupPolicy (fluxerConfig (cfg mentionSession))) "open" = "open")
    by (vm_compute; reflexivity).
  assert (H3 : hasSelfMention sampleJs mentionSession (bodyText quiet) = false)
    by (vm_compute; reflexivity).
  assert (H4 : completion (hasConfigMention mentionSession (bodyText quiet) emptyHost)
               = Normal false)
    by (vm_compute; reflexivity).
  assert (H5 : selfUserId mentionSession = None) by reflexivity.
  assert (Hb : buildMentionRegexes (core mentionSession) = Some buildPatterns) by reflexivity.
  assert (Hm : matchesMentionPatterns (core mentionSession) = Some matchPatterns)
    by reflexivity.
  assert (Hr : buildPatterns (cfg mentionSession) emptyHost = (Returns ["claw"], emptyHost))
    by reflexivity.
  assert (F1 : forall msg, fromBot (groupMessage bob msg) = false) by (intros; reflexivity).
  assert (F2 : forall msg,
            beforeStartup mentionSession (eventTs sampleJs later (groupMessage bob msg)) = false)
    by (intros; vm_compute; reflexivity).
  assert (F3 : nothingToProcess quiet = false) by (vm_compute; reflexivity).
  assert (F3' : nothingToProcess loud = false) by (vm_compute; reflexivity).
  pose proof (C6_unmentioned_group_message_not_dispatched Host sampleJs okRest
                mentionSession later quiet emptyHost H1 H2) as Hq.
  pose proof (C6_unmentioned_group_message_not_dispatched Host sampleJs okRest
                mentionSession later loud emptyHost H1' H2) as Hl.
  cbv zeta in Hq, Hl.
  destruct Hq as [Hq1 [_ [Hq3 _]]]. destruct Hl as [_ [_ [Hl3 _]]].
  pose proof (proj2 (Hq3 H5 buildPatterns matchPatterns ["claw"] emptyHost Hb Hm Hr)
                (F1 _) (F2 _) F3) as Hquiet.
  pose proof (proj2 (Hl3 H5 buildPatterns matchPatterns ["claw"] emptyHost Hb Hm Hr)
                (F1 _) (F2 _) F3') as Hloud.
  split; [exact H1 |]. split; [exact H5 |]. split; [exact Hquiet |].
  split; [exact (proj2 (Hq1 H3 H4)) |]. split; [exact Hloud |].
  vm_compute. reflexivity.
Defined.

(** C7 at a session whose configuration lists u7 and whose store lists
    u1: u1 passes, by the store entry alone. *)
Lemma C7_witness :
  let s := session storeCore (config (Some "allowlist") None None ["u7"]) None ["u7"; "u1"] in
  let msg := directMessage alice "hi" in
  dmPolicy (cfg s) = "allowlist" /\
  effectiveAllowFrom s = (["u7"] ++ ["u1"])%list /\
  completion (dmPolicyEnforcement okRest s msg emptyHost) = Normal tt /\
  isAllowed ([] ++ ["u1"]) (senderId msg) = true.
Proof.
  intros s msg.
  assert (H1 : dmPolicy (cfg s) = "allowlist") by (vm_compute; reflexivity).
  assert (H2 : effectiveAllowFrom s = (["u7"] ++ ["u1"])%list) by reflexivity.
  assert (H3 : In (senderId msg) ["u1"]) by (left; reflexivity).
  pose proof (C7_allowlist_membership_is_union Host okRest s msg ["u7"] ["u1"] emptyHost
                H1 H2) as H.
  cbv zeta in H. destruct H as [Hiff [_ [_ Hstore]]].
  split; [exact H1 |]. split; [exact H2 |]. split.
  - apply Hiff. right. left. exact H3.
  - apply Hstore. exact H3.
Defined.

(** C8 at the first and at the second message of an unknown sender:
    the first gets the reply with the code, the second does not. *)
Lemma C8_witness :
  let s := pairingSession storeCore in
  let msg := directMessage alice "hi" in
  let o1 := onMessageCreate sampleJs okRest s later msg emptyHost in
  let o2 := onMessageCreate sampleJs okRest s later msg (world o1) in
  isDm msg = true /\
  dmPolicy (cfg s) = "pairing" /\
  isAllowed (effectiveAllowFrom s) (senderId msg) = false /\
  count is_sendMessage (trace o1) = 1%nat /\
  count is_sendMessage (trace o2) = 0%nat /\
  count is_dispatchAttempt (trace o1) = 0%nat.
Proof.
  intros s msg o1 o2.
  assert (H1 : fromSelf s msg = false) by (vm_compute; reflexivity).
  assert (H2 : fromBot msg = false) by (vm_compute; reflexivity).
  assert (H3 : beforeStartup s (eventTs sampleJs later msg) = false)
    by (vm_compute; reflexivity).
  assert (H4 : nothingToProcess msg = false) by (vm_compute; reflexivity).
  assert (H5 : isDm msg = true) by (vm_compute; reflexivity).
  assert (H6 : dmPolicy (cfg s) = "pairing") by (vm_compute; reflexivity).
  assert (H7 : isAllowed (effectiveAllowFrom s) (senderId msg) = false)
    by (vm_compute; reflexivity).
  pose proof (C8_pairing_challenge_gated_by_created Host sampleJs okRest s later msg
                emptyHost H1 H2 H3 H4 H5 H6 H7) as Hfirst.
  pose proof (C8_pairing_challenge_gated_by_created Host sampleJs okRest s later msg
                (world o1) H1 H2 H3 H4 H5 H6 H7) as Hsecond.
  cbv zeta in Hfirst, Hsecond.
  destruct Hfirst as [_ [Hd [_ [_ Hfirst]]]]. destruct Hsecond as [_ [_ [_ [_ Hsecond]]]].
  split; [exact H5 |]. split; [exact H6 |]. split; [exact H7 |].
  split; [| split; [| exact Hd]].
  - vm_compute in Hfirst. exact (proj1 (proj2 Hfirst)).
  - vm_compute in Hsecond. exact (proj1 (proj2 Hsecond)).
Defined.


(** C10 at a message without timestamp, 100 seconds after session
    start. *)
Lemma C10_witness :
  startupMs (pairingSession storeCore) <= later /\
  eventTs sampleJs later (directMessage alice "hi") = Js.Num later /\
  beforeStartup (pairingSession storeCore)
    (eventTs sampleJs later (directMessage alice "hi")) = false.
Proof.
  assert (Hclock : startupMs (pairingSession storeCore) <= later)
    by (vm_compute; intros H; discriminate H).
  assert (Hts : timestamp (directMessage alice "hi") = None) by reflexivity.
  pose proof (C10_missing_or_malformed_timestamp_not_stale Host sampleJs okRest
                (pairingSession storeCore) later (directMessage alice "hi") Hclock) as H.
  destruct H as [Hnow Hfresh].
  split; [exact Hclock |]. split.
  - exact (Hnow Hts).
  - exact (proj1 (Hfresh (or_introl Hts))).
Defined.

(* ------------------------------------------------------------------ *)
(** * Further properties of the gateway monitor *)

Section GatewayFilters.

Variable W : Type.
Variable js : JsBuiltins.
Variable rest : Rest W.

Local Open Scope js_scope.

Lemma handler_returns_silently (s : Session W) (now : Z) (msg : Message) (w : W) :
  handleMessage js rest s now msg w = mkOut Return w [] ->
  onMessageCreate js rest s now msg w = mkOut (Normal tt) w [].
Proof.
  intros H. rewrite onMessageCreate_Return; rewrite H; reflexivity.
Qed.

(** X1. A message whose author is the adapter itself, as known from the
    [Ready] event, or is flagged as a bot makes the handler return at
    once: nothing is called and the host is left as it was.  Before
    [Ready] no message counts as the adapter's own. *)
Theorem X1_own_and_bot_messages_ignored :
  forall (s : Session W) (now : Z) (msg : Message) (w : W),
    selfUserId s = Some (author_id (author msg)) \/ bot (author msg) = Some true ->
    onMessageCreate js rest s now msg w = mkOut (Normal tt) w [] /\
    forall s0 : Session W, selfUserId s0 = None -> fromSelf s0 msg = false.
Proof.
  intros s now msg w H. split.
  - apply handler_returns_silently. unfold handleMessage.
    destruct H as [H | H].
    + unfold fromSelf. rewrite H, String.eqb_refl. reflexivity.
    + destruct (fromSelf s msg); [reflexivity |]. rewrite bind_return_if_false.
      unfold fromBot. rewrite H. reflexivity.
  - intros s0 H0. unfold fromSelf. rewrite H0. reflexivity.
Qed.

(** X2. A message whose content is empty or white space only and that
    has no attachment (the list missing or empty) is dropped without
    any call.  With at least one attachment the same content is not
    dropped by this filter. *)
Theorem X2_blank_message_without_attachment_dropped :
  forall (s : Session W) (now : Z) (msg : Message) (w : W),
    Js.trim (content msg) = "" ->
    (attachments msg = None \/ attachments msg = Some [] ->
     onMessageCreate js rest s now msg w = mkOut (Normal tt) w []) /\
    (forall att others, attachments msg = Some (att :: others) ->
     nothingToProcess msg = false).
Proof.
  intros s now msg w Hblank. split.
  - intros Hatt.
    assert (Hn : nothingToProcess msg = true).
    { unfold nothingToProcess, bodyText. rewrite Hblank.
      destruct Hatt as [H | H]; rewrite H; reflexivity. }
    apply handler_returns_silently. unfold handleMessage.
    destruct (fromSelf s msg); [reflexivity |]. rewrite bind_return_if_false.
    destruct (fromBot msg); [reflexivity |]. rewrite bind_return_if_false.
    destruct (beforeStartup s (eventTs js now msg)); [reflexivity |].
    rewrite bind_return_if_false. unfold processMessage. rewrite Hn. reflexivity.
  - intros att others H. unfold nothingToProcess. rewrite H. apply andb_false_r.
Qed.

(** What the handler does once the DM gate returned without a call. *)
Lemma dm_gate_closed (s : Session W) (now : Z) (msg : Message) (w : W) :
  isDm msg = true ->
  dmPolicyEnforcement rest s msg w = mkOut Return w [] ->
  onMessageCreate js rest s now msg w = mkOut (Normal tt) w [].
Proof.
  intros Hdm Hgate. apply handler_returns_silently. unfold handleMessage.
  destruct (fromSelf s msg); [reflexivity |]. rewrite bind_return_if_false.
  destruct (fromBot msg); [reflexivity |]. rewrite bind_return_if_false.
  destruct (beforeStartup s (eventTs js now msg)); [reflexivity |].
  rewrite bind_return_if_false. unfold processMessage.
  destruct (nothingToProcess msg); [reflexivity |].
  rewrite bind_return_if_false, Hdm. cbv iota.
  rewrite bind_Return by (rewrite Hgate; reflexivity).
  rewrite Hgate. reflexivity.
Qed.

(** X3. Silent denial of direct messages.  Under the [disabled] DM
    policy every direct message is dropped without any call, whoever
    sends it and whatever the allowlist holds.  Under a policy value
    that is none of [open], [disabled] and [pairing] (as [allowlist]) a
    sender outside the allowlist is dropped in the same way: no pairing
    request, no reply, no log. *)
Theorem X3_direct_message_denied_silently :
  forall (s : Session W) (now : Z) (msg : Message) (w : W),
    isDm msg = true ->
    dmPolicy (cfg s) = "disabled" \/
    (dmPolicy (cfg s) <> "open" /\ dmPolicy (cfg s) <> "pairing" /\
     isAllowed (effectiveAllowFrom s) (senderId msg) = false) ->
    onMessageCreate js rest s now msg w = mkOut (Normal tt) w [].
Proof.
  intros s now msg w Hdm Hpol. apply dm_gate_closed; [exact Hdm |].
  unfold dmPolicyEnforcement. destruct Hpol as [H | [Ho [Hp Ha]]].
  - rewrite H. reflexivity.
  - destruct (dmPolicy (cfg s) =? "disabled"); [reflexivity |].
    apply String.eqb_neq in Ho, Hp. rewrite Ho, Hp, Ha. reflexivity.
Qed.

(** X4. The wildcard entry and the [open] policy.  With the entry [*]
    in the session's allowlist, or under the [open] DM policy, every
    sender passes the DM gate of a policy other than [disabled], and
    the gate makes no call: under the [pairing] policy in particular no
    pairing request is made. *)
Theorem X4_wildcard_or_open_policy_passes_everyone :
  forall (s : Session W) (msg : Message) (w : W),
    dmPolicy (cfg s) <> "disabled" ->
    In "*" (effectiveAllowFrom s) \/ dmPolicy (cfg s) = "open" ->
    dmPolicyEnforcement rest s msg w = mkOut (Normal tt) w [].
Proof.
  intros s msg w Hnot Hpass. unfold dmPolicyEnforcement.
  apply String.eqb_neq in Hnot. rewrite Hnot.
  destruct Hpass as [Hstar | Hopen].
  - assert (Ha : isAllowed (effectiveAllowFrom s) (senderId msg) = true)
      by (apply isAllowed_iff; right; exact Hstar).
    rewrite Ha, andb_false_r. reflexivity.
  - rewrite Hopen. reflexivity.
Qed.

(** X5. Under the [disabled] group policy a message of a guild channel
    is dropped without any call: the configured mention patterns are
    not consulted, and a mention of the adapter changes nothing. *)
Theorem X5_group_policy_disabled_drops_everything :
  forall (s : Session W) (now : Z) (msg : Message) (w : W),
    isDm msg = false ->
    groupPolicy (fluxerConfig (cfg s)) = Some "disabled" ->
    onMessageCreate js rest s now msg w = mkOut (Normal tt) w [].
Proof.
  intros s now msg w Hgroup Hpol. apply handler_returns_silently. unfold handleMessage.
  destruct (fromSelf s msg); [reflexivity |]. rewrite bind_return_if_false.
  destruct (fromBot msg); [reflexivity |]. rewrite bind_return_if_false.
  destruct (beforeStartup s (eventTs js now msg)); [reflexivity |].
  rewrite bind_return_if_false. unfold processMessage.
  destruct (nothingToProcess msg); [reflexivity |].
  rewrite bind_return_if_false, Hgroup. cbv iota. rewrite bind_ret.
  change (negb false) with true. cbv iota.
  unfold groupMentionCheck. rewrite Hpol. reflexivity.
Qed.

Lemma emits_bind_post {A B : Type} (P : Event -> Prop) (Q : A -> Prop)
  (m : M W A) (k : A -> M W B) :
  emits P m ->
  (forall w a, completion (m w) = Normal a -> Q a) ->
  (forall a, Q a -> emits P (k a)) ->
  emits P (bind m k).
Proof.
  intros Hm Hq Hk w. unfold bind.
  destruct (completion (m w)) as [a | | e] eqn:E; cbn [trace]; try apply Hm.
  apply Forall_app. split; [apply Hm | apply Hk, (Hq w), E].
Qed.

Lemma routing_fallback (s : Session W) (msg : Message) (w : W) (p : string * option AgentRoute) :
  routeUnavailable s ->
  completion (resolveSessionRouting s msg w) = Normal p ->
  p = (fallbackSessionKey msg, None).
Proof.
  unfold routeUnavailable, resolveSessionRouting, try_catch, bind, call, ret.
  destruct (resolveAgentRoute (core s)) as [resolve |]; cbn [completion world trace].
  - intros Hthrows.
    set (req := {| rr_cfg := cfg s; rr_channel := "fluxer"; rr_accountId := accountId s;
                   rr_peer_kind := if isDm msg then "direct" else "channel";
                   rr_peer_id := if isDm msg then senderId msg else channelId msg |}).
    destruct (Hthrows req w) as [e He].
    destruct (resolve req w) as [[route | e'] w1]; simpl in He; [discriminate |].
    cbn [completion world trace]. intros H. injection H as <-. reflexivity.
  - intros _ H. injection H as <-. reflexivity.
Qed.

Ltac keyed_steps :=
  repeat
    match goal with
    | |- emits _ (ret _) => apply emits_ret
    | |- emits _ js_return => apply emits_js_return
    | |- emits _ (throw _) => apply emits_throw
    | |- emits _ (return_if _) => unfold return_if
    | |- emits _ (log_info _) => apply emits_emit; exact I
    | |- emits _ (log_warn _) => apply emits_emit; exact I
    | |- emits _ (runtime_error _) => apply emits_emit; exact I
    | |- emits _ stopTyping => apply emits_emit; exact I
    | |- emits _ (unbound_call _) => apply emits_throw
    | |- emits _ (emit _) => apply emits_emit; exact I
    | |- emits _ (sendMessage _ _ _ _) => apply emits_call; exact I
    | |- emits _ (call _ _) => apply emits_call; first [exact I | reflexivity]
    | |- emits _ (sendTyping _ _) => apply emits_sendTyping; exact I
    | |- emits _ (startTyping _ _) => unfold startTyping
    | |- emits _ (dispatch _ _ _ _ _ _) =>
        apply emits_dispatch;
        [ split; reflexivity | intros; exact I | intros; exact I ]
    | |- emits _ (bind _ _) => apply emits_bind; [| intros]
    | |- emits _ (try_catch _ _) => apply emits_try_catch; [| intros]
    | |- emits _ (try_finally _ _) => apply emits_try_finally
    | |- emits _ (function_body _) => apply emits_function_body
    | |- emits _ (match ?x with _ => _ end) => destruct x
    | |- emits _ (if ?x then _ else _) => destruct x
    end.

(** X6. The fallback session key.  When no route can be had, each
    envelope that the handler hands to a dispatcher carries the session
    key [agent:main:main] for a direct message and
    [agent:main:fluxer:channel:<channel id>] for a group message,
    together with the account id of the session, and each system event
    is filed under that same key. *)
Theorem X6_fallback_session_key_everywhere :
  forall (s : Session W) (now : Z) (msg : Message) (w : W),
    routeUnavailable s ->
    Forall
      (keyed (if isDm msg then "agent:main:main"
              else "agent:main:fluxer:channel:" ++ channel_id msg)
             (accountId s))
      (trace (onMessageCreate js rest s now msg w)).
Proof.
  intros s now msg w Hroute. revert w.
  change (emits (keyed (fallbackSessionKey msg) (accountId s))
                (onMessageCreate js rest s now msg)).
  unfold onMessageCreate, handlerCatch, handleMessage, processMessage, afterGates,
    dmPolicyEnforcement, pairingChallenge, groupMentionCheck, hasConfigMention,
    downloadFirstAttachment.
  apply emits_function_body. apply emits_try_catch; [| intros; keyed_steps].
  do 7 (apply emits_bind; [solve [keyed_steps] | intros]).
  unfold deliverReply.
  apply (emits_bind_post _ (fun p => p = (fallbackSessionKey msg, None))).
  - unfold resolveSessionRouting. keyed_steps.
  - intros w p. apply routing_fallback. exact Hroute.
  - intros p ->. cbv beta iota.
    unfold envelopeOptions, formattedBody, stagedDispatch, blockDispatch, blockAttempt,
      messageDispatch, messageAttempt, systemEventInjection.
    keyed_steps.
Qed.


End GatewayFilters.

Section GatewayTyping.

Variable W : Type.
Variable js : JsBuiltins.
Variable rest : Rest W.

Local Open Scope js_scope.

(** ** Counting stops of the typing indicator along the dispatch chain *)

Lemma runDispatch_not_Return (dlv : ReplyPayload -> M W unit)
  (onErr : Exn -> string -> M W unit) (run : DispatchRun W) (w : W) :
  completion (runDispatch dlv onErr run w) <> Return.
Proof.
  revert w. induction run as [r w' | p k IH | e kind k IH]; intros w; simpl.
  - destruct r; discriminate.
  - apply IH.
  - apply IH.
Qed.

Lemma dispatch_not_Return (e : Event) (d : Dispatcher W) (s : Session W)
  (msg : Message) (ctx : CtxPayload) (w : W) :
  completion (dispatch rest e d s msg ctx w) <> Return.
Proof. unfold dispatch. cbn [completion]. apply runDispatch_not_Return. Qed.

Lemma dispatch_no_stop (e : Event) (d : Dispatcher W) (s : Session W)
  (msg : Message) (ctx : CtxPayload) (w : W) :
  is_stopTyping e = false ->
  count is_stopTyping (trace (dispatch rest e d s msg ctx w)) = 0%nat.
Proof.
  intros He. apply avoids_count. apply emits_dispatch; [exact He | reflexivity | reflexivity].
Qed.

Lemma count_cons (p : Event -> bool) (e : Event) (t : Trace) :
  count p (e :: t) = ((if p e then 1 else 0) + count p t)%nat.
Proof. unfold count. simpl. destruct (p e); reflexivity. Qed.

Lemma count_nil (p : Event -> bool) : count p [] = 0%nat.
Proof. reflexivity. Qed.

(** The block attempt: a return comes with one stop; a throw comes with
    none when it happens in the dispatcher, and with one when the
    system event of a group message throws after the stop. *)
Lemma blockAttempt_stops (d : Dispatcher W) (s : Session W) (msg : Message)
  (ctx : CtxPayload) (key : string) (w : W) :
  let o := blockAttempt js rest d s msg ctx key w in
  match completion o with
  | Return => count is_stopTyping (trace o) = 1%nat
  | Throw _ =>
      (count is_stopTyping (trace o) <= 1)%nat /\
      (isDm msg = true \/ enqueueSystemEvent (core s) = None ->
       count is_stopTyping (trace o) = 0%nat)
  | Normal _ => False
  end.
Proof.
  intros o. unfold o, blockAttempt.
  pose proof (dispatch_no_stop (EvDispatchBlock ctx) d s msg ctx w eq_refl) as Hz.
  pose proof (dispatch_not_Return (EvDispatchBlock ctx) d s msg ctx w) as Hr.
  destruct (completion (dispatch rest (EvDispatchBlock ctx) d s msg ctx w))
    as [[] | | e] eqn:Ed; [| contradiction |].
  - rewrite (bind_Normal W _ _ w tt Ed). cbn [completion world trace].
    unfold stopTyping, log_info, emit, bind, call.
    destruct (isDm msg); cbn [negb].
    + cbn [ret js_return completion world trace].
      rewrite !count_app, Hz, !count_cons, !count_nil. reflexivity.
    + destruct (enqueueSystemEvent (core s)) as [enqueue |].
      * set (body := systemEventText js s msg 160).
        destruct (enqueue body key _) as [[[] | e] w1];
          cbn [completion world trace js_return];
          rewrite !count_app, Hz, !count_cons, !count_nil; cbn [is_stopTyping].
        -- reflexivity.
        -- split; [lia |]. intros [H | H]; discriminate.
      * cbn [ret js_return completion world trace].
        rewrite !count_app, Hz, !count_cons, !count_nil. reflexivity.
  - rewrite (bind_Throw W _ _ w e Ed). cbn [completion world trace].
    rewrite Hz. split; [lia | reflexivity].
Qed.

Lemma messageAttempt_stops (d : Dispatcher W) (s : Session W) (msg : Message)
  (ctx : CtxPayload) (w : W) :
  let o := messageAttempt rest d s msg ctx w in
  match completion o with
  | Return => count is_stopTyping (trace o) = 1%nat
  | Throw _ => count is_stopTyping (trace o) = 0%nat
  | Normal _ => False
  end.
Proof.
  intros o. unfold o, messageAttempt.
  pose proof (dispatch_no_stop (EvDispatchMessage ctx) d s msg ctx w eq_refl) as Hz.
  pose proof (dispatch_not_Return (EvDispatchMessage ctx) d s msg ctx w) as Hr.
  destruct (completion (dispatch rest (EvDispatchMessage ctx) d s msg ctx w))
    as [[] | | e] eqn:Ed; [| contradiction |].
  - rewrite (bind_Normal W _ _ w tt Ed). cbn [completion world trace].
    unfold stopTyping, log_info, emit, bind.
    cbn [completion world trace js_return].
    rewrite !count_app, Hz, !count_cons, !count_nil. reflexivity.
  - rewrite (bind_Throw W _ _ w e Ed). cbn [completion world trace]. exact Hz.
Qed.

Lemma blockDispatch_stops (s : Session W) (msg : Message) (ctx : CtxPayload)
  (key : string) (w : W) :
  let o := blockDispatch js rest s msg ctx key w in
  (completion o = Return /\ count is_stopTyping (trace o) = 1%nat) \/
  (completion o = Normal tt /\
   (count is_stopTyping (trace o) <= 1)%nat /\
   (isDm msg = true \/ enqueueSystemEvent (core s) = None ->
    count is_stopTyping (trace o) = 0%nat)).
Proof.
  intros o. unfold o, blockDispatch, try_catch.
  destruct (dispatchReplyWithBufferedBlockDispatcher (core s)) as [d |].
  - pose proof (blockAttempt_stops d s msg ctx key w) as H. cbv zeta in H.
    destruct (completion (blockAttempt js rest d s msg ctx key w)) as [u | | e] eqn:E.
    + contradiction.
    + left. split; [exact E | exact H].
    + right. unfold log_warn, emit. cbn [completion world trace].
      rewrite count_app, count_cons, count_nil. cbn [is_stopTyping].
      rewrite !Nat.add_0_r. split; [reflexivity | exact H].
  - right. cbn [ret completion world trace]. rewrite count_nil.
    split; [reflexivity |]. split; [lia | reflexivity].
Qed.

Lemma messageDispatch_stops (s : Session W) (msg : Message) (ctx : CtxPayload) (w : W) :
  let o := messageDispatch rest s msg ctx w in
  (completion o = Return /\ count is_stopTyping (trace o) = 1%nat) \/
  (completion o = Normal tt /\ count is_stopTyping (trace o) = 0%nat).
Proof.
  intros o. unfold o, messageDispatch, try_catch.
  destruct (dispatchInboundMessageWithBufferedDispatcher (core s)) as [d |].
  - pose proof (messageAttempt_stops d s msg ctx w) as H. cbv zeta in H.
    destruct (completion (messageAttempt rest d s msg ctx w)) as [u | | e] eqn:E.
    + contradiction.
    + left. split; [exact E | exact H].
    + right. unfold log_warn, emit. cbn [completion world trace].
      rewrite count_app, count_cons, count_nil. cbn [is_stopTyping].
      rewrite !Nat.add_0_r. split; [reflexivity | exact H].
  - right. cbn [ret completion world trace]. rewrite count_nil. split; reflexivity.
Qed.

Lemma systemEventInjection_stops (s : Session W) (msg : Message) (key : string) (w : W) :
  let o := systemEventInjection js s msg key w in
  completion o = Normal tt /\ count is_stopTyping (trace o) = 1%nat.
Proof.
  intros o. unfold o, systemEventInjection.
  destruct (enqueueSystemEvent (core s)) as [enqueue |].
  - unfold try_finally, try_catch, bind, call.
    set (body := systemEventText js s msg 500).
    destruct (enqueue body key w) as [[[] | e] w1]; split; reflexivity.
  - split; reflexivity.
Qed.

(** X7. Along the dispatch chain the typing indicator is stopped at
    least once and at most twice.  It is stopped exactly once for every
    direct message and whenever the host has no system event sink; the
    second stop can only follow a block dispatch to a group whose
    system event threw. *)
Theorem X7_dispatch_chain_stops_typing :
  forall (s : Session W) (msg : Message) (ctx : CtxPayload) (key : string) (w : W),
    let n := count is_stopTyping (trace (stagedDispatch js rest s msg ctx key w)) in
    (1 <= n <= 2)%nat /\
    (isDm msg = true \/ enqueueSystemEvent (core s) = None -> n = 1%nat).
Proof.
  intros s msg ctx key w n. unfold n, stagedDispatch.
  destruct (blockDispatch_stops s msg ctx key w) as [[Ha Hca] | [Ha [Hca Hca0]]].
  - rewrite (bind_Return W _ _ w Ha). cbn [trace]. rewrite Hca. split; [lia | reflexivity].
  - rewrite (bind_Normal W _ _ w tt Ha). cbn [trace]. rewrite count_app.
    set (w1 := world (blockDispatch js rest s msg ctx key w)).
    assert (Hrest : count is_stopTyping
                      (trace (bind (messageDispatch rest s msg ctx)
                                (fun _ => systemEventInjection js s msg key) w1)) = 1%nat).
    { destruct (messageDispatch_stops s msg ctx w1) as [[Hb Hcb] | [Hb Hcb]].
      - rewrite (bind_Return W _ _ w1 Hb). exact Hcb.
      - rewrite (bind_Normal W _ _ w1 tt Hb). cbn [trace]. rewrite count_app, Hcb.
        apply (systemEventInjection_stops s msg key). }
    rewrite Hrest. split; [lia |]. intros H. rewrite (Hca0 H). reflexivity.
Qed.

(** ** Rejections of the handler *)

Lemma nothrow_ret {A : Type} (a : A) : nothrow (ret (W:=W) a).
Proof. intros w e. discriminate. Qed.

Lemma nothrow_js_return {A : Type} : nothrow (js_return (W:=W) (A:=A)).
Proof. intros w e. discriminate. Qed.

Lemma nothrow_emit (e : Event) : nothrow (emit (W:=W) e).
Proof. intros w e'. discriminate. Qed.

Lemma nothrow_bind {A B : Type} (m : M W A) (k : A -> M W B) :
  nothrow m -> (forall a, nothrow (k a)) -> nothrow (bind m k).
Proof.
  intros Hm Hk w e. unfold bind.
  destruct (completion (m w)) as [a | | e'] eqn:E; cbn [completion].
  - apply Hk.
  - discriminate.
  - exfalso. exact (Hm w e' E).
Qed.

Lemma nothrow_try_catch {A : Type} (body : M W A) (h : Exn -> M W A) :
  (forall e, nothrow (h e)) -> nothrow (try_catch body h).
Proof.
  intros Hh w e. unfold try_catch.
  destruct (completion (body w)) as [a | | e'] eqn:E; cbn [completion].
  - rewrite E. discriminate.
  - rewrite E. discriminate.
  - apply Hh.
Qed.

Lemma nothrow_sendTyping (msg : Message) : nothrow (sendTyping rest msg).
Proof. intros w e. discriminate. Qed.

Ltac nothrow_steps :=
  repeat
    match goal with
    | |- nothrow (ret _) => apply nothrow_ret
    | |- nothrow js_return => apply nothrow_js_return
    | |- nothrow (return_if _) => unfold return_if
    | |- nothrow (log_info _) => apply nothrow_emit
    | |- nothrow (log_warn _) => apply nothrow_emit
    | |- nothrow (emit _) => apply nothrow_emit
    | |- nothrow (sendTyping _ _) => apply nothrow_sendTyping
    | |- nothrow (startTyping _ _) => unfold startTyping
    | |- nothrow (bind _ _) => apply nothrow_bind; [| intros]
    | |- nothrow (try_catch _ _) => apply nothrow_try_catch; intros
    | |- nothrow (match ?x with _ => _ end) => destruct x
    | |- nothrow (if ?x then _ else _) => destruct x
    end.

Ltac typing_steps :=
  repeat
    match goal with
    | |- avoids _ _ => unfold avoids
    | |- emits _ (ret _) => apply emits_ret
    | |- emits _ js_return => apply emits_js_return
    | |- emits _ (throw _) => apply emits_throw
    | |- emits _ (return_if _) => unfold return_if
    | |- emits _ (log_info _) => apply emits_emit; reflexivity
    | |- emits _ (log_warn _) => apply emits_emit; reflexivity
    | |- emits _ (sendMessage _ _ _ _) => apply emits_call; reflexivity
    | |- emits _ (call _ _) => apply emits_call; reflexivity
    | |- emits _ (bind _ _) => apply emits_bind; [| intros]
    | |- emits _ (try_catch _ _) => apply emits_try_catch; [| intros]
    | |- emits _ (match ?x with _ => _ end) => destruct x
    | |- emits _ (if ?x then _ else _) => destruct x
    end.

Lemma quiet_return_if (c : bool) : quiet (return_if (W:=W) c).
Proof. repeat split; [nothrow_steps | typing_steps | typing_steps]. Qed.

Lemma quiet_dmPolicyEnforcement (s : Session W) (msg : Message) :
  quiet (dmPolicyEnforcement rest s msg).
Proof.
  unfold quiet, dmPolicyEnforcement, pairingChallenge.
  repeat split; [nothrow_steps | typing_steps | typing_steps].
Qed.

Lemma quiet_groupMentionCheck (s : Session W) (msg : Message) :
  quiet (groupMentionCheck js s msg).
Proof.
  unfold quiet, groupMentionCheck, hasConfigMention.
  repeat split; [nothrow_steps | typing_steps | typing_steps].
Qed.

Lemma quiet_downloadFirstAttachment (s : Session W) (msg : Message) :
  quiet (downloadFirstAttachment s msg).
Proof.
  unfold quiet, downloadFirstAttachment.
  repeat split; [nothrow_steps | typing_steps | typing_steps].
Qed.

Lemma quiet_resolveSessionRouting (s : Session W) (msg : Message) :
  quiet (resolveSessionRouting s msg).
Proof.
  unfold quiet, resolveSessionRouting.
  repeat split; [nothrow_steps | typing_steps | typing_steps].
Qed.

Lemma quiet_if {A : Type} (c : bool) (m m' : M W A) :
  quiet m -> quiet m' -> quiet (if c then m else m').
Proof. destruct c; auto. Qed.

Lemma quiet_ret {A : Type} (a : A) : quiet (ret (W:=W) a).
Proof. repeat split; [nothrow_steps | typing_steps | typing_steps]. Qed.

Lemma nothrow_stagedDispatch (s : Session W) (msg : Message) (ctx : CtxPayload)
  (key : string) :
  nothrow (stagedDispatch js rest s msg ctx key).
Proof.
  intros w e. unfold stagedDispatch.
  destruct (blockDispatch_stops s msg ctx key w) as [[Ha _] | [Ha _]].
  - rewrite (bind_Return W _ _ w Ha). discriminate.
  - rewrite (bind_Normal W _ _ w tt Ha). cbn [completion].
    set (w1 := world (blockDispatch js rest s msg ctx key w)).
    destruct (messageDispatch_stops s msg ctx w1) as [[Hb _] | [Hb _]].
    + rewrite (bind_Return W _ _ w1 Hb). discriminate.
    + rewrite (bind_Normal W _ _ w1 tt Hb). cbn [completion].
      rewrite (proj1 (systemEventInjection_stops s msg key _)). discriminate.
Qed.

Lemma throws_clean_nothrow {A : Type} (m : M W A) : nothrow m -> throws_clean m.
Proof. intros H w e E. exfalso. exact (H w e E). Qed.

Lemma throws_clean_bind {A B : Type} (m : M W A) (k : A -> M W B) :
  avoids is_typingStart m -> avoids is_stopTyping m ->
  (forall a, throws_clean (k a)) ->
  throws_clean (bind m k).
Proof.
  intros Hs Hp Hk w e. unfold bind.
  pose proof (avoids_count W is_typingStart m w Hs) as Cs.
  pose proof (avoids_count W is_stopTyping m w Hp) as Cp.
  destruct (completion (m w)) as [a | | e'] eqn:E; cbn [completion world trace].
  - intros Hthrow. destruct (Hk a _ e Hthrow) as [Ks Kp].
    rewrite !count_app, Cs, Cp, Ks, Kp. split; reflexivity.
  - discriminate.
  - intros _. split; assumption.
Qed.

(** When a step after a quiet one throws, the counts are those of the
    later step. *)
Lemma throw_counts_after_quiet {A B : Type} (n : nat) (m : M W A) (k : A -> M W B) :
  quiet m ->
  (forall a w e, completion (k a w) = Throw e ->
     count is_typingStart (trace (k a w)) = n /\
     count is_stopTyping (trace (k a w)) = 0%nat) ->
  forall w e, completion (bind m k w) = Throw e ->
    count is_typingStart (trace (bind m k w)) = n /\
    count is_stopTyping (trace (bind m k w)) = 0%nat.
Proof.
  intros [Hn [Hs Hp]] Hk w e. unfold bind.
  pose proof (avoids_count W is_typingStart m w Hs) as Cs.
  pose proof (avoids_count W is_stopTyping m w Hp) as Cp.
  destruct (completion (m w)) as [a | | e'] eqn:E; cbn [completion world trace].
  - intros Hthrow. destruct (Hk a _ e Hthrow) as [Ks Kp].
    rewrite !count_app, Cs, Cp, Ks, Kp. split; reflexivity.
  - discriminate.
  - exfalso. exact (Hn w e' E).
Qed.

Lemma deliverReply_throw (s : Session W) (ts : Js.number) (msg : Message)
  (mediaPath : option string) (w : W) (e : Exn) :
  completion (deliverReply js rest s ts msg mediaPath w) = Throw e ->
  count is_typingStart (trace (deliverReply js rest s ts msg mediaPath w)) = 1%nat /\
  count is_stopTyping (trace (deliverReply js rest s ts msg mediaPath w)) = 0%nat.
Proof.
  unfold deliverReply. revert w e.
  apply throw_counts_after_quiet; [apply quiet_resolveSessionRouting |].
  intros [key route] w e. cbv beta iota.
  assert (Hstart : startTyping rest msg w =
                   mkOut (Normal tt) (snd (rest_triggerTyping rest (channelId msg) w))
                         [EvTriggerTyping (channelId msg); EvSetInterval 5000])
    by reflexivity.
  rewrite (bind_Normal W _ _ w tt) by (rewrite Hstart; reflexivity).
  rewrite Hstart. cbn [completion world trace]. intros Hthrow.
  assert (Hrest : throws_clean
                    (bind (envelopeOptions s) (fun envelope =>
                     bind (formattedBody js s ts msg envelope) (fun body =>
                     stagedDispatch js rest s msg
                       (ctxPayload js s ts msg mediaPath key route body) key)))).
  { apply throws_clean_bind.
    - unfold envelopeOptions. typing_steps.
    - unfold envelopeOptions. typing_steps.
    - intros envelope. apply throws_clean_bind.
      + unfold formattedBody. typing_steps.
      + unfold formattedBody. typing_steps.
      + intros body. apply throws_clean_nothrow. apply nothrow_stagedDispatch. }
  destruct (Hrest _ e Hthrow) as [Hs Hp].
  change ([EvTriggerTyping (channelId msg); EvSetInterval 5000] ++ ?t)%list
    with (EvTriggerTyping (channelId msg) :: EvSetInterval 5000 :: t).
  rewrite !count_cons. cbn [is_typingStart is_stopTyping]. rewrite Hs, Hp.
  split; reflexivity.
Qed.

Lemma handleMessage_throw (s : Session W) (now : Z) (msg : Message) (w : W) (e : Exn) :
  completion (handleMessage js rest s now msg w) = Throw e ->
  count is_typingStart (trace (handleMessage js rest s now msg w)) = 1%nat /\
  count is_stopTyping (trace (handleMessage js rest s now msg w)) = 0%nat.
Proof.
  unfold handleMessage, processMessage, afterGates. revert w e.
  do 4 (apply throw_counts_after_quiet; [apply quiet_return_if | intros _]).
  apply throw_counts_after_quiet;
    [apply quiet_if; [apply quiet_dmPolicyEnforcement | apply quiet_ret] | intros _].
  apply throw_counts_after_quiet;
    [apply quiet_if; [apply quiet_groupMentionCheck | apply quiet_ret] | intros _].
  apply throw_counts_after_quiet; [apply quiet_downloadFirstAttachment | intros mediaPath].
  intros w e. apply deliverReply_throw.
Qed.

Lemma nothrow_deliverReply (s : Session W) (ts : Js.number) (msg : Message)
  (mediaPath : option string) :
  resolveEnvelopeFormatOptions (core s) = None ->
  formatAgentEnvelope (core s) = None ->
  nothrow (deliverReply js rest s ts msg mediaPath).
Proof.
  intros He Hf. unfold deliverReply.
  apply nothrow_bind; [apply quiet_resolveSessionRouting |].
  intros [key route]. cbv beta iota.
  apply nothrow_bind; [nothrow_steps |]. intros _.
  unfold envelopeOptions, formattedBody. rewrite He, Hf.
  apply nothrow_bind; [apply nothrow_ret |]. intros envelope.
  apply nothrow_bind; [apply nothrow_ret |]. intros body.
  apply nothrow_stagedDispatch.
Qed.

(** X8. How the handler ends.  It either returns normally or rejects
    with the reference error of its catch block, whatever was thrown
    inside; when it rejects, the typing indicator has been started and
    has not been stopped.  On a host without
    [resolveEnvelopeFormatOptions] and [formatAgentEnvelope] it always
    returns normally. *)
Theorem X8_handler_rejects_only_with_typing_left_on :
  forall (s : Session W) (now : Z) (msg : Message) (w : W),
    let o := onMessageCreate js rest s now msg w in
    (completion o = Normal tt \/
     completion o = Throw (ReferenceError "stopTyping") /\
     count is_typingStart (trace o) = 1%nat /\
     count is_stopTyping (trace o) = 0%nat) /\
    (resolveEnvelopeFormatOptions (core s) = None ->
     formatAgentEnvelope (core s) = None ->
     completion o = Normal tt).
Proof.
  intros s now msg w o.
  assert (Hcases : forall c, completion (handleMessage js rest s now msg w) = c ->
            match c with
            | Throw e => completion o = Throw (ReferenceError "stopTyping") /\
                         trace o = trace (handleMessage js rest s now msg w)
            | _ => completion o = Normal tt
            end).
  { intros c Hc. destruct c as [[] | | e].
    - unfold o, onMessageCreate, function_body, try_catch. rewrite Hc. cbn [completion].
      rewrite Hc. reflexivity.
    - unfold o. rewrite (onMessageCreate_Return W js rest s now msg w Hc). reflexivity.
    - unfold o. rewrite (onMessageCreate_Throw W js rest s now msg w e Hc).
      split; reflexivity. }
  split.
  - destruct (completion (handleMessage js rest s now msg w)) as [[] | | e] eqn:E.
    + left. exact (Hcases _ eq_refl).
    + left. exact (Hcases _ eq_refl).
    + right. destruct (Hcases _ eq_refl) as [Hc Ht]. rewrite Ht.
      split; [exact Hc |]. exact (handleMessage_throw s now msg w e E).
  - intros He Hf.
    assert (Hn : nothrow (handleMessage js rest s now msg)).
    { unfold handleMessage, processMessage, afterGates.
      do 4 (apply nothrow_bind; [apply quiet_return_if | intros _]).
      apply nothrow_bind;
        [apply quiet_if; [apply quiet_dmPolicyEnforcement | apply quiet_ret] | intros _].
      apply nothrow_bind;
        [apply quiet_if; [apply quiet_groupMentionCheck | apply quiet_ret] | intros _].
      apply nothrow_bind; [apply quiet_downloadFirstAttachment | intros mediaPath].
      apply nothrow_deliverReply; assumption. }
    destruct (completion (handleMessage js rest s now msg w)) as [[] | | e] eqn:E.
    + exact (Hcases _ eq_refl).
    + exact (Hcases _ eq_refl).
    + exfalso. exact (Hn w e E).
Qed.

End GatewayTyping.

(* ------------------------------------------------------------------ *)
(** * Properties of the REST helpers *)

Section RestProperties.

Import RestApi.

Variable W : Type.
Variable net : Net W.

Lemma substring_all (s : string) : substring 0 (String.length s) s = s.
Proof. induction s as [| c s IH]; simpl; [reflexivity | rewrite IH; reflexivity]. Qed.

Lemma user_target (uid : string) :
  prefix "user:" ("user:" ++ uid) = true /\
  substring 5 (String.length ("user:" ++ uid) - 5) ("user:" ++ uid) = uid.
Proof.
  split; [destruct uid; reflexivity |].
  simpl. rewrite Nat.sub_0_r. apply substring_all.
Qed.

(** X9. Before [initRest] no helper reaches the network: [sendMessage]
    and [triggerTyping] throw the not-initialized error without any
    call, and [fetchChannel] answers [null] without any call. *)
Theorem X9_no_request_without_client :
  forall (target body channel : string) (opts : option SendOpts) (w : W),
    sendMessage net None target body opts w =
      (Throws (Thrown "Error: Fluxer REST client not initialized"), w, []) /\
    triggerTyping net None channel w =
      (Throws (Thrown "Error: Fluxer REST client not initialized"), w, []) /\
    fetchChannel net None channel w = (Returns None, w, []).
Proof. intros. repeat split. Qed.

(** X10. A send without media to a channel id makes exactly one call:
    a POST to [/channels/<target>/messages] through the client set by
    [initRest], without files.  Its body has [content] exactly when the
    text is not empty and [message_reference] exactly when a non-empty
    [replyTo] was given.  What the POST throws, [sendMessage] throws;
    what it answers gives the ids of the result. *)
Theorem X10_text_send_is_one_post :
  forall (token target body : string) (opts : option SendOpts) (w : W),
    prefix "user:" target = false ->
    (forall o, opts = Some o -> Js.truthy_opt (send_mediaUrl o) = false) ->
    let route := "/channels/" ++ target ++ "/messages" in
    let json := messageBody body opts in
    let o := sendMessage net (initRest token) target body opts w in
    calls o = [Post token route (JMessage json) []] /\
    (body_content json = None <-> body = "") /\
    (body_message_reference json = None <->
     forall r, opts = Some r -> replyTo r = None \/ replyTo r = Some "") /\
    result o =
      match fst (rest_post net token route (JMessage json) [] w) with
      | Returns answer => Returns (sentOf answer)
      | Throws e => Throws e
      end.
Proof.
  intros token target body opts w Hchan Hnomedia route json o.
  assert (Hmedia : match opts with
                   | Some r => if Js.truthy_opt (send_mediaUrl r) then send_mediaUrl r else None
                   | None => None
                   end = None).
  { destruct opts as [r |]; [| reflexivity]. rewrite (Hnomedia r eq_refl). reflexivity. }
  assert (Ho : o = match rest_post net token route (JMessage json) [] w with
                   | (Returns answer, w1) =>
                       (Returns (sentOf answer), w1, [Post token route (JMessage json) []])
                   | (Throws e, w1) => (Throws e, w1, [Post token route (JMessage json) []])
                   end).
  { unfold o, sendMessage, initRest, getRest, andThen, pure, request.
    rewrite Hchan, Hmedia. change (messagesRoute (Some target)) with route. fold json.
    destruct (rest_post net token route (JMessage json) [] w) as [[answer | e] w1];
      reflexivity. }
  split; [| split; [| split]].
  - rewrite Ho. destruct (rest_post net token route (JMessage json) [] w) as [[? | ?] ?];
      reflexivity.
  - unfold json, messageBody. cbn [body_content].
    destruct body; simpl; split; intros H; try reflexivity; discriminate.
  - unfold json, messageBody. cbn [body_message_reference].
    destruct opts as [[[[| c t] |] media] |]; cbn [replyTo Js.truthy_opt Js.truthy].
    + split; [| reflexivity]. intros _ r Hr. injection Hr as <-. auto.
    + split; [discriminate |]. intros H.
      destruct (H _ eq_refl) as [H' | H']; discriminate.
    + split; [| reflexivity]. intros _ r Hr. injection Hr as <-. auto.
    + split; [intros _ r Hr; discriminate | reflexivity].
  - rewrite Ho. destruct (rest_post net token route (JMessage json) [] w) as [[? | ?] ?];
      reflexivity.
Qed.

Lemma sendMessage_to_user :
  forall (token uid body : string) (opts : option SendOpts) (w : W),
    (forall o, opts = Some o -> Js.truthy_opt (send_mediaUrl o) = false) ->
    let opening := Post token "/users/@me/channels" (JRecipient uid) [] in
    let json := JMessage (messageBody body opts) in
    let o := sendMessage net (initRest token) ("user:" ++ uid) body opts w in
    match rest_post net token "/users/@me/channels" (JRecipient uid) [] w with
    | (Returns (Some dm), w1) =>
        let route := "/channels/" ++ shown (created_id dm) ++ "/messages" in
        calls o = [opening; Post token route json []] /\
        result o =
          match fst (rest_post net token route json [] w1) with
          | Returns answer => Returns (sentOf answer)
          | Throws e => Throws e
          end
    | (Returns None, w1) =>
        calls o = [opening] /\ after o = w1 /\ exists e, result o = Throws e
    | (Throws e, w1) =>
        calls o = [opening] /\ after o = w1 /\ result o = Throws e
    end.
Proof.
  intros token uid body opts w Hnomedia opening json o.
  assert (Hmedia : match opts with
                   | Some r => if Js.truthy_opt (send_mediaUrl r) then send_mediaUrl r else None
                   | None => None
                   end = None).
  { destruct opts as [r |]; [| reflexivity]. rewrite (Hnomedia r eq_refl). reflexivity. }
  destruct (user_target uid) as [Hp Hs].
  unfold o, sendMessage, openDmChannel, initRest, getRest, andThen, pure, fail, request.
  rewrite Hp, Hs, Hmedia.
  destruct (rest_post net token "/users/@me/channels" (JRecipient uid) [] w)
    as [[[dm |] | e] w1].
  - unfold messagesRoute. fold json.
    destruct (rest_post net token ("/channels/" ++ shown (created_id dm) ++ "/messages")
                json [] w1) as [[answer | e] w2]; split; reflexivity.
  - repeat split. eexists. reflexivity.
  - repeat split.
Qed.

(** X11. A send to [user:<id>] first opens the DM channel: a POST to
    [/users/@me/channels] with that id as recipient.  When that call
    throws or answers nothing, [sendMessage] throws and no message is
    posted.  When it answers a channel, the message (here without
    media) is posted to [/channels/<its id>/messages]. *)
Theorem X11_user_target_opens_dm_channel_first :
  forall (token uid body : string) (opts : option SendOpts) (w : W),
    (forall o, opts = Some o -> Js.truthy_opt (send_mediaUrl o) = false) ->
    let opening := Post token "/users/@me/channels" (JRecipient uid) [] in
    let json := JMessage (messageBody body opts) in
    let o := sendMessage net (initRest token) ("user:" ++ uid) body opts w in
    match rest_post net token "/users/@me/channels" (JRecipient uid) [] w with
    | (Returns (Some dm), w1) =>
        let route := "/channels/" ++ shown (created_id dm) ++ "/messages" in
        calls o = [opening; Post token route json []] /\
        result o =
          match fst (rest_post net token route json [] w1) with
          | Returns answer => Returns (sentOf answer)
          | Throws e => Throws e
          end
    | (Returns None, w1) =>
        calls o = [opening] /\ after o = w1 /\ exists e, result o = Throws e
    | (Throws e, w1) =>
        calls o = [opening] /\ after o = w1 /\ result o = Throws e
    end.
Proof. exact sendMessage_to_user. Qed.


(** X13. The two read helpers never throw.  [probeBot] goes through a
    client of its own with the token it is given, arms a timer of
    [timeoutMs], 5000 by default, and answers [ok] with the bot exactly
    when the GET of [/users/@me] returns; only then is the timer
    cleared.  When the GET rejects, the answer carries the [message] of
    the rejection when that is an [Error], and its string form
    otherwise.  [fetchChannel] answers the channel when its GET returns
    and [null] whenever it throws. *)
Theorem X13_probe_and_fetchChannel_never_throw :
  forall (token channel : string) (timeoutMs : option Z) (client : Client) (w : W),
    let p := probeBot net token timeoutMs w in
    let f := fetchChannel net client channel w in
    (exists answer,
       result p = Returns answer /\
       calls p =
         (SetTimeout (Js.nullish timeoutMs 5000) :: Get token "/users/@me"
          :: if ok answer then [ClearTimeout] else [])%list /\
       match fst (rest_get_user net token "/users/@me" w) with
       | inl user =>
           ok answer = true /\ probe_bot answer = Some user /\ error answer = None
       | inr err =>
           ok answer = false /\ probe_bot answer = None /\
           error answer =
             Some match failure_message err with
                  | Some message => message
                  | None => failure_shown err
                  end
       end) /\
    (exists answer,
       result f = Returns answer /\
       forall t, client = Some t ->
         calls f = [Get t ("/channels/" ++ channel)] /\
         match fst (rest_get_channel net t ("/channels/" ++ channel) w) with
         | Returns ch => answer = Some ch
         | Throws _ => answer = None
         end).
Proof.
  intros token channel timeoutMs client w p f. split.
  - unfold p, probeBot, andThen, note, settled, pure.
    destruct (rest_get_user net token "/users/@me" w) as [[user | err] w1];
      eexists; repeat split.
  - unfold f, fetchChannel, orElse, andThen, getRest, request, pure, fail.
    destruct client as [t |].
    + destruct (rest_get_channel net t ("/channels/" ++ channel) w) as [[ch | e] w1] eqn:E;
        eexists; (split; [reflexivity |]); intros t' Ht; injection Ht as <-;
        rewrite E; split; reflexivity.
    + eexists. split; [reflexivity |]. intros t Ht. discriminate.
Qed.

End RestProperties.

(* ------------------------------------------------------------------ *)
(** * Properties of the channel plugin *)

Section TextProperties.

Import JsText.

(** ** Trimming and lower case *)

Lemma trimStart_headOk (s : string) : headOk (Js.trimStart s).
Proof.
  induction s as [| c r IH]; simpl; [exact I |].
  destruct (Js.isWhiteSpace c) eqn:E; [exact IH | exact E].
Qed.

Lemma trimStart_fixed (s : string) : headOk s -> Js.trimStart s = s.
Proof. destruct s as [| c r]; simpl; [reflexivity |]. intros ->. reflexivity. Qed.

Lemma trimEnd_idem (s : string) : Js.trimEnd (Js.trimEnd s) = Js.trimEnd s.
Proof.
  induction s as [| c r IH]; [reflexivity |]. simpl.
  destruct (Js.trimEnd r) as [| d t] eqn:E.
  - destruct (Js.isWhiteSpace c) eqn:Ws; simpl; [reflexivity |]. rewrite Ws. reflexivity.
  - change (Js.trimEnd (String c (String d t)))
      with (match Js.trimEnd (String d t) with
            | EmptyString => if Js.isWhiteSpace c then EmptyString else String c EmptyString
            | String a b => String c (String a b)
            end).
    rewrite IH. reflexivity.
Qed.

Lemma trimEnd_headOk (s : string) : headOk s -> headOk (Js.trimEnd s).
Proof.
  destruct s as [| c r]; simpl; [auto |]. intros Hc.
  destruct (Js.trimEnd r); [rewrite Hc |]; exact Hc.
Qed.

Lemma trim_idem (s : string) : Js.trim (Js.trim s) = Js.trim s.
Proof.
  unfold Js.trim.
  rewrite (trimStart_fixed (Js.trimEnd (Js.trimStart s))).
  - apply trimEnd_idem.
  - apply trimEnd_headOk, trimStart_headOk.
Qed.

Lemma trimEnd_noWhiteSpace (s : string) : noWhiteSpace s = true -> Js.trimEnd s = s.
Proof.
  induction s as [| c r IH]; [reflexivity |]. simpl.
  intros H. apply andb_true_iff in H. destruct H as [Hc Hr].
  rewrite (IH Hr). apply negb_true_iff in Hc.
  destruct r; [rewrite Hc |]; reflexivity.
Qed.

Lemma trim_noWhiteSpace (s : string) : noWhiteSpace s = true -> Js.trim s = s.
Proof.
  intros H. unfold Js.trim. rewrite trimStart_fixed.
  - apply trimEnd_noWhiteSpace, H.
  - destruct s as [| c r]; simpl in *; [exact I |].
    apply andb_true_iff in H. destruct H as [Hc _]. apply negb_true_iff in Hc. exact Hc.
Qed.

Lemma noWhiteSpace_app (a b : string) :
  noWhiteSpace (a ++ b) = noWhiteSpace a && noWhiteSpace b.
Proof.
  induction a as [| c a IH]; simpl; [reflexivity |]. rewrite IH. apply andb_assoc.
Qed.

Lemma lowerUnit_whiteSpace (c : ascii) :
  Js.isWhiteSpace (lowerUnit c) = Js.isWhiteSpace c.
Proof. destruct c as [[] [] [] [] [] [] [] []]; reflexivity. Qed.

Lemma lowerUnit_idem (c : ascii) : lowerUnit (lowerUnit c) = lowerUnit c.
Proof. destruct c as [[] [] [] [] [] [] [] []]; reflexivity. Qed.

Lemma toLowerCase_idem (s : string) : toLowerCase (toLowerCase s) = toLowerCase s.
Proof.
  induction s as [| c r IH]; simpl; [reflexivity |]. rewrite lowerUnit_idem, IH. reflexivity.
Qed.

Lemma trimStart_lower (s : string) :
  Js.trimStart (toLowerCase s) = toLowerCase (Js.trimStart s).
Proof.
  induction s as [| c r IH]; simpl; [reflexivity |].
  rewrite lowerUnit_whiteSpace. destruct (Js.isWhiteSpace c); [exact IH | reflexivity].
Qed.

Lemma trimEnd_lower (s : string) :
  Js.trimEnd (toLowerCase s) = toLowerCase (Js.trimEnd s).
Proof.
  induction s as [| c r IH]; simpl; [reflexivity |].
  rewrite IH, lowerUnit_whiteSpace.
  destruct (Js.trimEnd r); simpl; [destruct (Js.isWhiteSpace c) |]; reflexivity.
Qed.

Lemma trim_lower (s : string) : Js.trim (toLowerCase s) = toLowerCase (Js.trim s).
Proof. unfold Js.trim. rewrite trimStart_lower, trimEnd_lower. reflexivity. Qed.

Lemma truthy_lower (s : string) : Js.truthy (toLowerCase s) = Js.truthy s.
Proof. destruct s; reflexivity. Qed.

Lemma truthy_nonempty (s : string) : Js.truthy s = true <-> s <> "".
Proof. destruct s; simpl; split; intros H; try reflexivity; congruence. Qed.

(** X14. [formatAllowFrom] normalises once and for all: each entry it
    yields is non-empty, free of leading and trailing white space and
    in lower case, entries that are blank are left out, and formatting
    a formatted list changes nothing. *)
Theorem X14_formatAllowFrom_normalises :
  forall entries : list string,
    Plugin.formatAllowFrom (Plugin.formatAllowFrom entries) = Plugin.formatAllowFrom entries /\
    (forall e, In e (Plugin.formatAllowFrom entries) ->
       e <> "" /\ Js.trim e = e /\ toLowerCase e = e) /\
    (forall e, In e entries -> Js.trim e = "" ->
       List.length (Plugin.formatAllowFrom entries) < List.length entries)%nat.
Proof.
  intros entries.
  assert (Hnorm : forall e, In e (Plugin.formatAllowFrom entries) ->
                    e <> "" /\ Js.trim e = e /\ toLowerCase e = e).
  { intros e He. unfold Plugin.formatAllowFrom in He.
    apply filter_In in He. destruct He as [Hin Ht].
    apply in_map_iff in Hin. destruct Hin as [e0 [<- _]].
    split; [apply truthy_nonempty, Ht |]. split.
    - rewrite trim_lower, trim_idem. reflexivity.
    - apply toLowerCase_idem. }
  split; [| split; [exact Hnorm |]].
  - revert Hnorm. generalize (Plugin.formatAllowFrom entries) as out.
    induction out as [| e out IH]; intros Hnorm; [reflexivity |].
    destruct (Hnorm e (or_introl eq_refl)) as [Hne [Htrim Hlow]].
    unfold Plugin.formatAllowFrom in *. simpl.
    rewrite Htrim, Hlow. apply truthy_nonempty in Hne. rewrite Hne.
    f_equal. apply IH. intros e' He'. apply Hnorm. right. exact He'.
  - clear Hnorm. intros e Hin Hblank. unfold Plugin.formatAllowFrom.
    induction entries as [| a rest IH]; [destruct Hin |].
    simpl. destruct Hin as [-> | Hin].
    + rewrite Hblank. simpl.
      pose proof (filter_length_le Js.truthy
                    (map (fun e0 => toLowerCase (Js.trim e0)) rest)) as Hle.
      rewrite length_map in Hle. lia.
    + specialize (IH Hin).
      destruct (Js.truthy (toLowerCase (Js.trim a))); simpl; lia.
Qed.

(** X15. [normalizeTarget] answers [undefined] or a target that is not
    empty and has no white space at either end; it never answers the
    empty string. *)
Theorem X15_normalizeTarget_trimmed_or_undefined :
  forall raw : string,
    match Plugin.normalizeTarget raw with
    | Some target => target <> "" /\ Js.trim target = target
    | None => True
    end /\
    (Js.trim raw = "" -> Plugin.normalizeTarget raw = None).
Proof.
  intros raw. unfold Plugin.normalizeTarget. split.
  - match goal with
    | |- match (if Js.truthy ?b then _ else _) with _ => _ end =>
        destruct (Js.truthy b) eqn:E; [| exact I];
        split; [apply truthy_nonempty, E | apply trim_idem]
    end.
  - intros H. rewrite H. reflexivity.
Qed.

(** ** Ids made of digits *)

Lemma digit_facts (c : ascii) :
  isDigit c = true ->
  Js.isWhiteSpace c = false /\
  Ascii.eqb "f" (foldUnit c) = false /\
  Ascii.eqb "c" (foldUnit c) = false /\
  Ascii.eqb "u" (foldUnit c) = false /\
  c <> "f"%char /\ c <> "u"%char.
Proof.
  destruct c as [[] [] [] [] [] [] [] []]; intros H; try discriminate H;
    repeat split; discriminate.
Qed.

Lemma allDigits_noWhiteSpace (d : string) : allDigits d = true -> noWhiteSpace d = true.
Proof.
  induction d as [| c r IH]; [reflexivity |]. simpl. intros H.
  apply andb_true_iff in H. destruct H as [Hc Hr].
  destruct (digit_facts c Hc) as [Hw _]. rewrite Hw, (IH Hr). reflexivity.
Qed.

Lemma sliceFrom_app (p d : string) : sliceFrom (String.length p) (p ++ d) = d.
Proof.
  unfold sliceFrom. induction p as [| c p IH]; simpl.
  - rewrite Nat.sub_0_r. apply substring_all.
  - exact IH.
Qed.

Lemma prefix_app (p d : string) : prefix p (p ++ d) = true.
Proof.
  induction p as [| c p IH]; [destruct d; reflexivity |].
  cbn [append prefix]. destruct (ascii_dec c c) as [_ | H]; [exact IH | contradiction].
Qed.

(** X16. Ids as targets.  For an id of 17 to 20 digits, written bare or
    behind one of the prefixes [fluxer:], [channel:] and [user:],
    [looksLikeId] accepts the target and [normalizeTarget] answers the
    bare id; [sendMessage] addresses the bare id as a channel, since it
    does not start with [user:].  Behind [fluxer:user:] the id is still
    normalised to the bare id, but [looksLikeId] rejects the target,
    which strips one prefix only. *)
Theorem X16_digit_ids_recognised_and_normalised :
  forall d : string,
    allDigits d = true ->
    (17 <= String.length d <= 20)%nat ->
    (forall p, In p [""; "fluxer:"; "channel:"; "user:"] ->
       Plugin.looksLikeId (p ++ d) = true /\ Plugin.normalizeTarget (p ++ d) = Some d) /\
    prefix "user:" d = false /\
    Plugin.normalizeTarget ("fluxer:user:" ++ d) = Some d /\
    Plugin.looksLikeId ("fluxer:user:" ++ d) = false.
Proof.
  intros d Hd Hlen.
  pose proof (allDigits_noWhiteSpace d Hd) as Hnw.
  pose proof (trim_noWhiteSpace d Hnw) as Htrim.
  assert (Hbetween : digitsBetween 17 20 d = true).
  { unfold digitsBetween. rewrite Hd.
    destruct Hlen as [Hlo Hhi]. apply Nat.leb_le in Hlo, Hhi. rewrite Hlo, Hhi. reflexivity. }
  destruct d as [| c r]; [simpl in Hlen; lia |].
  assert (Hc : isDigit c = true) by (simpl in Hd; apply andb_true_iff in Hd; tauto).
  destruct (digit_facts c Hc) as [Hw [Hf [Hch [Hu [Hnf Hnu]]]]].
  assert (Htruthy : Js.truthy (String c r) = true) by reflexivity.
  assert (Htrim_p : forall p, noWhiteSpace p = true ->
                      Js.trim (p ++ String c r) = p ++ String c r).
  { intros p Hp. apply trim_noWhiteSpace. rewrite noWhiteSpace_app, Hp, Hnw. reflexivity. }
  assert (Hnofluxer : prefix "fluxer:" (String c r) = false).
  { cbn [prefix]. destruct (ascii_dec "f" c) as [E | _]; [congruence | reflexivity]. }
  assert (Hnouser : prefix "user:" (String c r) = false).
  { cbn [prefix]. destruct (ascii_dec "u" c) as [E | _]; [congruence | reflexivity]. }
  assert (Hbare : removePrefixCI ["fluxer:"; "channel:"; "user:"] (String c r) = String c r).
  { cbn [removePrefixCI startsWithCI]. rewrite Hf, Hch, Hu. reflexivity. }
  assert (Hbare2 : removePrefixCI ["channel:"; "user:"] (String c r) = String c r).
  { cbn [removePrefixCI startsWithCI]. rewrite Hch, Hu. reflexivity. }
  split; [| split; [exact Hnouser | split]].
  - intros p [<- | [<- | [<- | [<- | []]]]].
    + split.
      * unfold Plugin.looksLikeId. change ("" ++ String c r) with (String c r).
        rewrite Hbare, Htrim. exact Hbetween.
      * unfold Plugin.normalizeTarget. change ("" ++ String c r) with (String c r).
        rewrite Htrim, Hnofluxer, Hbare2, Htrim, Htruthy. reflexivity.
    + split.
      * unfold Plugin.looksLikeId.
        change (removePrefixCI ["fluxer:"; "channel:"; "user:"] ("fluxer:" ++ String c r))
          with (sliceFrom (String.length "fluxer:") ("fluxer:" ++ String c r)).
        rewrite sliceFrom_app, Htrim. exact Hbetween.
      * unfold Plugin.normalizeTarget. rewrite (Htrim_p "fluxer:" eq_refl).
        rewrite prefix_app.
        change 7%nat with (String.length "fluxer:").
        rewrite sliceFrom_app, Htrim, Hbare2, Htrim, Htruthy. reflexivity.
    + split.
      * unfold Plugin.looksLikeId.
        change (removePrefixCI ["fluxer:"; "channel:"; "user:"] ("channel:" ++ String c r))
          with (sliceFrom (String.length "channel:") ("channel:" ++ String c r)).
        rewrite sliceFrom_app, Htrim. exact Hbetween.
      * unfold Plugin.normalizeTarget. rewrite (Htrim_p "channel:" eq_refl).
        change (prefix "fluxer:" ("channel:" ++ String c r)) with false. cbv iota.
        change (removePrefixCI ["channel:"; "user:"] ("channel:" ++ String c r))
          with (sliceFrom (String.length "channel:") ("channel:" ++ String c r)).
        rewrite sliceFrom_app, Htrim, Htruthy. reflexivity.
    + split.
      * unfold Plugin.looksLikeId.
        change (removePrefixCI ["fluxer:"; "channel:"; "user:"] ("user:" ++ String c r))
          with (sliceFrom (String.length "user:") ("user:" ++ String c r)).
        rewrite sliceFrom_app, Htrim. exact Hbetween.
      * unfold Plugin.normalizeTarget. rewrite (Htrim_p "user:" eq_refl).
        change (prefix "fluxer:" ("user:" ++ String c r)) with false. cbv iota.
        change (removePrefixCI ["channel:"; "user:"] ("user:" ++ String c r))
          with (sliceFrom (String.length "user:") ("user:" ++ String c r)).
        rewrite sliceFrom_app, Htrim, Htruthy. reflexivity.
  - unfold Plugin.normalizeTarget. rewrite (Htrim_p "fluxer:user:" eq_refl).
    change ("fluxer:user:" ++ String c r) with ("fluxer:" ++ ("user:" ++ String c r)).
    rewrite prefix_app. change 7%nat with (String.length "fluxer:").
    rewrite sliceFrom_app, (Htrim_p "user:" eq_refl).
    change (removePrefixCI ["channel:"; "user:"] ("user:" ++ String c r))
      with (sliceFrom (String.length "user:") ("user:" ++ String c r)).
    rewrite sliceFrom_app, Htrim, Htruthy. reflexivity.
  - unfold Plugin.looksLikeId.
    change (removePrefixCI ["fluxer:"; "channel:"; "user:"] ("fluxer:user:" ++ String c r))
      with (sliceFrom (String.length "fluxer:") ("fluxer:" ++ ("user:" ++ String c r))).
    rewrite sliceFrom_app, (Htrim_p "user:" eq_refl).
    unfold digitsBetween. change (allDigits ("user:" ++ String c r)) with false.
    apply andb_false_r.
Qed.

End TextProperties.

Section PluginHostProperties.

Import RestApi.

Variable W : Type.
Variable net : Net W.
Variable DEFAULT_ACCOUNT_ID : string.
Variable PAIRING_APPROVED_MESSAGE : string.

Lemma truthy_trim (t : string) : Js.truthy (Js.trim t) = true -> Js.truthy t = true.
Proof. destruct t; [discriminate | reflexivity]. Qed.

Lemma filter_rest_effects (requests : list Request) (others : list Plugin.Effect) :
  (forall e, In e others -> Plugin.is_restEffect e = false) ->
  filter Plugin.is_restEffect (map Plugin.Rest requests ++ others)%list
  = map Plugin.Rest requests.
Proof.
  intros Ho. rewrite filter_app.
  assert (H1 : filter Plugin.is_restEffect (map Plugin.Rest requests)
               = map Plugin.Rest requests).
  { induction requests as [| r l IH]; simpl; [reflexivity | rewrite IH; reflexivity]. }
  assert (H2 : filter Plugin.is_restEffect others = []).
  { induction others as [| e l IH]; simpl; [reflexivity |].
    rewrite (Ho e (or_introl eq_refl)). apply IH. intros e' He'. apply Ho. right. exact He'. }
  rewrite H1, H2. apply app_nil_r.
Qed.

(** X17. [startAccount] up to the hand-over to the monitor.  An account
    whose token is missing or blank is refused with the token-required
    error before anything else happens: the REST client stays as it was
    and nothing is called.  For any other account the REST client is
    set to the trimmed token and the only REST calls are those of one
    probe with a timeout of 3000.  Whatever the probe gave,
    [startAccount] then calls the monitor with the trimmed token, the
    account id and the runtime; only a missing plugin API makes it
    throw before that call.  How the monitor's promise settles, which
    is how [startAccount] settles from there, is left open. *)
Theorem X17_startAccount_needs_a_token :
  forall (restClient : Client) (api : option (Core W)) (account : Plugin.FluxerAccount)
         (conf : Config) (w : W),
    let st := Plugin.startAccount net restClient api account conf w in
    (Plugin.isConfigured account = false ->
     Plugin.outcome st = Throws (Thrown "Error: Fluxer bot token is required") /\
     Plugin.restClient_after st = restClient /\
     Plugin.world_after st = w /\
     Plugin.effects st = []) /\
    (Plugin.isConfigured account = true ->
     exists token,
       Plugin.trimmedToken account = Some token /\
       Plugin.restClient_after st = Some token /\
       filter Plugin.is_restEffect (Plugin.effects st)
       = map Plugin.Rest (calls (probeBot net token (Some 3000) w)) /\
       match api with
       | Some runtime =>
           Plugin.outcome st =
           Returns {| Plugin.mc_token := token;
                      Plugin.mc_opts :=
                        {| opt_accountId := Some (Plugin.acc_accountId account);
                           opt_config := conf;
                           opt_core := runtime |} |}
       | None =>
           Plugin.outcome st = Throws (Thrown "Error: Fluxer plugin API not initialized")
       end).
Proof.
  intros restClient api account conf w st. unfold st, Plugin.startAccount, Plugin.isConfigured.
  destruct (Plugin.trimmedToken account) as [[| c r] |]; cbn [Js.truthy_opt Js.truthy].
  - split; [intros _; repeat split | discriminate].
  - split; [discriminate | intros _].
    exists (String c r). split; [reflexivity |].
    destruct (probeBot net (String c r) (Some 3000) w) as [[probed w1] requests].
    cbn [Plugin.restClient_after Plugin.effects Plugin.outcome calls snd].
    split; [reflexivity |]. split.
    + apply filter_rest_effects. intros e He.
      apply in_app_iff in He. destruct He as [He | [<- | []]]; [| reflexivity].
      destruct probed as [p |]; [destruct (ok p); [destruct (probe_bot p) |] |];
        simpl in He; try destruct He as [<- | []]; try destruct He; reflexivity.
    + destruct api; reflexivity.
  - split; [intros _; repeat split | discriminate].
Qed.

(** X18. Where the token of an account comes from.  A non-empty token
    of the configuration wins over the environment; the token source is
    [none] exactly when the account has no usable token, so a
    configured account never has the source [none].  A token of the
    configuration that is only white space still wins over the
    environment and leaves the account unconfigured.  The account is
    disabled only by an explicit [enabled: false]. *)
Theorem X18_token_precedence_and_source :
  forall (section : option Plugin.ChannelSection) (accountId env : option string),
    let a := Plugin.resolveFluxerAccount DEFAULT_ACCOUNT_ID section accountId env in
    (Plugin.acc_tokenSource a = "none" <-> Js.truthy_opt (Plugin.acc_token a) = false) /\
    (Plugin.isConfigured a = true -> Plugin.acc_tokenSource a <> "none") /\
    (forall sec t, section = Some sec -> Plugin.cs_token sec = Some t -> t <> "" ->
       Plugin.acc_token a = Some t /\ Plugin.acc_tokenSource a = "config" /\
       (Js.trim t = "" -> Plugin.isConfigured a = false)) /\
    (Plugin.acc_enabled a = false <->
     exists sec, section = Some sec /\ Plugin.cs_enabled sec = Some false) /\
    (accountId = None -> Plugin.acc_accountId a = DEFAULT_ACCOUNT_ID).
Proof.
  intros section accountId env a.
  assert (Hsrc : Plugin.acc_tokenSource a = "none" <->
                 Js.truthy_opt (Plugin.acc_token a) = false).
  { unfold a, Plugin.resolveFluxerAccount, Plugin.orString.
    cbn [Plugin.acc_tokenSource Plugin.acc_token].
    destruct (Js.truthy_opt (Plugin.cs_token (Js.nullish section Plugin.emptySection)))
      eqn:Ec.
    - rewrite ?Ec. split; discriminate.
    - destruct (Js.truthy_opt env) eqn:Ee; rewrite ?Ee; [split; discriminate |].
      split; reflexivity. }
  split; [exact Hsrc |]. split; [| split; [| split]].
  - intros Hconf Hnone. apply Hsrc in Hnone.
    unfold Plugin.isConfigured, Plugin.trimmedToken in Hconf.
    destruct (Plugin.acc_token a) as [t |]; [| discriminate].
    simpl in Hconf, Hnone. apply truthy_trim in Hconf. congruence.
  - intros sec t -> Ht Hne.
    assert (Htr : Js.truthy t = true) by (destruct t; [contradiction | reflexivity]).
    unfold a, Plugin.resolveFluxerAccount, Plugin.orString, Plugin.isConfigured,
      Plugin.trimmedToken.
    cbn [Plugin.acc_tokenSource Plugin.acc_token Js.nullish]. rewrite Ht.
    cbn [Js.truthy_opt]. rewrite Htr.
    split; [reflexivity |]. split; [reflexivity |].
    intros Hblank. cbn [option_map Js.truthy_opt]. rewrite Hblank. reflexivity.
  - unfold a, Plugin.resolveFluxerAccount. cbn [Plugin.acc_enabled]. split.
    + destruct section as [sec |]; cbn [Js.nullish Plugin.emptySection Plugin.cs_enabled];
        [| discriminate].
      destruct (Plugin.cs_enabled sec) as [[|] |] eqn:E; try discriminate.
      intros _. exists sec. auto.
    + intros [sec [-> He]]. cbn [Js.nullish]. rewrite He. reflexivity.
  - intros ->. reflexivity.
Qed.

(** X19. What the setup writes.  The section written by
    [applyAccountConfig] is always enabled and keeps the DM settings
    and the name.  Without [useEnv] a non-empty token of the input
    becomes the account's token with source [config].  With [useEnv]
    the token of the old section is kept, so an old non-empty token
    still wins over the environment variable.  [validateInput] accepts
    exactly the inputs with [useEnv] or a non-empty token. *)
Theorem X19_setup_writes_enabled_section :
  forall (section : option Plugin.ChannelSection) (useEnv : bool)
         (token accountId env : option string),
    let written := Plugin.applyAccountConfig section useEnv token in
    let a := Plugin.resolveFluxerAccount DEFAULT_ACCOUNT_ID (Some written) accountId env in
    Plugin.acc_enabled a = true /\
    Plugin.cs_dm written = Plugin.cs_dm (Js.nullish section Plugin.emptySection) /\
    Plugin.cs_name written = Plugin.cs_name (Js.nullish section Plugin.emptySection) /\
    (useEnv = false -> Js.truthy_opt token = true ->
     Plugin.acc_token a = token /\ Plugin.acc_tokenSource a = "config") /\
    (useEnv = true ->
     Plugin.cs_token written = Plugin.cs_token (Js.nullish section Plugin.emptySection) /\
     forall old t, section = Some old -> Plugin.cs_token old = Some t -> t <> "" ->
       Plugin.acc_token a = Some t /\ Plugin.acc_tokenSource a = "config") /\
    (Plugin.validateInput useEnv token = None <->
     useEnv = true \/ Js.truthy_opt token = true).
Proof.
  intros section useEnv token accountId env written a.
  split; [reflexivity |]. split; [reflexivity |]. split; [reflexivity |].
  split; [| split].
  - intros -> Ht. unfold a, written, Plugin.resolveFluxerAccount, Plugin.applyAccountConfig,
      Plugin.orString.
    cbn [Plugin.acc_token Plugin.acc_tokenSource Plugin.cs_token Js.nullish].
    rewrite !Ht. split; reflexivity.
  - intros ->. split; [reflexivity |]. intros old t -> Ht Hne.
    assert (Htr : Js.truthy t = true) by (destruct t; [contradiction | reflexivity]).
    unfold a, written, Plugin.resolveFluxerAccount, Plugin.applyAccountConfig,
      Plugin.orString.
    cbn [Plugin.acc_token Plugin.acc_tokenSource Plugin.cs_token Js.nullish].
    rewrite Ht. cbn [Js.truthy_opt]. rewrite Htr. split; reflexivity.
  - unfold Plugin.validateInput.
    destruct useEnv; destruct (Js.truthy_opt token); simpl; split; intros H;
      try reflexivity; try discriminate; auto.
    destruct H; discriminate.
Qed.

(** X20. The approval notice.  [notifyApproval] opens the DM channel of
    the approved user and, when that answers a channel, posts the
    approval message there, without reply reference and without file.
    When the channel cannot be opened nothing is posted. *)
Theorem X20_approval_notice_goes_to_the_dm_channel :
  forall (token uid : string) (w : W),
    let opening := Post token "/users/@me/channels" (JRecipient uid) [] in
    let json :=
      JMessage {| body_content :=
                    if Js.truthy PAIRING_APPROVED_MESSAGE
                    then Some PAIRING_APPROVED_MESSAGE else None;
                  body_message_reference := None |} in
    let o := Plugin.notifyApproval net PAIRING_APPROVED_MESSAGE (initRest token) uid w in
    match fst (rest_post net token "/users/@me/channels" (JRecipient uid) [] w) with
    | Returns (Some dm) =>
        calls o =
          [opening; Post token ("/channels/" ++ shown (created_id dm) ++ "/messages") json []]
    | _ => calls o = [opening] /\ exists e, result o = Throws e
    end.
Proof.
  intros token uid w opening json o.
  pose proof (sendMessage_to_user W net token uid PAIRING_APPROVED_MESSAGE None w) as H.
  assert (Hno : forall r : SendOpts, None = Some r -> Js.truthy_opt (send_mediaUrl r) = false)
    by (intros r Hr; discriminate).
  specialize (H Hno). cbv zeta in H. fold o in H.
  destruct (rest_post net token "/users/@me/channels" (JRecipient uid) [] w)
    as [[[dm |] | e] w1]; cbn [fst].
  - exact (proj1 H).
  - destruct H as [Hc [_ He]]. auto.
  - destruct H as [Hc [_ He]]. split; [exact Hc |]. eauto.
Qed.

(** X21. [probeAccount] does not touch the network for an account whose
    token is missing or blank: it answers [ok: false] with [no token].
    Otherwise it is the probe of the trimmed token. *)
Theorem X21_probeAccount_needs_a_token :
  forall (account : Plugin.FluxerAccount) (timeoutMs : option Z) (w : W),
    (Plugin.isConfigured account = false ->
     Plugin.probeAccount net account timeoutMs w =
       (Returns {| ok := false; error := Some "no token"; probe_bot := None |}, w, [])) /\
    (Plugin.isConfigured account = true ->
     exists token,
       Plugin.acc_token account = Some token /\
       Plugin.probeAccount net account timeoutMs w = probeBot net (Js.trim token) timeoutMs w).
Proof.
  intros account timeoutMs w.
  unfold Plugin.isConfigured, Plugin.probeAccount, Plugin.trimmedToken.
  destruct (Plugin.acc_token account) as [t |]; cbn [option_map Js.truthy_opt].
  - destruct (Js.truthy (Js.trim t)); split; try discriminate; intros _.
    + exists t. split; reflexivity.
    + reflexivity.
  - split; [reflexivity | discriminate].
Qed.

(** X22. The session of a started account.  When [startAccount] hands
    over to the monitor, the session that the monitor sets up carries
    the account's id, so that the [default] of the monitor is not used,
    the configuration and the runtime of the plugin API; the adapter's
    own id is unknown until [Ready], and the REST client holds the
    token that the monitor connects with. *)
Theorem X22_session_of_started_account :
  forall (restClient : Client) (runtime : Core W)
         (account : Plugin.FluxerAccount) (conf : Config) (w w' : W) (now : Z)
         (started : Plugin.MonitorCall W),
    let st := Plugin.startAccount net restClient (Some runtime) account conf w in
    Plugin.outcome st = Returns started ->
    Plugin.restClient_after st = initRest (Plugin.mc_token started) /\
    exists s,
      completion (monitorFluxerProvider (Plugin.mc_opts started) now w') = Normal s /\
      accountId s = Plugin.acc_accountId account /\
      cfg s = conf /\
      core s = runtime /\
      selfUserId s = None /\
      startupMs s = now /\
      forall userId msg,
        fromSelf (onReady s userId) msg = (author_id (author msg) =? userId).
Proof.
  intros restClient runtime account conf w w' now started st. unfold st, Plugin.startAccount.
  destruct (Plugin.trimmedToken account) as [[| c r] |]; cbn [Plugin.outcome];
    [discriminate | | discriminate].
  destruct (probeBot net (String c r) (Some 3000) w) as [[probed w1] requests].
  cbn [Plugin.outcome Plugin.restClient_after]. intros [= <-].
  split; [reflexivity |].
  destruct (monitorFluxerProvider_spec W
              {| opt_accountId := Some (Plugin.acc_accountId account);
                 opt_config := conf;
                 opt_core := runtime |} now w') as [Hs _].
  cbn [Plugin.mc_opts]. eexists. split; [exact Hs |].
  cbn [accountId cfg core selfUserId startupMs opt_accountId opt_config opt_core Js.nullish].
  repeat split.
Qed.

End PluginHostProperties.

Section AllowlistEntries.

Import JsText.

Lemma length_append (a b : string) :
  String.length (a ++ b) = (String.length a + String.length b)%nat.
Proof. induction a as [| c a IH]; simpl; [reflexivity | rewrite IH; reflexivity]. Qed.

Lemma length_toLowerCase (s : string) : String.length (toLowerCase s) = String.length s.
Proof. induction s as [| c s IH]; simpl; [reflexivity | rewrite IH; reflexivity]. Qed.

(** On a code unit whose lower case is ASCII, folding is lowering. *)
Lemma foldUnit_lowerUnit (c : ascii) :
  (nat_of_ascii (lowerUnit c) <? 128)%nat = true -> foldUnit c = lowerUnit c.
Proof.
  destruct c as [[] [] [] [] [] [] [] []]; vm_compute; intros H;
    first [reflexivity | discriminate H].
Qed.

Lemma startsWithCI_lower (p s : string) :
  (forall c, In c (list_ascii_of_string (toLowerCase p)) ->
     (nat_of_ascii c <? 128)%nat = true) ->
  startsWithCI (toLowerCase p) (p ++ s) = true.
Proof.
  induction p as [| c p IH]; intros Hascii; [reflexivity |].
  cbn [toLowerCase append startsWithCI].
  rewrite foldUnit_lowerUnit by (apply Hascii; left; reflexivity).
  rewrite Ascii.eqb_refl. apply IH. intros c' Hc. apply Hascii. right. exact Hc.
Qed.

(** X23. Prefixed allowlist entries.  The plugin reduces an entry
    written as [user:<id>] or [fluxer:<id>], in any case of the prefix,
    to the bare id; the gateway compares configured entries as they are
    written, so such an entry does not admit the sender with that id. *)
Theorem X23_prefixed_entry_does_not_admit :
  forall (p uid : string),
    toLowerCase p = "user:" \/ toLowerCase p = "fluxer:" ->
    Plugin.normalizeAllowEntry (p ++ uid) = uid /\
    isAllowed [p ++ uid] uid = false.
Proof.
  intros p uid Hp.
  assert (Hstarts : forall q, toLowerCase p = q ->
            (forall c, In c (list_ascii_of_string q) -> (nat_of_ascii c <? 128)%nat = true) ->
            startsWithCI q (p ++ uid) = true /\ String.length q = String.length p).
  { intros q <- Hq. split; [apply startsWithCI_lower, Hq | apply length_toLowerCase]. }
  assert (Hlen : (0 < String.length p)%nat).
  { rewrite <- length_toLowerCase. destruct Hp as [-> | ->]; simpl; lia. }
  split.
  - unfold Plugin.normalizeAllowEntry. cbn [removePrefixCI].
    destruct Hp as [Hp | Hp].
    + assert (Hf : startsWithCI "fluxer:" (p ++ uid) = false).
      { destruct p as [| c p']; [discriminate Hp |].
        cbn [toLowerCase] in Hp. injection Hp as Hc _.
        cbn [append startsWithCI].
        rewrite foldUnit_lowerUnit by (rewrite Hc; reflexivity).
        rewrite Hc. reflexivity. }
      destruct (Hstarts "user:" Hp) as [Hu Hl].
      { intros c Hc. simpl in Hc.
        destruct Hc as [<- | [<- | [<- | [<- | [<- | []]]]]]; reflexivity. }
      rewrite Hf, Hu, Hl. apply sliceFrom_app.
    + destruct (Hstarts "fluxer:" Hp) as [Hu Hl].
      { intros c Hc. simpl in Hc.
        destruct Hc as [<- | [<- | [<- | [<- | [<- | [<- | [<- | []]]]]]]]; reflexivity. }
      rewrite Hu, Hl. apply sliceFrom_app.
  - unfold isAllowed. cbn [existsb]. rewrite orb_false_r.
    apply orb_false_iff. split.
    + apply String.eqb_neq. intros H.
      apply (f_equal String.length) in H. rewrite length_append in H. lia.
    + apply String.eqb_neq. intros H.
      assert (Hl : toLowerCase (p ++ uid) = "*") by (rewrite H; reflexivity).
      destruct p as [| c p']; [simpl in Hlen; lia |].
      cbn [append toLowerCase] in Hl. injection Hl as Hc _.
      destruct Hp as [Hp | Hp]; cbn [toLowerCase] in Hp; injection Hp as Hc' _;
        rewrite Hc in Hc'; discriminate Hc'.
Qed.

End AllowlistEntries.

(* ------------------------------------------------------------------ *)
(** * The further properties at sample inputs *)

(** X1 at a message of the adapter itself. *)
Lemma X1_witness :
  let s := openSession bareCore in
  let msg := directMessage (user "12345" "claw") "hi" in
  selfUserId s = Some (author_id (author msg)) /\
  onMessageCreate sampleJs okRest s later msg emptyHost = mkOut (Normal tt) emptyHost [].
Proof.
  intros s msg.
  assert (H1 : selfUserId s = Some (author_id (author msg))) by reflexivity.
  pose proof (X1_own_and_bot_messages_ignored Host sampleJs okRest s later msg emptyHost
                (or_introl H1)) as H.
  split; [exact H1 | exact (proj1 H)].
Defined.

(** X2 at a message of three spaces, in a session whose dispatcher
    would reply. *)
Lemma X2_witness :
  let msg := directMessage alice "   " in
  Js.trim (content msg) = "" /\
  onMessageCreate sampleJs okRest replying later msg emptyHost
  = mkOut (Normal tt) emptyHost [].
Proof.
  intros msg.
  assert (H1 : Js.trim (content msg) = "") by (vm_compute; reflexivity).
  pose proof (X2_blank_message_without_attachment_dropped Host sampleJs okRest replying
                later msg emptyHost H1) as H.
  split; [exact H1 | exact (proj1 H (or_introl eq_refl))].
Defined.

(** X3 at a sender outside the allowlist, under the [allowlist] policy. *)
Lemma X3_witness :
  let s := session storeCore (config (Some "allowlist") None None ["u7"]) None ["u7"] in
  let msg := directMessage alice "hi" in
  isAllowed (effectiveAllowFrom s) (senderId msg) = false /\
  onMessageCreate sampleJs okRest s later msg emptyHost = mkOut (Normal tt) emptyHost [].
Proof.
  intros s msg.
  assert (H1 : isDm msg = true) by (vm_compute; reflexivity).
  assert (H2 : dmPolicy (cfg s) <> "open") by (vm_compute; intros H; discriminate H).
  assert (H3 : dmPolicy (cfg s) <> "pairing") by (vm_compute; intros H; discriminate H).
  assert (H4 : isAllowed (effectiveAllowFrom s) (senderId msg) = false)
    by (vm_compute; reflexivity).
  pose proof (X3_direct_message_denied_silently Host sampleJs okRest s later msg emptyHost
                H1 (or_intror (conj H2 (conj H3 H4)))) as H.
  split; [exact H4 | exact H].
Defined.

(** X4 at the default policy, [pairing], with the wildcard configured. *)
Lemma X4_witness :
  let s := session storeCore (config None None None ["*"]) None ["*"] in
  let msg := directMessage alice "hi" in
  dmPolicy (cfg s) = "pairing" /\
  dmPolicyEnforcement okRest s msg emptyHost = mkOut (Normal tt) emptyHost [].
Proof.
  intros s msg.
  assert (H0 : dmPolicy (cfg s) = "pairing") by (vm_compute; reflexivity).
  assert (H1 : dmPolicy (cfg s) <> "disabled") by (vm_compute; intros H; discriminate H).
  assert (H2 : In "*" (effectiveAllowFrom s)) by (left; reflexivity).
  pose proof (X4_wildcard_or_open_policy_passes_everyone Host okRest s msg emptyHost
                H1 (or_introl H2)) as H.
  split; [exact H0 | exact H].
Defined.

(** X5 at a group message that mentions the adapter. *)
Lemma X5_witness :
  let s := session (replyCore (Some replyOnce) None (Some okSink) None None None)
             (config (Some "open") (Some "disabled") None []) (Some "12345") [] in
  let msg := groupMessage bob "hello <@12345>" in
  hasSelfMention sampleJs s (bodyText msg) = true /\
  onMessageCreate sampleJs okRest s later msg emptyHost = mkOut (Normal tt) emptyHost [].
Proof.
  intros s msg.
  assert (H0 : hasSelfMention sampleJs s (bodyText msg) = true) by (vm_compute; reflexivity).
  assert (H1 : isDm msg = false) by (vm_compute; reflexivity).
  assert (H2 : groupPolicy (fluxerConfig (cfg s)) = Some "disabled") by reflexivity.
  pose proof (X5_group_policy_disabled_drops_everything Host sampleJs okRest s later msg
                emptyHost H1 H2) as H.
  split; [exact H0 | exact H].
Defined.

(** X6 at a direct message in a session without routing, whose
    dispatcher replies. *)
Lemma X6_witness :
  let msg := directMessage alice "hi" in
  let o := onMessageCreate sampleJs okRest replying later msg emptyHost in
  routeUnavailable replying /\
  Forall (keyed "agent:main:main" "default") (trace o).
Proof.
  intros msg o.
  assert (H1 : routeUnavailable replying) by exact I.
  pose proof (X6_fallback_session_key_everywhere Host sampleJs okRest replying later msg
                emptyHost H1) as H.
  split; [exact H1 | exact H].
Defined.

(** X10 at the text [hello] for the channel [c9]. *)
Lemma X10_witness :
  prefix "user:" "c9" = false /\
  RestApi.calls (RestApi.sendMessage Platform.net (RestApi.initRest "t0") "c9" "hello" None 0%nat)
  = [RestApi.Post "t0" "/channels/c9/messages"
       (RestApi.JMessage {| RestApi.body_content := Some "hello";
                            RestApi.body_message_reference := None |}) []].
Proof.
  assert (H1 : prefix "user:" "c9" = false) by (vm_compute; reflexivity).
  assert (H2 : forall o : SendOpts, None = Some o -> Js.truthy_opt (send_mediaUrl o) = false)
    by (intros o Ho; discriminate Ho).
  pose proof (X10_text_send_is_one_post nat Platform.net "t0" "c9" "hello" None 0%nat
                H1 H2) as H.
  cbv zeta in H. split; [exact H1 | exact (proj1 H)].
Defined.

(** X11 at the text [hi] for the user [u1]. *)
Lemma X11_witness :
  RestApi.calls
    (RestApi.sendMessage Platform.net (RestApi.initRest "t0") "user:u1" "hi" None 0%nat)
  = [RestApi.Post "t0" "/users/@me/channels" (RestApi.JRecipient "u1") [];
     RestApi.Post "t0" "/channels/dm-u1/messages"
       (RestApi.JMessage {| RestApi.body_content := Some "hi";
                            RestApi.body_message_reference := None |}) []].
Proof.
  assert (H2 : forall o : SendOpts, None = Some o -> Js.truthy_opt (send_mediaUrl o) = false)
    by (intros o Ho; discriminate Ho).
  pose proof (X11_user_target_opens_dm_channel_first nat Platform.net "t0" "u1" "hi" None
                0%nat H2) as H.
  cbv zeta in H. vm_compute in H. exact (proj1 H).
Defined.


(** X16 at an id of 17 digits. *)
Lemma X16_witness :
  JsText.allDigits "12345678901234567" = true /\
  Plugin.looksLikeId "user:12345678901234567" = true /\
  Plugin.normalizeTarget "fluxer:user:12345678901234567" = Some "12345678901234567".
Proof.
  assert (H1 : JsText.allDigits "12345678901234567" = true) by (vm_compute; reflexivity).
  assert (H2 : (17 <= String.length "12345678901234567" <= 20)%nat) by (simpl; lia).
  pose proof (X16_digit_ids_recognised_and_normalised "12345678901234567" H1 H2) as H.
  destruct H as [Hp [_ [Hn _]]].
  split; [exact H1 |]. split; [| exact Hn].
  exact (proj1 (Hp "user:" (or_intror (or_intror (or_intror (or_introl eq_refl)))))).
Defined.

(** X22 at an account with the token [t0], padded with spaces. *)
Lemma X22_witness :
  let account :=
    {| Plugin.acc_accountId := "work";
       Plugin.acc_name := None;
       Plugin.acc_enabled := true;
       Plugin.acc_token := Some " t0 ";
       Plugin.acc_tokenSource := "config";
       Plugin.acc_config := Plugin.emptySection |} in
  let st := Plugin.startAccount Platform.net None (Some Platform.core) account
              (config None None None []) 0%nat in
  Plugin.restClient_after st = RestApi.initRest "t0" /\
  exists s,
    completion (monitorFluxerProvider (Plugin.mc_opts
                  {| Plugin.mc_token := "t0";
                     Plugin.mc_opts :=
                       {| opt_accountId := Some "work";
                          opt_config := config None None None [];
                          opt_core := Platform.core |} |}) later 0%nat) = Normal s /\
    accountId s = "work".
Proof.
  intros account st.
  assert (H1 : Plugin.outcome st =
               Returns {| Plugin.mc_token := "t0";
                          Plugin.mc_opts :=
                            {| opt_accountId := Some "work";
                               opt_config := config None None None [];
                               opt_core := Platform.core |} |})
    by (vm_compute; reflexivity).
  pose proof (X22_session_of_started_account nat Platform.net None Platform.core
                account (config None None None []) 0%nat 0%nat later _ H1) as H.
  destruct H as [Hc [s [Hs [Ha _]]]].
  split; [exact Hc |]. exists s. split; [exact Hs | exact Ha].
Defined.

(** X23 at the entry [UsEr:u1]. *)
Lemma X23_witness :
  Plugin.normalizeAllowEntry "UsEr:u1" = "u1" /\ isAllowed ["UsEr:u1"] "u1" = false.
Proof.
  assert (H1 : JsText.toLowerCase "UsEr:" = "user:" \/ JsText.toLowerCase "UsEr:" = "fluxer:")
    by (left; vm_compute; reflexivity).
  exact (X23_prefixed_entry_does_not_admit "UsEr:" "u1" H1).
Defined.
